(** * Networking-Agent: diagnostic orchestration and health scoring

    A shallow embedding of the Python sources [agent.py],
    [diagnostics/portia_check.py], [diagnostics/dns_check.py],
    [diagnostics/http_check.py] and [diagnostics/ping_check.py], with the
    properties of the engine stated and proved over it.

    Python dictionaries are finite maps with string keys, Python values are
    the inductive type [pyval], a Python call that may raise returns a
    [result], and the arithmetic on [float] is that of the binary64
    format. *)

From Stdlib Require Import ZArith QArith Qround Qabs Qpower Lia Lqa.
From Stdlib Require Import Permutation Ascii.
From stdpp Require Import gmap strings list fin_maps pretty.

Set Warnings "-register-all".
Open Scope Z_scope.

(* ===================================================================== *)
(** * Python values and exceptions *)
(* ===================================================================== *)

Module Py.

(** Values that occur in the outcome records.  A finite float is
    represented by the rational it denotes (so the sign of a zero, which
    no comparison sees, is not represented); [PInf] is the float
    [inf], or [-inf] when [negative]. *)
Inductive pyval : Type :=
| PNone
| PBool (b : bool)
| PInt (z : Z)
| PFloat (q : Q)
| PInf (negative : bool)
| PStr (s : string)
| PList (l : list pyval)
| PDict (d : gmap string pyval).

(** An outcome record: the [Dict[str, Any]] a probe returns. *)
Abbreviation outcome := (gmap string pyval).

(** The mapping from category key to outcome record ([raw_results],
    [diagnostic_results]). *)
Abbreviation results := (gmap string (gmap string pyval)).

(** A raised exception: its class and [str(e)]. *)
Record exn : Type := Exn { exn_class : string; exn_msg : string }.

Definition KeyError (k : string) : exn := Exn "KeyError" k.
Definition IndexError : exn := Exn "IndexError" "list index out of range".
Definition TypeError (msg : string) : exn := Exn "TypeError" msg.

(** The result of evaluating Python code: a value or a raised exception. *)
Inductive result (A : Type) : Type :=
| Ok (a : A)
| Raise (e : exn).
Arguments Ok {A} a.
Arguments Raise {A} e.

#[global] Instance result_ret : MRet result := fun A a => Ok a.
#[global] Instance result_bind : MBind result := fun A B f m =>
  match m with
  | Ok a => f a
  | Raise e => Raise e
  end.

Definition is_ok {A} (r : result A) : bool :=
  match r with Ok _ => true | Raise _ => false end.

(** [bool(v)]: Python truthiness. *)
Definition Qnonzero (q : Q) : bool := negb (Qnum q =? 0).

Definition truthy (v : pyval) : bool :=
  match v with
  | PNone => false
  | PBool b => b
  | PInt z => negb (z =? 0)
  | PFloat q => Qnonzero q
  | PInf _ => true
  | PStr s => negb (String.eqb s "")
  | PList l => match l with [] => false | _ => true end
  | PDict d => negb (bool_decide (d = ∅))
  end.

(** [d[k]] on a mapping raises [KeyError] when the key is absent. *)
Definition getitem {A} (d : gmap string A) (k : string) : result A :=
  match d !! k with
  | Some a => Ok a
  | None => Raise (KeyError k)
  end.

(** [d.get(k, dflt)] and [d.get(k)]. *)
Definition get_or (d : outcome) (k : string) (dflt : pyval) : pyval :=
  default dflt (d !! k).
Definition get (d : outcome) (k : string) : pyval := get_or d k PNone.

(** [diagnostic_results.get(k, {})]. *)
Definition get_outcome (d : results) (k : string) : outcome :=
  default ∅ (d !! k).

(** Ordering comparisons of a value with an [int] literal.  Numbers (and
    [bool], a subclass of [int]) compare by value; any other operand makes
    Python 3 raise [TypeError]. *)
Definition Qltb (x y : Q) : bool := negb (Qle_bool y x).

Definition py_lt (v : pyval) (n : Z) : result bool :=
  match v with
  | PBool b => Ok (Z.b2z b <? n)
  | PInt z => Ok (z <? n)
  | PFloat q => Ok (Qltb q (inject_Z n))
  | PInf negative => Ok negative
  | _ => Raise (TypeError "'<' not supported between these operands")
  end.

Definition py_gt (v : pyval) (n : Z) : result bool :=
  match v with
  | PBool b => Ok (n <? Z.b2z b)
  | PInt z => Ok (n <? z)
  | PFloat q => Ok (Qltb (inject_Z n) q)
  | PInf negative => Ok (negb negative)
  | _ => Raise (TypeError "'>' not supported between these operands")
  end.

(** Values on which the ordering comparisons are defined. *)
Definition is_number (v : pyval) : bool :=
  match v with
  | PBool _ | PInt _ | PFloat _ | PInf _ => true
  | _ => false
  end.

(** [len(v)]: defined on sequences and mappings; a [str] counts its code
    points, which are the bytes of the UTF-8 text that are not continuation
    bytes. *)
Definition is_continuation (a : Ascii.ascii) : bool :=
  let n := Ascii.nat_of_ascii a in ((128 <=? n) && (n <? 192))%nat.

Fixpoint code_points (s : string) : nat :=
  match s with
  | EmptyString => O
  | String a s' => (if is_continuation a then 0 else 1) + code_points s'
  end%nat.

Definition py_len (v : pyval) : result Z :=
  match v with
  | PStr s => Ok (Z.of_nat (code_points s))
  | PList l => Ok (Z.of_nat (length l))
  | PDict d => Ok (Z.of_nat (size d))
  | _ => Raise (TypeError "object has no len()")
  end.

(** [v.get(k, dflt)] on an arbitrary object: only a dictionary has the
    method. *)
Definition method_get (v : pyval) (k : string) (dflt : pyval)
  : result pyval :=
  match v with
  | PDict d => Ok (get_or d k dflt)
  | _ => Raise (Exn "AttributeError" "object has no attribute 'get'")
  end.

(** An f-string whose interpolated values are arbitrary objects is kept
    as its pieces: literal text and the interpolated values. *)
Inductive piece : Type :=
| Lit (s : string)
| Val (v : pyval).

(** [sep.join(l)]. *)
Fixpoint join (sep : string) (l : list string) : string :=
  match l with
  | [] => ""
  | [s] => s
  | s :: l' => s +:+ sep +:+ join sep l'
  end.

(** An outcome [o] counts as failed when [o.get("ok")] is falsy. *)
Definition failed (o : outcome) : bool := negb (truthy (get o "ok")).

End Py.
Import Py.

(* ===================================================================== *)
(** * Floats *)
(* ===================================================================== *)

Module Float.

(** CPython's [float] is the binary64 format of IEEE 754: 53 significant
    bits, a unit in the last place that is not below 2^-1074, and
    magnitudes below 2^1024.  The result of an operation is the float
    nearest to the exact result, ties going to the even significand; a
    result of magnitude 2^1024 or more is an infinity.  The operands of
    the probes are finite, and none of their operations gives a NaN. *)
Inductive float : Type :=
| Finite (q : Q)
| Infinity (negative : bool).

Definition to_pyval (x : float) : pyval :=
  match x with
  | Finite q => PFloat q
  | Infinity negative => PInf negative
  end.

Definition pow2 (k : Z) : Q := (2 ^ k)%Q.

(** The integer nearest to [x], ties going to the even one. *)
Definition round_half_even (x : Q) : Z :=
  let f := Qfloor x in
  let r := (x - inject_Z f)%Q in
  if Qltb r (1 # 2) then f
  else if Qltb (1 # 2) r then f + 1
  else if Z.even f then f else f + 1.

(** The integer part of the binary logarithm of [|x|], for [x] other than
    zero. *)
Definition ilog2 (x : Q) : Z :=
  let k := Z.log2 (Z.abs (Qnum x)) - Z.log2 (Zpos (Qden x)) in
  if Qle_bool (pow2 k) (Qabs x) then k else k - 1.

(** The exponent of the unit in the last place of the floats around [x]. *)
Definition ulp_exponent (x : Q) : Z := Z.max (ilog2 x - 52) (-1074).

(** The multiple of the unit in the last place nearest to [x]. *)
Definition round_nearest_even (x : Q) : Q :=
  let e := ulp_exponent x in
  Qred (inject_Z (round_half_even (x / pow2 e)) * pow2 e).

(** The float nearest to [x]. *)
Definition nearest (x : Q) : float :=
  let y := round_nearest_even x in
  if Qle_bool (pow2 1024) (Qabs y) then Infinity (Qltb x 0) else Finite y.

(** [x - y] on finite floats. *)
Definition sub (x y : Q) : float := nearest (x - y).

(** [x * n] for a float [x] and a positive [int] [n] below 2^53, which is
    converted to a float without rounding. *)
Definition mul_int (x : float) (n : positive) : float :=
  match x with
  | Finite q => nearest (q * inject_Z (Zpos n))
  | Infinity negative => Infinity negative
  end.

(** [round(x, 2)]: the decimal with two places nearest to the value of
    [x], ties going to the even last digit, converted to the nearest
    float; an infinity is returned as it is. *)
Definition round2 (x : float) : float :=
  match x with
  | Finite q => nearest (Qmake (round_half_even (q * 100)) 100)
  | Infinity negative => Infinity negative
  end.

(** [int(x)]: truncation towards zero. *)
Definition py_int (x : float) : result Z :=
  match x with
  | Finite q => Ok (Z.quot (Qnum q) (Zpos (Qden q)))
  | Infinity _ =>
      Raise (Exn "OverflowError" "cannot convert float infinity to integer")
  end.

(** A signed 64-bit integer of the C runtime, as the integer it holds. *)
Definition int64 (z : Z) : Z := (z + 2 ^ 63) mod 2 ^ 64 - 2 ^ 63.

(** The conversion of a count of nanoseconds to seconds behind the clocks
    of the [time] module: a whole number of seconds is converted as it
    is, any other count is converted to a float and divided by 1e9. *)
Definition as_seconds_double (t : Z) : Q :=
  if Z.rem t (10 ^ 9) =? 0 then inject_Z (Z.quot t (10 ^ 9))
  else round_nearest_even
         (round_nearest_even (inject_Z t) / inject_Z (10 ^ 9)).

End Float.
Import Float.

(* ===================================================================== *)
(** * The environment of the probes *)
(* ===================================================================== *)

Module Env.

(** The five categories, named as the keys of [raw_results]. *)
Inductive check : Type := Dns | Ssl | Http | Ping | Geoip.

(** A [Response] of the HTTP client: the fields [http_check] reads. *)
Inductive response : Type := Response {
  status_code : Z;
  url : string;
  history : list response
}.

(** The calls the sources make to the world outside the program. *)
Inductive call : Type :=
| Gethostbyname (host : string)          (* socket.gethostbyname(host) *)
| HttpGet (url : string)                 (* httpx.Client(...).get(url) *)
| Ping3 (host : string) (timeout : Z)    (* ping3.ping(host, timeout=..) *)
| PerfCounter                            (* time.perf_counter() *)
| SslCertificateCheck (target : string)  (* ssl_check.ssl_certificate_check *)
| GeoipLookup (target : string).         (* geoip_check.geoip_lookup *)

(** What an observer of a run sees: a probe being called, a probe coming
    back (by return or by raise), and the calls to the outside world. *)
Inductive event : Type :=
| Enter (c : check)
| Leave (c : check)
| Net (c : call).

(** What [ping3.ping] returns: the delay of the echo reply in seconds (a
    float), [None] when no reply arrives within the timeout, and [False]
    on an error of the ping itself (the host name cannot be resolved, the
    destination is unreachable, the time to live expired). *)
Inductive ping_reply : Type :=
| Delay (rtt : Q)
| NoReply
| PingError.

(** The outside world.  Each answer may depend on everything that has
    happened so far, and each call may raise instead of returning.
    A raised exception stands for any instance of [Exception], the class
    the probes catch.  The performance counter is the count of
    nanoseconds, a signed 64-bit integer, from which [time.perf_counter]
    derives its float. *)
Record world : Type := World {
  gethostbyname : list event → string → result string;
  http_get : list event → string → result response;
  ping : list event → string → Z → result ping_reply;
  perf_counter_ns : list event → Z;
  ssl_certificate_check : list event → string → result outcome;
  geoip_lookup : list event → string → result outcome
}.

(** [time.perf_counter()]: the counter in seconds, as a float. *)
Definition perf_counter (w : world) (h : list event) : Q :=
  as_seconds_double (int64 (perf_counter_ns w h)).

(** Code that talks to the world: it reads the history so far and extends
    it, and it returns or raises. *)
Definition io (A : Type) : Type := list event → result A * list event.

#[global] Instance io_ret : MRet io := λ A a h, (Ok a, h).
#[global] Instance io_bind : MBind io := λ A B f m h,
  match m h with
  | (Ok a, h') => f a h'
  | (Raise e, h') => (Raise e, h')
  end.

(** Pure code that may raise, run inside [io]. *)
Definition lift {A} (r : result A) : io A := λ h, (r, h).

(** [try: body except Exception as e: handler e]. *)
Definition try_except {A} (body : io A) (handler : exn → io A) : io A :=
  λ h, match body h with
       | (Ok a, h') => (Ok a, h')
       | (Raise e, h') => handler e h'
       end.

(** A call to the world: the answer is computed from the history at the
    time of the call, and the call is recorded. *)
Definition ask {A} (c : call) (answer : list event → result A) : io A :=
  λ h, (answer h, h ++ [Net c]).

End Env.
Import Env.

(* ===================================================================== *)
(** * diagnostics/dns_check.py, ping_check.py, http_check.py: the probes *)
(* ===================================================================== *)

Module Probes.

(** [s.startswith(p)]. *)
Fixpoint startswith (s p : string) {struct p} : bool :=
  match p, s with
  | EmptyString, _ => true
  | String a p', String b s' => Ascii.eqb a b && startswith s' p'
  | String _ _, EmptyString => false
  end.

(** [s[n:]]. *)
Fixpoint drop_chars (n : nat) (s : string) : string :=
  match n, s with
  | O, _ => s
  | S n', String _ s' => drop_chars n' s'
  | S _, EmptyString => EmptyString
  end.

(** The first occurrence of [sep] in [s]: the text before it and the text
    after it. *)
Fixpoint partition (sep s : string) : option (string * string) :=
  if startswith s sep then Some (EmptyString, drop_chars (String.length sep) s)
  else match s with
       | EmptyString => None
       | String a s' =>
           match partition sep s' with
           | Some (before, after) => Some (String a before, after)
           | None => None
           end
       end.

(** [s.split(sep, 1)] for a non-empty [sep]. *)
Definition split1 (s sep : string) : list string :=
  match partition sep s with
  | Some (before, after) => [before; after]
  | None => [s]
  end.

(** [l[i]]: raises [IndexError] out of range. *)
Definition index {A} (l : list A) (i : nat) : result A :=
  match l !! i with
  | Some a => Ok a
  | None => Raise IndexError
  end.

(** dns_check.py, [normalize_target]. *)
Definition normalize_target (target : string) : result string :=
  target ← (if startswith target "http://" || startswith target "https://"
            then index (split1 target "//") 1
            else Ok target);
  index (split1 target "/") 0.

(** dns_check.py, [dns_resolution]. *)
Definition dns_resolution (w : world) (target : string) : io outcome :=
  host ← lift (normalize_target target);
  try_except
    (ip ← ask (Gethostbyname host) (λ h, gethostbyname w h host);
     mret (<["ok" := PBool true]> (<["host" := PStr host]>
             {[ "ip" := PStr ip ]})))
    (λ e, mret (<["ok" := PBool false]> (<["host" := PStr host]>
                  {[ "error" := PStr (exn_msg e) ]}))).

(** ping_check.py, [ping_host].  Only the reply [None] is tested for:
    the reply [False] goes through the arithmetic as the integer 0, on
    which [False * 1000] and [round(0, 2)] are exact. *)
Definition ping_host (w : world) (target : string) : io outcome :=
  host ← lift (normalize_target target);
  try_except
    (rtt ← ask (Ping3 host 2) (λ h, ping w h host 2);
     match rtt with
     | NoReply =>
         mret (<["ok" := PBool false]> (<["host" := PStr host]>
                 (<["latency_ms" := PNone]> {[ "error" := PStr "timeout" ]})))
     | Delay rtt =>
         mret (<["ok" := PBool true]> (<["host" := PStr host]>
                 {[ "latency_ms" :=
                      to_pyval (round2 (mul_int (Finite rtt) 1000)) ]}))
     | PingError =>
         mret (<["ok" := PBool true]> (<["host" := PStr host]>
                 {[ "latency_ms" := PInt (Z.b2z false * 1000) ]}))
     end)
    (λ e, mret (<["ok" := PBool false]> (<["host" := PStr host]>
                  (<["latency_ms" := PNone]>
                     {[ "error" := PStr (exn_msg e) ]})))).

(** http_check.py, [_prepare_url]. *)
Definition _prepare_url (url : string) : string :=
  if startswith url "http://" || startswith url "https://" then url
  else "https://" +:+ url.

(** http_check.py, [http_check].  The construction of the client (with
    [settings.http_timeout]) and the request are one call to the world;
    both are inside the [try], and so is the conversion [int], which
    raises on an infinity. *)
Definition http_check (w : world) (target : string) : io outcome :=
  let url := _prepare_url target in
  try_except
    (start ← ask PerfCounter (λ h, Ok (perf_counter w h));
     r ← ask (HttpGet url) (λ h, http_get w h url);
     now ← ask PerfCounter (λ h, Ok (perf_counter w h));
     elapsed_ms ← lift (py_int (mul_int (sub now start) 1000));
     mret (<["ok" := PBool (status_code r <? 400)]>
          (<["url" := PStr url]>
          (<["status_code" := PInt (status_code r)]>
          (<["response_time_ms" := PInt elapsed_ms]>
          (<["final_url" := PStr (Env.url r)]>
          {[ "redirect_chain" :=
               PList (map (λ h, PInt (status_code h)) (history r)) ]}))))))
    (λ e, mret (<["ok" := PBool false]> (<["url" := PStr url]>
                  {[ "error" := PStr (exn_msg e) ]}))).

End Probes.

(* ===================================================================== *)
(** * diagnostics/portia_check.py: the rule-based analyzer *)
(* ===================================================================== *)

Module Portia.

(** An entry of [root_cause_analysis]. *)
Record root_cause : Type := RootCause {
  category : string;
  severity : string;
  issue : string;
  impact : string;
  technical_details : pyval
}.

(** An entry of [intelligent_recommendations]. *)
Record recommendation : Type := Recommendation {
  priority : string;
  action : string;
  details : string;
  estimated_fix_time : string
}.

(** An entry of [predicted_issues]. *)
Record predicted_issue : Type := PredictedIssue {
  type : string;
  description : list piece;
  recommended_action : string;
  timeline : string
}.

(** The [insights] dictionary: its six keys are fixed, so it is a record. *)
Record Insights : Type := mkInsights {
  root_cause_analysis : list root_cause;
  intelligent_recommendations : list recommendation;
  risk_assessment : string;
  performance_score : Z;
  predicted_issues : list predicted_issue;
  ai_summary : string
}.

(** The in-place updates the analyzer performs on [insights]. *)
Definition append_root_cause (x : root_cause) (i : Insights) : Insights :=
  mkInsights (root_cause_analysis i ++ [x]) (intelligent_recommendations i)
    (risk_assessment i) (performance_score i) (predicted_issues i)
    (ai_summary i).

Definition append_recommendation (x : recommendation) (i : Insights)
  : Insights :=
  mkInsights (root_cause_analysis i) (intelligent_recommendations i ++ [x])
    (risk_assessment i) (performance_score i) (predicted_issues i)
    (ai_summary i).

Definition set_risk (r : string) (i : Insights) : Insights :=
  mkInsights (root_cause_analysis i) (intelligent_recommendations i)
    r (performance_score i) (predicted_issues i) (ai_summary i).

Definition add_score (n : Z) (i : Insights) : Insights :=
  mkInsights (root_cause_analysis i) (intelligent_recommendations i)
    (risk_assessment i) (performance_score i + n) (predicted_issues i)
    (ai_summary i).

Definition append_predicted (x : predicted_issue) (i : Insights) : Insights :=
  mkInsights (root_cause_analysis i) (intelligent_recommendations i)
    (risk_assessment i) (performance_score i) (predicted_issues i ++ [x])
    (ai_summary i).

Definition set_summary (s : string) (i : Insights) : Insights :=
  mkInsights (root_cause_analysis i) (intelligent_recommendations i)
    (risk_assessment i) (performance_score i) (predicted_issues i) s.

(** The initial [insights] of [_generate_fallback_insights]. *)
Definition initial_insights : Insights :=
  mkInsights [] [] "low" 0 [] "".

(** "Analyze DNS issues". *)
Definition analyze_dns (diagnostic_results : results) (insights : Insights)
  : Insights :=
  let dns_result := get_outcome diagnostic_results "dns" in
  if negb (truthy (get dns_result "ok")) then
    let insights := append_root_cause
      (RootCause "DNS" "high" "DNS resolution failure"
         "Complete connectivity loss"
         (get_or dns_result "error" (PStr "Unknown DNS error"))) insights in
    let insights := append_recommendation
      (Recommendation "critical" "Check DNS configuration"
         "Verify DNS server settings and domain registration status"
         "5-15 minutes") insights in
    set_risk "high" insights
  else
    add_score 25 insights.

(** "Analyze SSL issues".  The guard of the expiry check is
    [days_left and days_left < 30]: the comparison is evaluated only when
    [days_left] is truthy. *)
Definition analyze_ssl (diagnostic_results : results) (insights : Insights)
  : result Insights :=
  let ssl_result := get_outcome diagnostic_results "ssl" in
  if negb (truthy (get ssl_result "ok")) then
    let insights := append_root_cause
      (RootCause "SSL" "medium" "SSL certificate problem"
         "Security warnings for users"
         (get_or ssl_result "error"
            (PStr "SSL certificate validation failed"))) insights in
    let insights := append_recommendation
      (Recommendation "high" "Renew SSL certificate"
         "Certificate may be expired or improperly configured"
         "10-30 minutes") insights in
    if String.eqb (risk_assessment insights) "low"
    then Ok (set_risk "medium" insights)
    else Ok insights
  else
    let insights := add_score 25 insights in
    (* Check for expiring certificates *)
    let days_left := get ssl_result "days_left" in
    expiring ← (if truthy days_left then py_lt days_left 30 else Ok false);
    if expiring : bool then
      Ok (append_predicted
            (PredictedIssue "ssl_expiration"
               [Lit "SSL certificate expires in "; Val days_left; Lit " days"]
               "Schedule certificate renewal" "within 2 weeks") insights)
    else Ok insights.

(** "Analyze HTTP issues". *)
Definition analyze_http (diagnostic_results : results) (insights : Insights)
  : result Insights :=
  let http_result := get_outcome diagnostic_results "http" in
  if negb (truthy (get http_result "ok")) then
    let insights := append_root_cause
      (RootCause "HTTP" "high" "HTTP connectivity failure"
         "Website inaccessible to users"
         (get_or http_result "error" (PStr "HTTP connection failed")))
      insights in
    let insights := append_recommendation
      (Recommendation "critical" "Check web server status"
         "Verify server is running and accepting connections"
         "5-20 minutes") insights in
    Ok (set_risk "high" insights)
  else
    let insights := add_score 25 insights in
    (* Analyze response time *)
    let response_time := get_or http_result "response_time_ms" (PInt 0) in
    slow ← py_gt response_time 3000;
    if slow : bool then
      Ok (append_predicted
            (PredictedIssue "performance"
               [Lit "Slow response time: "; Val response_time; Lit "ms"]
               "Optimize server performance or consider CDN"
               "ongoing monitoring recommended") insights)
    else Ok insights.

(** "Analyze ping connectivity". *)
Definition analyze_ping (diagnostic_results : results) (insights : Insights)
  : result Insights :=
  let ping_result := get_outcome diagnostic_results "ping" in
  if negb (truthy (get ping_result "ok")) then
    let insights := append_root_cause
      (RootCause "Network" "medium" "ICMP ping failure"
         "Network connectivity issues"
         (get_or ping_result "error" (PStr "Ping timeout or blocked")))
      insights in
    let insights := append_recommendation
      (Recommendation "medium" "Check network connectivity"
         "ICMP may be blocked by firewall or network issues"
         "10-30 minutes") insights in
    Ok insights
  else
    let insights := add_score 15 insights in
    (* Analyze latency *)
    let latency := get_or ping_result "latency_ms" (PInt 0) in
    high_latency ← py_gt latency 200;
    if high_latency : bool then
      Ok (append_predicted
            (PredictedIssue "latency"
               [Lit "High latency: "; Val latency; Lit "ms"]
               "Investigate network path or consider closer servers"
               "ongoing monitoring recommended") insights)
    else Ok insights.

(** "Analyze GeoIP". *)
Definition analyze_geoip (diagnostic_results : results) (insights : Insights)
  : Insights :=
  let geoip_result := get_outcome diagnostic_results "geoip" in
  if truthy (get geoip_result "ok") then add_score 10 insights
  else insights.

(** "Generate AI summary".  A Python [str] is represented by its UTF-8
    bytes; the prefix of both messages is spelled as in the source file. *)
Definition generate_summary (target : string) (insights : Insights)
  : Insights :=
  match root_cause_analysis insights with
  | _ :: _ =>
      let primary_issues := map category (root_cause_analysis insights) in
      set_summary
        ("ðŸ¤– AI Analysis: Detected " +:+ pretty (length primary_issues)
         +:+ " primary issue(s) affecting " +:+ target +:+ ". "
         +:+ "Main concerns: " +:+ join ", " primary_issues +:+ ". "
         +:+ "Risk level: " +:+ risk_assessment insights +:+ ". "
         +:+ "Performance score: " +:+ pretty (performance_score insights)
         +:+ "/100.") insights
  | [] =>
      set_summary
        ("ðŸ¤– AI Analysis: " +:+ target
         +:+ " appears healthy with a performance score of "
         +:+ pretty (performance_score insights) +:+ "/100. "
         +:+ "No critical issues detected.") insights
  end.

(** [PortiaAIClient._generate_fallback_insights]: the five blocks in source
    order, then the summary. *)
Definition _generate_fallback_insights (diagnostic_results : results)
  (target : string) : result Insights :=
  let insights := initial_insights in
  let insights := analyze_dns diagnostic_results insights in
  insights ← analyze_ssl diagnostic_results insights;
  insights ← analyze_http diagnostic_results insights;
  insights ← analyze_ping diagnostic_results insights;
  let insights := analyze_geoip diagnostic_results insights in
  Ok (generate_summary target insights).

(** [PortiaAIClient]: [api_key] is [settings.portia_api_key], which may be
    [None]. *)
Record PortiaAIClient : Type := {
  api_key : option string;
  base_url : string;
  timeout : Z
}.

(** [PortiaAIClient.__init__], with the configured key as argument. *)
Definition new_client (portia_api_key : option string) : PortiaAIClient :=
  {| api_key := portia_api_key;
     base_url := "https://api.portia.ai/v1";
     timeout := 10 |}.

(** The UTF-8 text of a code point below U+10000: one, two or three
    bytes. *)
Definition byte (n : N) : Ascii.ascii := Ascii.ascii_of_N n.

Definition utf8 (c : N) : string :=
  (if c <? 128 then String (byte c) ""
   else if c <? 2048 then
     String (byte (192 + c / 64)) (String (byte (128 + c mod 64)) "")
   else
     String (byte (224 + c / 4096))
       (String (byte (128 + (c / 64) mod 64))
          (String (byte (128 + c mod 64)) "")))%N.

(** The code points for which [str.isspace()] holds: the characters that
    [str.strip()] removes. *)
Definition whitespace_code_points : list N :=
  [0x09; 0x0A; 0x0B; 0x0C; 0x0D; 0x1C; 0x1D; 0x1E; 0x1F; 0x20;
   0x85; 0xA0; 0x1680;
   0x2000; 0x2001; 0x2002; 0x2003; 0x2004; 0x2005; 0x2006; 0x2007;
   0x2008; 0x2009; 0x200A;
   0x2028; 0x2029; 0x202F; 0x205F; 0x3000]%N.

Definition whitespace : list string := map utf8 whitespace_code_points.

(** Whether the text [c] is one whitespace character. *)
Definition isspace (c : string) : bool := existsb (String.eqb c) whitespace.

(** [s.lstrip()]: the leading whitespace characters are removed.  A
    character is the next one, two or three bytes of the text. *)
Fixpoint lstrip (s : string) : string :=
  match s with
  | EmptyString => EmptyString
  | String a s1 =>
      if isspace (String a "") then lstrip s1
      else match s1 with
           | EmptyString => s
           | String b s2 =>
               if isspace (String a (String b "")) then lstrip s2
               else match s2 with
                    | EmptyString => s
                    | String c s3 =>
                        if isspace (String a (String b (String c "")))
                        then lstrip s3
                        else s
                    end
           end
  end.

(** [s.rstrip()]: the text is cut where only whitespace follows. *)
Fixpoint rstrip (s : string) : string :=
  match s with
  | EmptyString => EmptyString
  | String a s' =>
      if String.eqb (lstrip s) "" then "" else String a (rstrip s')
  end.

(** [s.strip()]. *)
Definition strip (s : string) : string := rstrip (lstrip s).

(** [PortiaAIClient.is_available]. *)
Definition is_available (self : PortiaAIClient) : bool :=
  match api_key self with
  | None => false
  | Some k => negb (String.eqb (strip k) "")
  end.

(** [PortiaAIClient.generate_ai_insights]: both branches call the local
    analyzer. *)
Definition generate_ai_insights (self : PortiaAIClient)
  (diagnostic_results : results) (target : string) : result Insights :=
  if negb (is_available self) then
    _generate_fallback_insights diagnostic_results target
  else
    _generate_fallback_insights diagnostic_results target.

(** [get_ai_insights], with the module's global [portia_client] as an
    argument. *)
Definition get_ai_insights (portia_client : PortiaAIClient)
  (diagnostic_results : results) (target : string) : result Insights :=
  generate_ai_insights portia_client diagnostic_results target.

End Portia.

(* ===================================================================== *)
(** * utils/explain.py: the explanations *)
(* ===================================================================== *)

Module Explain.

Definition status_text (result : outcome) : pyval :=
  PStr (if truthy (get result "ok") then "OK" else "FAILED").

Definition explain_dns (result : outcome) (mode : string) : list piece :=
  if String.eqb mode "beginner" then
    if truthy (get result "ok") then
      [Lit "✅ DNS resolution successful! "; Val (get result "host");
       Lit " resolves to "; Val (get result "ip")]
    else
      [Lit "❌ DNS resolution failed for "; Val (get result "host");
       Lit ". "; Val (get_or result "error" (PStr ""))]
  else
    [Lit "DNS Query: "; Val (get result "host"); Lit " → ";
     Val (get_or result "ip" (PStr "FAILED")); Lit ", Status: ";
     Val (status_text result)].

Definition explain_ssl (result : outcome) (mode : string)
  : Py.result (list piece) :=
  if String.eqb mode "beginner" then
    if truthy (get result "ok") then
      let days_left := get result "days_left" in
      match days_left with
      | PNone => Ok [Lit "🔒 SSL certificate is valid!"]
      | _ => Ok [Lit "🔒 SSL certificate is valid! Expires in ";
                 Val days_left; Lit " days."]
      end
    else
      Ok [Lit "⚠️ SSL certificate issue for "; Val (get result "host");
          Lit ". "; Val (get_or result "error" (PStr ""))]
  else
    let issuer := get_or result "issuer" (PDict ∅) in
    organization ← method_get issuer "organizationName" (PStr "Unknown");
    Ok [Lit "SSL Check: Valid="; Val (get result "ok"); Lit ", Issuer=";
        Val organization; Lit ", Days Left=";
        Val (get_or result "days_left" (PStr "N/A"))].

Definition explain_http (result : outcome) (mode : string)
  : Py.result (list piece) :=
  if String.eqb mode "beginner" then
    if truthy (get result "ok") then
      Ok [Lit "🌐 Website is reachable! Status code: ";
          Val (get result "status_code"); Lit " (";
          Val (get result "response_time_ms"); Lit "ms)"]
    else
      Ok [Lit "⚠️ Website not reachable. ";
          Val (get_or result "error" (PStr ""))]
  else
    redirects ← py_len (get_or result "redirect_chain" (PList []));
    Ok [Lit "HTTP Check: Status="; Val (get result "status_code");
        Lit ", Response Time="; Val (get result "response_time_ms");
        Lit "ms, Redirects="; Val (PInt redirects)].

Definition explain_ping (result : outcome) (mode : string) : list piece :=
  if String.eqb mode "beginner" then
    if truthy (get result "ok") then
      [Lit "📶 Ping successful! Latency: "; Val (get result "latency_ms");
       Lit "ms to "; Val (get result "host")]
    else
      [Lit "❌ Cannot ping "; Val (get result "host"); Lit ". ";
       Val (get_or result "error" (PStr ""))]
  else
    [Lit "Ping Check: Host="; Val (get result "host"); Lit ", RTT=";
     Val (get result "latency_ms"); Lit "ms, Status=";
     Val (status_text result)].

Definition explain_geoip (result : outcome) (mode : string) : list piece :=
  if String.eqb mode "beginner" then
    if truthy (get result "ok") then
      let location := [Val (get_or result "city" (PStr "Unknown")); Lit ", ";
                       Val (get_or result "country" (PStr "Unknown"))] in
      [Lit "🌍 Server is located in "] ++ location
        ++ [Lit ". IP: "; Val (get result "ip")]
    else
      [Lit "❌ GeoIP lookup failed. "; Val (get_or result "error" (PStr ""))]
  else
    [Lit "GeoIP: IP="; Val (get result "ip"); Lit ", ASN=";
     Val (get result "asn"); Lit ", Location="; Val (get result "country");
     Lit "/"; Val (get result "city"); Lit ", Org="; Val (get result "org")].

End Explain.

(* ===================================================================== *)
(** * agent.py: scorer, summary and orchestration *)
(* ===================================================================== *)

Module Agent.

Import Portia Probes Explain.

(** [_calculate_health_score]: the score starts at 100 and each failing
    category's block subtracts its penalty, in the order DNS, HTTP, SSL,
    Ping, GeoIP; the result is [max(0, score)]. *)
Definition _calculate_health_score (raw_results : results) : result Z :=
  let score := 100 in
  (* DNS check (25 points) *)
  dns ← getitem raw_results "dns";
  let score := if negb (truthy (get_or dns "ok" (PBool false)))
               then score - 25 else score in
  (* HTTP check (25 points) *)
  http ← getitem raw_results "http";
  let score := if negb (truthy (get_or http "ok" (PBool false)))
               then score - 25 else score in
  (* SSL check (20 points) *)
  ssl ← getitem raw_results "ssl";
  let score := if negb (truthy (get_or ssl "ok" (PBool false)))
               then score - 20 else score in
  (* Ping check (15 points) *)
  ping ← getitem raw_results "ping";
  let score := if negb (truthy (get_or ping "ok" (PBool false)))
               then score - 15 else score in
  (* GeoIP check (15 points) *)
  geoip ← getitem raw_results "geoip";
  let score := if negb (truthy (get_or geoip "ok" (PBool false)))
               then score - 15 else score in
  Ok (Z.max 0 score).

(** The line a recommendation of the insights adds to the fixes. *)
Definition ai_fix (rec : recommendation) : string :=
  let ai_fix := "🤖 " +:+ action rec +:+ ": " +:+ details rec in
  if negb (String.eqb (estimated_fix_time rec) "")
  then ai_fix +:+ " (Est. time: " +:+ estimated_fix_time rec +:+ ")"
  else ai_fix.

(** The summary generated without a narrative of the insights. *)
Definition local_summary (issues : list string) (domain : string) : string :=
  match issues with
  | [] => "✅ All diagnostics passed for " +:+ domain
          +:+ ". The target appears to be healthy and reachable."
  | _ => "⚠️ Found " +:+ pretty (length issues) +:+ " issue(s) with "
         +:+ domain +:+ ": " +:+ join ", " issues
  end.

(** [_generate_summary_and_fixes].  [ai_insights] is [None] or the
    analyzer's dictionary (which has six keys, hence is truthy). *)
Definition _generate_summary_and_fixes (raw_results : results)
  (domain : string) (ai_insights : option Insights)
  : result (string * list string) :=
  let issues := [] in
  let fixes := [] in
  (* Check each diagnostic result *)
  dns ← getitem raw_results "dns";
  let '(issues, fixes) :=
    if negb (truthy (get_or dns "ok" (PBool false))) then
      (issues ++ ["DNS resolution failed"],
       fixes ++ ["Check if the domain name is correct and exists";
                 "Try using a different DNS server (8.8.8.8 or 1.1.1.1)"])
    else (issues, fixes) in
  http ← getitem raw_results "http";
  let '(issues, fixes) :=
    if negb (truthy (get_or http "ok" (PBool false))) then
      (issues ++ ["HTTP connection failed"],
       fixes ++ ["Verify the website is running and accessible";
                 "Check if there are any firewall or network restrictions"])
    else (issues, fixes) in
  ssl ← getitem raw_results "ssl";
  let '(issues, fixes) :=
    if negb (truthy (get_or ssl "ok" (PBool false))) then
      (issues ++ ["SSL certificate issues"],
       fixes ++ ["Check SSL certificate validity and expiration";
                 "Ensure proper SSL configuration on the server"])
    else (issues, fixes) in
  ping ← getitem raw_results "ping";
  let '(issues, fixes) :=
    if negb (truthy (get_or ping "ok" (PBool false))) then
      (issues ++ ["Ping connectivity failed"],
       fixes ++ ["Check network connectivity to the target";
                 "Verify if ICMP traffic is allowed"])
    else (issues, fixes) in
  geoip ← getitem raw_results "geoip";
  let '(issues, fixes) :=
    if negb (truthy (get_or geoip "ok" (PBool false))) then
      (issues ++ ["GeoIP lookup failed"],
       fixes ++ ["This may indicate DNS or connectivity issues"])
    else (issues, fixes) in
  match ai_insights with
  | Some ai_insights =>
      (* Add AI-powered intelligent recommendations *)
      let fixes := fixes ++ map ai_fix (intelligent_recommendations ai_insights) in
      (* Use AI summary if available *)
      let ai_summary := ai_summary ai_insights in
      if negb (String.eqb ai_summary "") then Ok (ai_summary, fixes)
      else Ok (local_summary issues domain, fixes)
  | None =>
      (* Generate summary without AI *)
      Ok (local_summary issues domain, fixes)
  end.

(** The dictionary [run_diagnostics] returns. *)
Record diagnosis : Type := Diagnosis {
  raw : results;
  explained : gmap string (list piece);
  health_score : Z;
  summary : string;
  fix_suggestions : list string;
  ai_insights : Insights
}.

(** A call of a probe as an observer sees it: the probe is entered, runs,
    and is left when it returns or raises. *)
Definition probe {A} (c : check) (body : io A) : io A :=
  λ h, let '(r, h') := body (h ++ [Enter c]) in (r, h' ++ [Leave c]).

(** "Collect raw results": the dictionary display evaluates its five
    values from top to bottom.  [ssl_check] and [geoip_check] are calls to
    the world. *)
Definition collect_raw_results (w : world) (domain : string) : io results :=
  dns ← probe Dns (dns_resolution w domain);
  ssl ← probe Ssl (ask (SslCertificateCheck domain)
                       (λ h, ssl_certificate_check w h domain));
  http ← probe Http (http_check w domain);
  ping ← probe Ping (ping_host w domain);
  geoip ← probe Geoip (ask (GeoipLookup domain)
                           (λ h, geoip_lookup w h domain));
  mret (<["dns" := dns]> (<["ssl" := ssl]> (<["http" := http]>
         (<["ping" := ping]> {[ "geoip" := geoip ]})))).

(** "Explain results in human-friendly format". *)
Definition explain_results (raw_results : results) (mode : string)
  : result (gmap string (list piece)) :=
  dns ← getitem raw_results "dns";
  ssl ← getitem raw_results "ssl";
  ssl ← explain_ssl ssl mode;
  http ← getitem raw_results "http";
  http ← explain_http http mode;
  ping ← getitem raw_results "ping";
  geoip ← getitem raw_results "geoip";
  Ok (<["dns" := explain_dns dns mode]> (<["ssl" := ssl]> (<["http" := http]>
        (<["ping" := explain_ping ping mode]>
           {[ "geoip" := explain_geoip geoip mode ]})))).

(** What [run_diagnostics] does once the raw results are collected. *)
Definition assess (portia_client : PortiaAIClient) (raw_results : results)
  (domain mode : string) : result diagnosis :=
  explained ← explain_results raw_results mode;
  (* Calculate health score *)
  health_score ← _calculate_health_score raw_results;
  (* Get AI-powered insights from Portia *)
  ai_insights ← get_ai_insights portia_client raw_results domain;
  (* Generate summary and fix suggestions (enhanced with AI) *)
  '(summary, fix_suggestions) ←
    _generate_summary_and_fixes raw_results domain (Some ai_insights);
  Ok (Diagnosis raw_results explained health_score summary fix_suggestions
        ai_insights).

(** [run_diagnostics]. *)
Definition run_diagnostics (w : world) (portia_client : PortiaAIClient)
  (domain mode : string) : io diagnosis :=
  raw_results ← collect_raw_results w domain;
  lift (assess portia_client raw_results domain mode).

End Agent.

(* ===================================================================== *)
(** * app.py: the request handlers *)
(* ===================================================================== *)

Module App.

Import Portia Agent.

(** [request.args] and [request.form]: text values under text keys. *)
Abbreviation fields := (gmap string string).

(** [fields.get(k, dflt)]. *)
Definition field (f : fields) (k dflt : string) : string :=
  default dflt (f !! k).

(** The body of a JSON response. *)
Inductive json : Type :=
| Failure (error : string)
    (* {"success": False, "error": error} *)
| Diagnosed (data : diagnosis)
    (* {"success": True, "data": data} *)
| Insight (ai_insights : Insights) (portia_available : bool).
    (* {"success": True, "ai_insights": .., "portia_available": ..} *)

(** What the form handler answers: a redirect to the index page after
    flashing an error message, or the rendered results page. *)
Inductive page : Type :=
| RedirectToIndex (flashed : string)
| ResultsPage (target mode : string) (result : diagnosis).

(** [diagnose]: the handler of the form.  Rendering the template and
    building a JSON body are taken not to raise; [strip] is [str.strip],
    as in the client. *)
Definition diagnose (w : world) (portia_client : PortiaAIClient)
  (form : fields) : io page :=
  let target := strip (field form "target" "") in
  let mode := field form "mode" "beginner" in
  if String.eqb target "" then
    mret (RedirectToIndex "Please enter a domain or IP address to diagnose.")
  else
    try_except
      (result ← run_diagnostics w portia_client target mode;
       mret (ResultsPage target mode result))
      (λ e, mret (RedirectToIndex
                    ("Error running diagnostics: " +:+ exn_msg e))).

(** [api_diagnose]. *)
Definition api_diagnose (w : world) (portia_client : PortiaAIClient)
  (args : fields) : io json :=
  let target := strip (field args "url" "") in
  let mode := field args "mode" "beginner" in
  if String.eqb target "" then
    mret (Failure "No target provided")
  else
    try_except
      (result ← run_diagnostics w portia_client target mode;
       mret (Diagnosed result))
      (λ e, mret (Failure (exn_msg e))).

(** [api_ai_insights]: the same five probe calls as [run_diagnostics],
    then the insights. *)
Definition api_ai_insights (w : world) (portia_client : PortiaAIClient)
  (args : fields) : io json :=
  let target := strip (field args "url" "") in
  if String.eqb target "" then
    mret (Failure "No target provided")
  else
    try_except
      (raw_results ← collect_raw_results w target;
       ai_insights ← lift (get_ai_insights portia_client raw_results target);
       mret (Insight ai_insights (is_available portia_client)))
      (λ e, mret (Failure (exn_msg e))).

End App.

(* ===================================================================== *)
(** * The five categories and the outcome sets over them *)
(* ===================================================================== *)

(** The key under which the sources store a category's outcome. *)
Definition key (c : check) : string :=
  match c with
  | Dns => "dns"
  | Ssl => "ssl"
  | Http => "http"
  | Ping => "ping"
  | Geoip => "geoip"
  end.

(** The five categories, in the order in which the analyzer checks them. *)
Definition checks : list check := [Dns; Ssl; Http; Ping; Geoip].

(** The penalty table of the scorer. *)
Definition penalty (c : check) : Z :=
  match c with
  | Dns => 25
  | Http => 25
  | Ssl => 20
  | Ping => 15
  | Geoip => 15
  end.

(** An outcome set holds an outcome for each of the five categories. *)
Definition complete (d : results) : Prop :=
  ∀ c, is_Some (d !! key c).

(** Whether category [c] failed in [d] (an absent entry reads as the
    empty record, whose [ok] is absent). *)
Definition fails (d : results) (c : check) : bool :=
  failed (get_outcome d (key c)).

(** The failing categories of [d], and the sum of their penalties. *)
Definition failing (d : results) : list check :=
  filter (λ c, fails d c = true) checks.

Definition total_penalty (cs : list check) : Z :=
  foldr (λ c acc, penalty c + acc) 0 cs.

(** Builds an outcome set from one record per category. *)
Definition outcome_set (dns ssl http ping geoip : outcome) : results :=
  <["dns" := dns]> (<["ssl" := ssl]> (<["http" := http]>
    (<["ping" := ping]> (<["geoip" := geoip]> ∅)))).

Definition ok_record : outcome := {[ "ok" := PBool true ]}.
Definition failed_record (msg : string) : outcome :=
  <["ok" := PBool false]> {[ "error" := PStr msg ]}.

(** ** The rule table of the analyzer

    What the analyzer's block for category [c] does, written as a table:
    the issue and the recommendation a failure emits, the effect of a
    failure on the risk level, and the contribution of a success to the
    performance score. *)

Import Portia.

Definition issue_for (c : check) (o : outcome) : option root_cause :=
  match c with
  | Dns => Some (RootCause "DNS" "high" "DNS resolution failure"
                   "Complete connectivity loss"
                   (get_or o "error" (PStr "Unknown DNS error")))
  | Ssl => Some (RootCause "SSL" "medium" "SSL certificate problem"
                   "Security warnings for users"
                   (get_or o "error" (PStr "SSL certificate validation failed")))
  | Http => Some (RootCause "HTTP" "high" "HTTP connectivity failure"
                    "Website inaccessible to users"
                    (get_or o "error" (PStr "HTTP connection failed")))
  | Ping => Some (RootCause "Network" "medium" "ICMP ping failure"
                    "Network connectivity issues"
                    (get_or o "error" (PStr "Ping timeout or blocked")))
  | Geoip => None
  end.

Definition recommendation_for (c : check) : option recommendation :=
  match c with
  | Dns => Some (Recommendation "critical" "Check DNS configuration"
                   "Verify DNS server settings and domain registration status"
                   "5-15 minutes")
  | Ssl => Some (Recommendation "high" "Renew SSL certificate"
                   "Certificate may be expired or improperly configured"
                   "10-30 minutes")
  | Http => Some (Recommendation "critical" "Check web server status"
                    "Verify server is running and accepting connections"
                    "5-20 minutes")
  | Ping => Some (Recommendation "medium" "Check network connectivity"
                    "ICMP may be blocked by firewall or network issues"
                    "10-30 minutes")
  | Geoip => None
  end.

(** The risk level after a failure of category [c], from the level
    before it. *)
Definition upgrade (c : check) (risk : string) : string :=
  match c with
  | Dns | Http => "high"
  | Ssl => if String.eqb risk "low" then "medium" else risk
  | Ping | Geoip => risk
  end.

(** The risk level after category [c] has been processed. *)
Definition risk_step (d : results) (risk : string) (c : check) : string :=
  if fails d c then upgrade c risk else risk.

Definition contribution (c : check) : Z :=
  match c with
  | Dns | Ssl | Http => 25
  | Ping => 15
  | Geoip => 10
  end.

(** The three risk levels and their order low < medium < high. *)
Definition risk_rank (risk : string) : option nat :=
  if String.eqb risk "low" then Some 0%nat
  else if String.eqb risk "medium" then Some 1%nat
  else if String.eqb risk "high" then Some 2%nat
  else None.

(** [rank_le r r']: both are risk levels and [r'] is not below [r]. *)
Definition rank_le (r r' : string) : bool :=
  match risk_rank r, risk_rank r' with
  | Some n, Some n' => (n <=? n')%nat
  | _, _ => false
  end.

(** The analyzer's block for category [c]. *)
Definition analyze (c : check) (d : results) (insights : Insights)
  : result Insights :=
  match c with
  | Dns => Ok (analyze_dns d insights)
  | Ssl => analyze_ssl d insights
  | Http => analyze_http d insights
  | Ping => analyze_ping d insights
  | Geoip => Ok (analyze_geoip d insights)
  end.

(** The blocks run in a given order. *)
Fixpoint run_checks (order : list check) (d : results) (insights : Insights)
  : result Insights :=
  match order with
  | [] => Ok insights
  | c :: order' => insights ← analyze c d insights; run_checks order' d insights
  end.

(** The metrics the analyzer compares with a threshold are numbers: the
    days left of a valid certificate (unless absent or falsy), the response
    time of a successful request and the latency of a successful ping.
    On any other operand Python's comparison raises [TypeError]. *)
Definition numeric_metrics (d : results) : bool :=
  let ssl := get_outcome d "ssl" in
  let http := get_outcome d "http" in
  let ping := get_outcome d "ping" in
  (failed ssl || negb (truthy (get ssl "days_left"))
   || is_number (get ssl "days_left"))
  && (failed http || is_number (get_or http "response_time_ms" (PInt 0)))
  && (failed ping || is_number (get_or ping "latency_ms" (PInt 0))).

(** What the block for [c] does to the insights, according to the table;
    [ps] are the predicted issues a success adds. *)
Definition rule_effect (d : results) (c : check) (i : Insights)
  (ps : list predicted_issue) : Insights :=
  if fails d c then
    mkInsights
      (root_cause_analysis i ++ option_list (issue_for c (get_outcome d (key c))))
      (intelligent_recommendations i ++ option_list (recommendation_for c))
      (upgrade c (risk_assessment i))
      (performance_score i) (predicted_issues i) (ai_summary i)
  else
    mkInsights (root_cause_analysis i) (intelligent_recommendations i)
      (risk_assessment i) (performance_score i + contribution c)
      (predicted_issues i ++ ps) (ai_summary i).

(** The issues and the recommendations emitted for the failing categories
    among [order], in the order of [order]. *)
Definition issues_of (d : results) (order : list check) : list root_cause :=
  omap (λ c, issue_for c (get_outcome d (key c)))
    (filter (λ c, fails d c = true) order).

Definition recommendations_of (d : results) (order : list check)
  : list recommendation :=
  omap recommendation_for (filter (λ c, fails d c = true) order).

(** The performance score the succeeding categories among [order]
    contribute. *)
Definition score_of (d : results) (order : list check) : Z :=
  foldr (λ c acc, (if fails d c then 0 else contribution c) + acc) 0 order.

(** The risk level the upgrade rule yields, in closed form. *)
Definition final_risk (d : results) : string :=
  if fails d Dns || fails d Http then "high"
  else if fails d Ssl then "medium"
  else "low".

(** The claim that every failure other than DNS and HTTP raises the risk
    to at least medium, as the specification states it. *)
Definition every_other_failure_upgrades : Prop :=
  ∀ (d : results) (target : string),
    numeric_metrics d = true →
    fails d Ssl = true ∨ fails d Ping = true ∨ fails d Geoip = true →
    ∃ i, _generate_fallback_insights d target = Ok i
         ∧ rank_le "medium" (risk_assessment i) = true.

(** ** What a failed outcome looks like *)

(** The record reports a failure: [ok] is [False] and [error] holds the
    text [msg]. *)
Definition reports_failure (o : outcome) (msg : string) : Prop :=
  o !! "ok" = Some (PBool false) ∧ o !! "error" = Some (PStr msg).

(** ** Histories of a run *)

#[global] Instance check_eq_dec : EqDecision check.
Proof. solve_decision. Defined.

(** Reads a history as a sequence of probe calls made one after another:
    a probe is entered only while no probe is open, the open probe is the
    one that is left, and the world is called only from inside a probe.
    The result lists the probes in the order of their calls; [None] means
    that the history is not of this shape. *)
Fixpoint sequential_run (open : option check) (h : list event)
  : option (list check) :=
  match h with
  | [] => match open with None => Some [] | Some _ => None end
  | Enter c :: h' =>
      match open with
      | None => cons c <$> sequential_run (Some c) h'
      | Some _ => None
      end
  | Leave c :: h' =>
      match open with
      | Some c' => if decide (c = c') then sequential_run None h' else None
      | None => None
      end
  | Net _ :: h' =>
      match open with
      | Some _ => sequential_run open h'
      | None => None
      end
  end.

(** The number of probes in flight (entered and not yet left) after a
    history, together with the largest number reached on the way. *)
Definition flight_step (st : nat * nat) (e : event) : nat * nat :=
  let '(current, highest) := st in
  match e with
  | Enter _ => (S current, Nat.max highest (S current))
  | Leave _ => (Nat.pred current, highest)
  | Net _ => (current, highest)
  end.

Definition max_in_flight (h : list event) : nat :=
  snd (foldl flight_step (0%nat, 0%nat) h).

(** Concurrent execution shows in a history as two probes in flight at
    the same time. *)
Definition executes_concurrently (h : list event) : Prop :=
  (2 ≤ max_in_flight h)%nat.

(** The calls to the world recorded in a history. *)
Definition world_calls (h : list event) : list call :=
  omap (λ e, match e with Net c => Some c | _ => None end) h.

(** The requests the five probes make for a target: each is built from
    the target alone. *)
Definition requests (domain host : string) : list call :=
  [Gethostbyname host; SslCertificateCheck domain; PerfCounter;
   HttpGet (Probes._prepare_url domain); Ping3 host 2; GeoipLookup domain].

(** A world in which every call succeeds. *)
Definition calm_world : world :=
  World (λ _ _, Ok "93.184.216.34")
    (λ _ url, Ok (Response 200 url []))
    (λ _ _ _, Ok (Delay (1 # 50)))
    (λ h, Z.of_nat (length h) * 10 ^ 9)
    (λ _ _, Ok (<["ok" := PBool true]> {[ "days_left" := PInt 90 ]}))
    (λ _ _, Ok (<["ok" := PBool true]> {[ "country" := PStr "US" ]})).

(** ** Sample outcome sets *)

(** DNS and HTTP failing, the other three succeeding. *)
Definition dns_http_down : results :=
  outcome_set (failed_record "Name or service not known") ok_record
    (failed_record "connection refused") ok_record ok_record.

(** All five categories succeed. *)
Definition all_up : results :=
  outcome_set ok_record ok_record ok_record ok_record ok_record.

(** Only the ping fails, and only the GeoIP lookup fails. *)
Definition ping_down : results :=
  outcome_set ok_record ok_record ok_record (failed_record "timeout")
    ok_record.
Definition geoip_down : results :=
  outcome_set ok_record ok_record ok_record ok_record
    (failed_record "no record").

(** TLS and HTTP both fail. *)
Definition ssl_http_down : results :=
  outcome_set ok_record (failed_record "expired")
    (failed_record "connection refused") ok_record ok_record.

(** The literal of the round-trip property: dns ok; tls failed with error
    "expired"; http ok with status 200 and 150 ms; ping ok with 40 ms;
    geo ok. *)
Definition tls_expired : results :=
  outcome_set ok_record
    (failed_record "expired")
    (<["ok" := PBool true]> (<["status_code" := PInt 200]>
       {[ "response_time_ms" := PInt 150 ]}))
    (<["ok" := PBool true]> {[ "latency_ms" := PFloat 40 ]})
    ok_record.

(** A valid certificate with the given number of days left, everything
    else succeeding. *)
Definition certificate_with (days_left : Z) : results :=
  outcome_set ok_record
    (<["ok" := PBool true]> {[ "days_left" := PInt days_left ]})
    ok_record ok_record ok_record.

(** ** Targets *)

(** Whether the character [c] occurs in [s]. *)
Fixpoint occurs (c : Ascii.ascii) (s : string) : bool :=
  match s with
  | EmptyString => false
  | String a s' => Ascii.eqb c a || occurs c s'
  end.

(** A bare host: text without ["/"]. *)
Definition bare_host (s : string) : bool := negb (occurs "/"%char s).

(** ** Missing entries *)

(** The first key, in the order in which [_calculate_health_score] and
    [_generate_summary_and_fixes] index [raw_results], that is absent. *)
Definition first_missing (d : results) : option string :=
  list_find (λ k, d !! k = None) ["dns"; "http"; "ssl"; "ping"; "geoip"]
  ≫= λ p, Some p.2.

(** An outcome set from which the entry of one category is removed. *)
Definition without (c : check) (d : results) : results := delete (key c) d.

(** ** Records the explanations can render *)

(** In every mode but ["beginner"] the explanations call [issuer.get] on
    the certificate's issuer and [len] on the redirect chain: the issuer,
    when present, has to be a dictionary, and the redirect chain, when
    present, a sized object. *)
Definition explainable (raw_results : results) (mode : string) : bool :=
  String.eqb mode "beginner"
  || (is_ok (method_get (get_or (get_outcome raw_results "ssl") "issuer"
                           (PDict ∅)) "organizationName" (PStr "Unknown"))
      && is_ok (py_len (get_or (get_outcome raw_results "http")
                          "redirect_chain" (PList [])))).

(** 1 for a failing category, 0 for a succeeding one. *)
Definition down (d : results) (c : check) : Z :=
  if fails d c then 1 else 0.

(** A TLS outcome with an issuer that is not a dictionary. *)
Definition odd_issuer : results :=
  outcome_set ok_record
    (<["ok" := PBool true]> {[ "issuer" := PStr "Let's Encrypt" ]})
    ok_record ok_record ok_record.

(** ** Worlds and TLS records *)

(** A TLS record the analysis can process in the given mode: the days
    left, when the certificate is valid and the field is truthy, are a
    number, and outside the ["beginner"] mode the issuer, when present, is
    a dictionary. *)
Definition usable_tls_record (ssl : outcome) (mode : string) : bool :=
  (failed ssl || negb (truthy (get ssl "days_left"))
   || is_number (get ssl "days_left"))
  && (String.eqb mode "beginner"
      || is_ok (method_get (get_or ssl "issuer" (PDict ∅))
                  "organizationName" (PStr "Unknown"))).

(** A world in which the name of the host cannot be resolved: the
    resolver raises, and the ping answers [False]. *)
Definition unknown_host_world : world :=
  World (λ _ _, Raise (Exn "gaierror"
                         "[Errno -2] Name or service not known"))
    (λ _ _, Raise (Exn "ConnectError"
                     "[Errno -2] Name or service not known"))
    (λ _ _ _, Ok PingError)
    (perf_counter_ns calm_world)
    (ssl_certificate_check calm_world) (geoip_lookup calm_world).

(** A world in which the clock reads 0.0 and then 0.009 seconds. *)
Definition nine_ms_world : world :=
  World (gethostbyname calm_world) (http_get calm_world) (ping calm_world)
    (λ h, match h with [] => 0 | _ => 9000000 end)
    (ssl_certificate_check calm_world) (geoip_lookup calm_world).

(** A world in which the echo reply comes after 0.000125 seconds. *)
Definition tie_world : world :=
  World (gethostbyname calm_world) (http_get calm_world)
    (λ _ _ _, Ok (Delay (round_nearest_even (1 # 8000))))
    (perf_counter_ns calm_world)
    (ssl_certificate_check calm_world) (geoip_lookup calm_world).

(** A world in which the TLS probe raises. *)
Definition tls_fault_world : world :=
  World (gethostbyname calm_world) (http_get calm_world) (ping calm_world)
    (perf_counter_ns calm_world)
    (λ _ _, Raise (Exn "SSLError" "handshake failure"))
    (geoip_lookup calm_world).

(** ** Blank text *)

(** A text made of whitespace characters only (the empty text
    included): the text is empty, or it starts with a whitespace character
    and what follows it is made of whitespace characters only.  The
    number of steps is bounded by the length of the text. *)
Fixpoint blank_within (n : nat) (s : string) : bool :=
  match s, n with
  | EmptyString, _ => true
  | _, O => false
  | _, S n' =>
      existsb (λ c, if Probes.startswith s c
                    then blank_within n' (Probes.drop_chars (String.length c) s)
                    else false)
        Portia.whitespace
  end.

Definition blank (s : string) : bool := blank_within (String.length s) s.

(** The same as a predicate. *)
Inductive whitespace_only : string → Prop :=
| whitespace_only_empty : whitespace_only ""
| whitespace_only_app (c s : string) :
    c ∈ Portia.whitespace → whitespace_only s → whitespace_only (c +:+ s).

(** ** Requests *)

(** A request that names the target, padded with spaces, under both the
    key of the form and the key of the API. *)
Definition padded_request : App.fields :=
  <["url" := "  example.com "]> {[ "target" := "  example.com " ]}.

(** ** Metrics *)

(** All five categories succeed, with the given response time of the HTTP
    request and latency of the ping. *)
Definition timings_with (response_time_ms : Z) (latency_ms : Q) : results :=
  outcome_set ok_record ok_record
    (<["ok" := PBool true]> {[ "response_time_ms" := PInt response_time_ms ]})
    (<["ok" := PBool true]> {[ "latency_ms" := PFloat latency_ms ]})
    ok_record.

(* ===================================================================== *)
(** * Properties of the scorer *)
(* ===================================================================== *)

Section Scorer.

Import Agent.

(** [o.get("ok", False)] and [o.get("ok")] have the same truth value. *)
Lemma failed_get_or (o : outcome) :
  negb (truthy (get_or o "ok" (PBool false))) = failed o.
Proof.
  unfold failed, get, get_or. destruct (o !! "ok"); reflexivity.
Qed.

Lemma complete_outcome_set dns ssl http ping geoip :
  complete (outcome_set dns ssl http ping geoip).
Proof. intros []; vm_compute; eauto. Qed.

Lemma getitem_complete (d : results) (c : check) :
  complete d → getitem d (key c) = Ok (get_outcome d (key c)).
Proof.
  intros H. destruct (H c) as [o Ho].
  unfold getitem, get_outcome. rewrite Ho. reflexivity.
Qed.

(** The score as a function of which categories fail. *)
Lemma score_by_cases (d : results) :
  complete d →
  _calculate_health_score d =
    Ok (Z.max 0 (100 - (if fails d Dns then 25 else 0)
                     - (if fails d Http then 25 else 0)
                     - (if fails d Ssl then 20 else 0)
                     - (if fails d Ping then 15 else 0)
                     - (if fails d Geoip then 15 else 0))).
Proof.
  intros H. unfold _calculate_health_score.
  pose proof (getitem_complete d Dns H) as E1.
  pose proof (getitem_complete d Http H) as E2.
  pose proof (getitem_complete d Ssl H) as E3.
  pose proof (getitem_complete d Ping H) as E4.
  pose proof (getitem_complete d Geoip H) as E5.
  cbn [key] in E1, E2, E3, E4, E5. rewrite E1, E2, E3, E4, E5.
  cbn [mbind result_bind]. rewrite !failed_get_or.
  unfold fails. cbn [key].
  destruct (failed (get_outcome d "dns")), (failed (get_outcome d "http")),
    (failed (get_outcome d "ssl")), (failed (get_outcome d "ping")),
    (failed (get_outcome d "geoip")); reflexivity.
Qed.

Lemma total_penalty_failing (d : results) :
  total_penalty (failing d) =
    (if fails d Dns then 25 else 0) + (if fails d Http then 25 else 0)
    + (if fails d Ssl then 20 else 0) + (if fails d Ping then 15 else 0)
    + (if fails d Geoip then 15 else 0).
Proof.
  unfold failing, checks. cbn [filter list_filter].
  repeat case_decide;
    destruct (fails d Dns), (fails d Ssl), (fails d Http), (fails d Ping),
      (fails d Geoip); try discriminate; try contradiction; reflexivity.
Qed.

(** Each of the 32 subsets of the categories is the failing set of some
    outcome set. *)
Lemma every_subset_fails (F : check → bool) :
  ∃ d, complete d ∧ ∀ c, fails d c = F c.
Proof.
  exists (outcome_set {[ "ok" := PBool (negb (F Dns)) ]}
            {[ "ok" := PBool (negb (F Ssl)) ]}
            {[ "ok" := PBool (negb (F Http)) ]}
            {[ "ok" := PBool (negb (F Ping)) ]}
            {[ "ok" := PBool (negb (F Geoip)) ]}).
  split; [apply complete_outcome_set|].
  intros []; vm_compute; match goal with |- context [F ?c] => destruct (F c) end;
    reflexivity.
Qed.

(** C1. For every outcome set over the five categories, whichever of the
    32 subsets [S] of the categories is the failing one,
    [_calculate_health_score] returns 100 minus the sum of the penalties of
    the failing categories (DNS 25, HTTP 25, TLS 20, Ping 15, GeoLocation
    15), clamped below at 0; when DNS and HTTP are the failing ones the
    score is 50. *)
Theorem health_score_is_100_minus_penalties (d : results) (S : list check) :
  complete d →
  failing d = S →
  _calculate_health_score d = Ok (Z.max 0 (100 - total_penalty S))
  ∧ (S = [Dns; Http] → _calculate_health_score d = Ok 50).
Proof.
  intros H <-.
  assert (E : _calculate_health_score d
              = Ok (Z.max 0 (100 - total_penalty (failing d)))).
  { rewrite (score_by_cases d H), total_penalty_failing. do 2 f_equal. lia. }
  split; [exact E|].
  intros HS. rewrite E, HS. reflexivity.
Qed.

Lemma health_score_is_100_minus_penalties_witness :
  complete dns_http_down ∧ failing dns_http_down = [Dns; Http]
  ∧ _calculate_health_score dns_http_down = Ok 50.
Proof.
  split; [apply complete_outcome_set|]. split; [reflexivity|].
  apply (health_score_is_100_minus_penalties dns_http_down [Dns; Http]);
    [apply complete_outcome_set | reflexivity | reflexivity].
Defined.

End Scorer.

(* ===================================================================== *)
(** * Properties of the analyzer *)
(* ===================================================================== *)

Section Analyzer.

Import Portia.

Lemma py_lt_number (v : pyval) (n : Z) :
  is_number v = true → ∃ b, py_lt v n = Ok b.
Proof. destruct v; try discriminate; intros _; eexists; reflexivity. Qed.

Lemma py_gt_number (v : pyval) (n : Z) :
  is_number v = true → ∃ b, py_gt v n = Ok b.
Proof. destruct v; try discriminate; intros _; eexists; reflexivity. Qed.

Lemma py_lt_is_number (v : pyval) (n : Z) :
  is_ok (py_lt v n) = is_number v.
Proof. destruct v; reflexivity. Qed.

Lemma py_gt_is_number (v : pyval) (n : Z) :
  is_ok (py_gt v n) = is_number v.
Proof. destruct v; reflexivity. Qed.

(** On numeric metrics every block returns, and does what the table
    says. *)
Lemma analyze_rule (d : results) (c : check) (i : Insights) :
  numeric_metrics d = true →
  ∃ ps, analyze c d i = Ok (rule_effect d c i ps).
Proof.
  intros Hnum. unfold numeric_metrics in Hnum.
  apply andb_true_iff in Hnum as [Hnum Hping].
  apply andb_true_iff in Hnum as [Hssl Hhttp].
  destruct i as [rca recs risk score preds summ].
  destruct c; unfold analyze, rule_effect, fails; cbn [key].
  - (* DNS *)
    exists []. unfold analyze_dns.
    change (negb (truthy (get (get_outcome d "dns") "ok")))
      with (failed (get_outcome d "dns")).
    destruct (failed (get_outcome d "dns")); cbn; rewrite ?app_nil_r;
      reflexivity.
  - (* SSL *)
    unfold analyze_ssl.
    change (negb (truthy (get (get_outcome d "ssl") "ok")))
      with (failed (get_outcome d "ssl")) in *.
    destruct (failed (get_outcome d "ssl")); cbn in *.
    + exists []. destruct (String.eqb risk "low"); reflexivity.
    + destruct (truthy (get (get_outcome d "ssl") "days_left")); cbn in *.
      * destruct (py_lt_number _ 30 Hssl) as [b ->]. cbn.
        destruct b; eexists; [reflexivity|].
        rewrite app_nil_r. reflexivity.
      * exists []. rewrite app_nil_r. reflexivity.
  - (* HTTP *)
    unfold analyze_http.
    change (negb (truthy (get (get_outcome d "http") "ok")))
      with (failed (get_outcome d "http")) in *.
    destruct (failed (get_outcome d "http")); cbn in *.
    + exists []. reflexivity.
    + destruct (py_gt_number _ 3000 Hhttp) as [b ->]. cbn.
      destruct b; eexists; [reflexivity|].
      rewrite app_nil_r. reflexivity.
  - (* Ping *)
    unfold analyze_ping.
    change (negb (truthy (get (get_outcome d "ping") "ok")))
      with (failed (get_outcome d "ping")) in *.
    destruct (failed (get_outcome d "ping")); cbn in *.
    + exists []. reflexivity.
    + destruct (py_gt_number _ 200 Hping) as [b ->]. cbn.
      destruct b; eexists; [reflexivity|].
      rewrite app_nil_r. reflexivity.
  - (* GeoIP *)
    exists []. unfold analyze_geoip, failed.
    destruct (truthy (get (get_outcome d "geoip") "ok")); cbn;
      rewrite ?app_nil_r, ?Z.add_0_r; reflexivity.
Qed.

Lemma issues_of_cons (d : results) (c : check) (order : list check) :
  issues_of d (c :: order) =
    (if fails d c then option_list (issue_for c (get_outcome d (key c)))
     else []) ++ issues_of d order.
Proof.
  unfold issues_of. rewrite filter_cons.
  destruct (fails d c); case_decide; try congruence; [|reflexivity].
  cbn. destruct (issue_for c (get_outcome d (key c))); reflexivity.
Qed.

Lemma recommendations_of_cons (d : results) (c : check) (order : list check) :
  recommendations_of d (c :: order) =
    (if fails d c then option_list (recommendation_for c) else [])
    ++ recommendations_of d order.
Proof.
  unfold recommendations_of. rewrite filter_cons.
  destruct (fails d c); case_decide; try congruence; [|reflexivity].
  cbn. destruct (recommendation_for c); reflexivity.
Qed.

(** The blocks run in any order: the run returns, the issues and the
    recommendations are those of the failing categories in that order, and
    the risk is the fold of the upgrade rule. *)
Lemma run_checks_effect (d : results) (order : list check) (i : Insights) :
  numeric_metrics d = true →
  ∃ i', run_checks order d i = Ok i'
    ∧ root_cause_analysis i' = root_cause_analysis i ++ issues_of d order
    ∧ intelligent_recommendations i'
      = intelligent_recommendations i ++ recommendations_of d order
    ∧ risk_assessment i' = foldl (risk_step d) (risk_assessment i) order
    ∧ performance_score i' = performance_score i + score_of d order.
Proof.
  intros Hnum. revert i. induction order as [|c order IH]; intros i.
  - exists i. cbn. rewrite !app_nil_r, Z.add_0_r. auto.
  - destruct (analyze_rule d c i Hnum) as [ps Hc].
    destruct (IH (rule_effect d c i ps)) as (i' & Hrun & Hrca & Hrec & Hrisk & Hsc).
    exists i'. cbn [run_checks]. rewrite Hc. cbn [mbind result_bind].
    split; [exact Hrun|].
    rewrite Hrca, Hrec, Hrisk, Hsc, issues_of_cons, recommendations_of_cons.
    cbn [foldl foldr score_of]. unfold rule_effect, risk_step.
    destruct (fails d c); cbn; rewrite ?app_nil_r, <- ?app_assoc;
      repeat split; auto; unfold score_of; lia.
Qed.

(** The analyzer is its five blocks in source order, followed by the
    summary. *)
Lemma fallback_insights_run_checks (d : results) (target : string) :
  _generate_fallback_insights d target =
    (i ← run_checks checks d initial_insights; Ok (generate_summary target i)).
Proof.
  unfold _generate_fallback_insights, checks. cbn [run_checks analyze].
  cbn [mbind result_bind].
  destruct (analyze_ssl d (analyze_dns d initial_insights)) as [i1|]; [|reflexivity].
  cbn [mbind result_bind].
  destruct (analyze_http d i1) as [i2|]; [|reflexivity].
  cbn [mbind result_bind].
  destruct (analyze_ping d i2) as [i3|]; reflexivity.
Qed.

Lemma generate_summary_fields (target : string) (i : Insights) :
  root_cause_analysis (generate_summary target i) = root_cause_analysis i
  ∧ intelligent_recommendations (generate_summary target i)
    = intelligent_recommendations i
  ∧ risk_assessment (generate_summary target i) = risk_assessment i
  ∧ performance_score (generate_summary target i) = performance_score i
  ∧ predicted_issues (generate_summary target i) = predicted_issues i.
Proof.
  unfold generate_summary. destruct (root_cause_analysis i) eqn:E;
    cbn; rewrite ?E; auto.
Qed.

(** What the analyzer returns on numeric metrics. *)
Lemma fallback_insights_effect (d : results) (target : string) :
  numeric_metrics d = true →
  ∃ i, _generate_fallback_insights d target = Ok i
    ∧ root_cause_analysis i = issues_of d checks
    ∧ intelligent_recommendations i = recommendations_of d checks
    ∧ risk_assessment i = foldl (risk_step d) "low" checks
    ∧ performance_score i = score_of d checks.
Proof.
  intros Hnum.
  destruct (run_checks_effect d checks initial_insights Hnum)
    as (i & Hrun & Hrca & Hrec & Hrisk & Hsc).
  exists (generate_summary target i).
  rewrite fallback_insights_run_checks, Hrun. cbn [mbind result_bind].
  destruct (generate_summary_fields target i) as (-> & -> & -> & -> & _).
  rewrite Hrca, Hrec, Hrisk, Hsc. auto.
Qed.

Lemma analyze_ssl_is_ok (d : results) (i : Insights) :
  is_ok (analyze_ssl d i)
  = (failed (get_outcome d "ssl")
     || negb (truthy (get (get_outcome d "ssl") "days_left"))
     || is_number (get (get_outcome d "ssl") "days_left")).
Proof.
  unfold analyze_ssl.
  change (negb (truthy (get (get_outcome d "ssl") "ok")))
    with (failed (get_outcome d "ssl")).
  destruct (failed (get_outcome d "ssl")); cbn [orb].
  - destruct (String.eqb _ "low"); reflexivity.
  - destruct (truthy (get (get_outcome d "ssl") "days_left")); cbn [negb orb].
    + rewrite <- (py_lt_is_number _ 30).
      destruct (py_lt _ 30) as [[]|]; reflexivity.
    + reflexivity.
Qed.

Lemma analyze_http_is_ok (d : results) (i : Insights) :
  is_ok (analyze_http d i)
  = (failed (get_outcome d "http")
     || is_number (get_or (get_outcome d "http") "response_time_ms" (PInt 0))).
Proof.
  unfold analyze_http.
  change (negb (truthy (get (get_outcome d "http") "ok")))
    with (failed (get_outcome d "http")).
  destruct (failed (get_outcome d "http")); cbn [orb]; [reflexivity|].
  rewrite <- (py_gt_is_number _ 3000).
  destruct (py_gt _ 3000) as [[]|]; reflexivity.
Qed.

Lemma analyze_ping_is_ok (d : results) (i : Insights) :
  is_ok (analyze_ping d i)
  = (failed (get_outcome d "ping")
     || is_number (get_or (get_outcome d "ping") "latency_ms" (PInt 0))).
Proof.
  unfold analyze_ping.
  change (negb (truthy (get (get_outcome d "ping") "ok")))
    with (failed (get_outcome d "ping")).
  destruct (failed (get_outcome d "ping")); cbn [orb]; [reflexivity|].
  rewrite <- (py_gt_is_number _ 200).
  destruct (py_gt _ 200) as [[]|]; reflexivity.
Qed.

(** The analyzer returns exactly on the outcome sets with numeric metrics;
    on the others a comparison raises [TypeError]. *)
Lemma fallback_insights_returns_iff (d : results) (target : string) :
  is_ok (_generate_fallback_insights d target) = numeric_metrics d.
Proof.
  unfold _generate_fallback_insights, numeric_metrics.
  cbv zeta. cbn [mbind result_bind].
  pose proof (analyze_ssl_is_ok d (analyze_dns d initial_insights)) as H1.
  destruct (analyze_ssl d (analyze_dns d initial_insights)) as [i1|];
    cbn [is_ok] in H1; rewrite <- H1; [|reflexivity].
  cbn [andb mbind result_bind].
  pose proof (analyze_http_is_ok d i1) as H2.
  destruct (analyze_http d i1) as [i2|];
    cbn [is_ok] in H2; rewrite <- H2; [|reflexivity].
  cbn [andb mbind result_bind].
  pose proof (analyze_ping_is_ok d i2) as H3.
  destruct (analyze_ping d i2) as [i3|];
    cbn [is_ok] in H3; rewrite <- H3; reflexivity.
Qed.

(** Once the risk is high, no category changes it. *)
Lemma risk_step_high (d : results) (c : check) :
  risk_step d "high" c = "high".
Proof. unfold risk_step. destruct (fails d c), c; reflexivity. Qed.

Lemma foldl_risk_step_high (d : results) (order : list check) :
  foldl (risk_step d) "high" order = "high".
Proof.
  induction order as [|c order IH]; [reflexivity|].
  cbn. rewrite risk_step_high. exact IH.
Qed.

(** A failing DNS or HTTP category anywhere in the order makes the final
    risk high. *)
Lemma foldl_risk_step_forced (d : results) (order : list check) (c : check)
  (risk : string) :
  c ∈ order → (c = Dns ∨ c = Http) → fails d c = true →
  foldl (risk_step d) risk order = "high".
Proof.
  intros Hin Hc Hf. revert risk.
  induction order as [|c' order IH]; intros risk.
  - inversion Hin.
  - cbn. apply elem_of_cons in Hin as [<-|Hin].
    + assert (risk_step d risk c = "high") as ->.
      { unfold risk_step. rewrite Hf. destruct Hc as [-> | ->]; reflexivity. }
      apply foldl_risk_step_high.
    + apply IH, Hin.
Qed.

Lemma final_risk_fold (d : results) :
  foldl (risk_step d) "low" checks = final_risk d.
Proof.
  unfold final_risk, checks, risk_step. cbn [foldl].
  destruct (fails d Dns), (fails d Ssl), (fails d Http), (fails d Ping),
    (fails d Geoip); reflexivity.
Qed.

(** C3. For every diagnostic-results input in which the DNS outcome or
    the HTTP outcome has ok=false, the risk_assessment the analyzer
    returns is high, whatever the outcomes of the other categories, and
    it is high as well when the five category blocks run in any other
    order. *)
Theorem dns_or_http_failure_gives_high_risk
  (d : results) (target : string) (order : list check) :
  numeric_metrics d = true →
  fails d Dns = true ∨ fails d Http = true →
  order ≡ₚ checks →
  (∃ i, _generate_fallback_insights d target = Ok i
        ∧ risk_assessment i = "high")
  ∧ (∃ i, run_checks order d initial_insights = Ok i
          ∧ risk_assessment i = "high").
Proof.
  intros Hnum Hfail Hperm.
  assert (Hforced : ∀ l, l ≡ₚ checks → foldl (risk_step d) "low" l = "high").
  { intros l Hl. destruct Hfail as [Hf|Hf].
    - apply (foldl_risk_step_forced d l Dns); auto.
      rewrite Hl. unfold checks. set_solver.
    - apply (foldl_risk_step_forced d l Http); auto.
      rewrite Hl. unfold checks. set_solver. }
  split.
  - destruct (fallback_insights_effect d target Hnum)
      as (i & Hi & _ & _ & Hrisk & _).
    exists i. split; [exact Hi|]. rewrite Hrisk. apply Hforced. reflexivity.
  - destruct (run_checks_effect d order initial_insights Hnum)
      as (i & Hi & _ & _ & Hrisk & _).
    exists i. split; [exact Hi|]. rewrite Hrisk. apply Hforced, Hperm.
Qed.

Lemma dns_or_http_failure_gives_high_risk_witness :
  (∃ i, _generate_fallback_insights dns_http_down "example.com" = Ok i
        ∧ risk_assessment i = "high")
  ∧ (∃ i, run_checks [Geoip; Ping; Http; Ssl; Dns] dns_http_down
            initial_insights = Ok i
          ∧ risk_assessment i = "high").
Proof.
  apply (dns_or_http_failure_gives_high_risk dns_http_down "example.com"
           [Geoip; Ping; Http; Ssl; Dns]).
  - vm_compute. reflexivity.
  - left. vm_compute. reflexivity.
  - symmetry. apply (Permutation_rev checks).
Defined.

(** A failing ping alone, and a failing GeoIP lookup alone, leave the
    risk at low. *)
Lemma ping_or_geoip_failure_keeps_risk_low :
  (∃ i, _generate_fallback_insights ping_down "example.com" = Ok i
        ∧ risk_assessment i = "low")
  ∧ (∃ i, _generate_fallback_insights geoip_down "example.com" = Ok i
          ∧ risk_assessment i = "low")
  ∧ ¬ every_other_failure_upgrades.
Proof.
  split; [eexists; split; [vm_compute; reflexivity | reflexivity]|].
  split; [eexists; split; [vm_compute; reflexivity | reflexivity]|].
  intros H.
  destruct (H geoip_down "example.com") as (i & Hi & Hrank).
  - vm_compute. reflexivity.
  - right. right. vm_compute. reflexivity.
  - vm_compute in Hi. injection Hi as <-. vm_compute in Hrank. discriminate.
Qed.

Lemma rank_le_upgrade (c : check) (risk : string) :
  is_Some (risk_rank risk) → rank_le risk (upgrade c risk) = true.
Proof.
  intros [n Hn]. unfold rank_le. rewrite Hn.
  unfold risk_rank in Hn.
  destruct (String.eqb risk "low") eqn:E1.
  { apply String.eqb_eq in E1 as ->. injection Hn as <-. destruct c; reflexivity. }
  destruct (String.eqb risk "medium") eqn:E2.
  { apply String.eqb_eq in E2 as ->. injection Hn as <-. destruct c; reflexivity. }
  destruct (String.eqb risk "high") eqn:E3; [|discriminate].
  apply String.eqb_eq in E3 as ->. injection Hn as <-. destruct c; reflexivity.
Qed.

Lemma rank_le_refl (risk : string) :
  is_Some (risk_rank risk) → rank_le risk risk = true.
Proof.
  intros [n Hn]. unfold rank_le. rewrite Hn. apply Nat.leb_refl.
Qed.

(** C4 (amended). Of the categories other than DNS and HTTP only TLS/SSL
    raises the risk: the final risk is high when DNS or HTTP fails,
    otherwise medium when TLS/SSL fails, otherwise low, so a failing
    TLS/SSL outcome gives at least medium while a failing Ping or
    GeoLocation outcome leaves the risk as it is.  Processing a category,
    whichever it is and whatever was processed before, returns and never
    lowers the risk: not from high, and not from medium back to low. *)
Theorem tls_failure_upgrades_risk_and_risk_never_drops
  (d : results) (target : string) (c : check) (i : Insights) :
  numeric_metrics d = true →
  is_Some (risk_rank (risk_assessment i)) →
  (∃ final, _generate_fallback_insights d target = Ok final
            ∧ risk_assessment final = final_risk d
            ∧ (fails d Ssl = true →
               rank_le "medium" (risk_assessment final) = true))
  ∧ (∃ i', analyze c d i = Ok i'
           ∧ rank_le (risk_assessment i) (risk_assessment i') = true
           ∧ (c = Ping ∨ c = Geoip → risk_assessment i' = risk_assessment i)).
Proof.
  intros Hnum Hlevel. split.
  - destruct (fallback_insights_effect d target Hnum)
      as (final & Hf & _ & _ & Hrisk & _).
    exists final. rewrite Hrisk, final_risk_fold.
    split; [exact Hf|]. split; [reflexivity|].
    intros Hssl. unfold final_risk. rewrite Hssl.
    destruct (fails d Dns || fails d Http); reflexivity.
  - destruct (analyze_rule d c i Hnum) as [ps Hc].
    exists (rule_effect d c i ps). split; [exact Hc|].
    unfold rule_effect. destruct (fails d c); cbn.
    + split; [apply rank_le_upgrade, Hlevel|].
      intros [-> | ->]; reflexivity.
    + split; [apply rank_le_refl, Hlevel | reflexivity].
Qed.

Lemma tls_failure_upgrades_risk_and_risk_never_drops_witness :
  (∃ final, _generate_fallback_insights tls_expired "example.com" = Ok final
            ∧ risk_assessment final = "medium"
            ∧ rank_le "medium" (risk_assessment final) = true)
  ∧ (∃ i', analyze Ping ping_down (set_risk "medium" initial_insights) = Ok i'
           ∧ risk_assessment i' = "medium").
Proof.
  destruct (tls_failure_upgrades_risk_and_risk_never_drops tls_expired
              "example.com" Ssl initial_insights)
    as [(final & Hf & Hrisk & Hmed) _].
  { vm_compute. reflexivity. }
  { exists 0%nat. reflexivity. }
  destruct (tls_failure_upgrades_risk_and_risk_never_drops ping_down
              "example.com" Ping (set_risk "medium" initial_insights))
    as [_ (i' & Hi' & _ & Hsame)].
  { vm_compute. reflexivity. }
  { exists 1%nat. reflexivity. }
  split.
  - exists final. split; [exact Hf|]. split; [exact Hrisk|].
    apply Hmed. vm_compute. reflexivity.
  - exists i'. split; [exact Hi'|]. apply Hsame. left. reflexivity.
Defined.

(** The expiry check on a valid certificate with an integer number of
    days left: the predicted issue is emitted exactly when the number is
    non-zero and below 30. *)
Lemma expiry_warning_on_integer_days (z : Z) (target : string) :
  ∃ i, _generate_fallback_insights (certificate_with z) target = Ok i
    ∧ predicted_issues i =
        if negb (z =? 0) && (z <? 30)
        then [PredictedIssue "ssl_expiration"
                [Lit "SSL certificate expires in "; Val (PInt z); Lit " days"]
                "Schedule certificate renewal" "within 2 weeks"]
        else [].
Proof.
  rewrite fallback_insights_run_checks.
  unfold checks. cbn [run_checks analyze mbind result_bind].
  change (analyze_ssl (certificate_with z)
            (analyze_dns (certificate_with z) initial_insights))
    with (expiring ← (if negb (z =? 0) then Ok (z <? 30) else Ok false);
          if expiring : bool
          then Ok (append_predicted
                     (PredictedIssue "ssl_expiration"
                        [Lit "SSL certificate expires in "; Val (PInt z);
                         Lit " days"]
                        "Schedule certificate renewal" "within 2 weeks")
                     (add_score 25 (add_score 25 initial_insights)))
          else Ok (add_score 25 (add_score 25 initial_insights))).
  destruct (z =? 0), (z <? 30);
    (eexists; split; [vm_compute; reflexivity | reflexivity]).
Qed.

(** C5 (failing input). A valid certificate (ok=true) with days_left = 0:
    0 is below 30, yet the analyzer returns without an ssl_expiration
    predicted issue, because its guard [days_left and days_left < 30]
    reads the integer 0 as absent. *)
Theorem no_expiry_warning_at_zero_days_left :
  fails (certificate_with 0) Ssl = false
  ∧ get (get_outcome (certificate_with 0) "ssl") "days_left" = PInt 0
  ∧ py_lt (PInt 0) 30 = Ok true
  ∧ ∃ i, _generate_fallback_insights (certificate_with 0) "example.com" = Ok i
         ∧ predicted_issues i = [].
Proof.
  split; [reflexivity|]. split; [reflexivity|]. split; [reflexivity|].
  destruct (expiry_warning_on_integer_days 0 "example.com") as (i & Hi & Hp).
  exists i. split; [exact Hi | exact Hp].
Qed.

Lemma issues_of_checks (d : results) :
  issues_of d checks = issues_of d [Dns; Ssl; Http; Ping].
Proof.
  unfold checks. rewrite !issues_of_cons. cbn [issue_for option_list].
  destruct (fails d Geoip); reflexivity.
Qed.

Lemma recommendations_of_checks (d : results) :
  recommendations_of d checks = recommendations_of d [Dns; Ssl; Http; Ping].
Proof.
  unfold checks. rewrite !recommendations_of_cons.
  cbn [recommendation_for option_list].
  destruct (fails d Geoip); reflexivity.
Qed.

(** C8. For every input the Issues list and the Recommendations list the
    analyzer returns are the issues and the recommendations of the failing
    categories taken in the fixed check order DNS, TLS, HTTP, Ping: both
    are images of the same sub-list of that order, so the recommendations
    are in the order of the issues that produced them and are not sorted
    by priority. *)
Theorem issues_and_recommendations_follow_check_order
  (d : results) (target : string) :
  numeric_metrics d = true →
  ∃ i, _generate_fallback_insights d target = Ok i
    ∧ root_cause_analysis i
      = omap (λ c, issue_for c (get_outcome d (key c)))
          (filter (λ c, fails d c = true) [Dns; Ssl; Http; Ping])
    ∧ intelligent_recommendations i
      = omap recommendation_for
          (filter (λ c, fails d c = true) [Dns; Ssl; Http; Ping]).
Proof.
  intros Hnum.
  destruct (fallback_insights_effect d target Hnum)
    as (i & Hi & Hrca & Hrec & _).
  exists i. split; [exact Hi|].
  rewrite Hrca, Hrec, issues_of_checks, recommendations_of_checks.
  split; reflexivity.
Qed.

(** With TLS and HTTP failing the recommendation of priority high comes
    before the one of priority critical. *)
Lemma issues_and_recommendations_follow_check_order_witness :
  ∃ i, _generate_fallback_insights ssl_http_down "example.com" = Ok i
    ∧ map category (root_cause_analysis i) = ["SSL"; "HTTP"]
    ∧ map priority (intelligent_recommendations i) = ["high"; "critical"].
Proof.
  destruct (issues_and_recommendations_follow_check_order ssl_http_down
              "example.com") as (i & Hi & Hrca & Hrec).
  { vm_compute. reflexivity. }
  exists i. split; [exact Hi|]. rewrite Hrca, Hrec.
  split; vm_compute; reflexivity.
Defined.

(** C6. For the outcome set with dns ok, tls failed with error "expired",
    http ok (status 200, 150 ms), ping ok (40 ms) and geo ok, the health
    score is exactly 80, the risk is medium, there is exactly one Issue,
    of the TLS category (spelled "SSL" by the analyzer) with severity
    medium, and exactly one Recommendation, of priority high with action
    "Renew SSL certificate". *)
Theorem tls_expired_round_trip (target : string) :
  Agent._calculate_health_score tls_expired = Ok 80
  ∧ ∃ i, _generate_fallback_insights tls_expired target = Ok i
      ∧ risk_assessment i = "medium"
      ∧ root_cause_analysis i
        = [RootCause "SSL" "medium" "SSL certificate problem"
             "Security warnings for users" (PStr "expired")]
      ∧ intelligent_recommendations i
        = [Recommendation "high" "Renew SSL certificate"
             "Certificate may be expired or improperly configured"
             "10-30 minutes"].
Proof.
  split; [vm_compute; reflexivity|].
  eexists. split; [vm_compute; reflexivity|].
  repeat split; reflexivity.
Qed.

(** C9. For every diagnostic-results mapping and target, and whatever API
    key is configured (none, blank or a real one), [get_ai_insights]
    returns exactly what [_generate_fallback_insights] returns on the same
    arguments. *)
Theorem get_ai_insights_is_the_fallback_analyzer
  (portia_api_key : option string) (d : results) (target : string) :
  get_ai_insights (new_client portia_api_key) d target
  = _generate_fallback_insights d target.
Proof.
  unfold get_ai_insights, generate_ai_insights.
  destruct (negb (is_available (new_client portia_api_key))); reflexivity.
Qed.

(** The key decides [is_available], so both branches of
    [generate_ai_insights] are taken. *)
Lemma is_available_examples :
  is_available (new_client None) = false
  ∧ is_available (new_client (Some "  ")) = false
  ∧ is_available (new_client (Some "prt-123")) = true.
Proof. repeat split; reflexivity. Qed.

(** Whatever the client, the insights are the local analyzer's. *)
Lemma get_ai_insights_is_the_fallback_analyzer_any
  (portia_client : PortiaAIClient) (d : results) (target : string) :
  get_ai_insights portia_client d target = _generate_fallback_insights d target.
Proof.
  unfold get_ai_insights, generate_ai_insights.
  destruct (negb (is_available portia_client)); reflexivity.
Qed.

End Analyzer.

(* ===================================================================== *)
(** * Properties of the engine: analyzer, scorer and summary together *)
(* ===================================================================== *)

Section Engine.

Import Portia Agent.

Lemma filter_fails_none (d : results) (order : list check) :
  (∀ c, fails d c = false) → filter (λ c, fails d c = true) order = [].
Proof.
  intros Hall. induction order as [|c order IH]; [reflexivity|].
  rewrite filter_cons, IH. case_decide; [|reflexivity].
  rewrite Hall in *. discriminate.
Qed.

Lemma score_of_all_passing (d : results) :
  (∀ c, fails d c = false) → score_of d checks = 100.
Proof.
  intros Hall. unfold score_of, checks. cbn [foldr].
  rewrite !Hall. reflexivity.
Qed.

(** The summary and the fixes when every category is present and
    succeeds. *)
Lemma summary_and_fixes_all_passing
  (d : results) (domain : string) (ai : option Insights) :
  complete d → (∀ c, fails d c = false) →
  _generate_summary_and_fixes d domain ai =
    match ai with
    | Some ai =>
        let fixes := map ai_fix (intelligent_recommendations ai) in
        if negb (String.eqb (ai_summary ai) "") then Ok (ai_summary ai, fixes)
        else Ok (local_summary [] domain, fixes)
    | None => Ok (local_summary [] domain, [])
    end.
Proof.
  intros Hc Hall. unfold _generate_summary_and_fixes.
  pose proof (getitem_complete d Dns Hc) as E1.
  pose proof (getitem_complete d Http Hc) as E2.
  pose proof (getitem_complete d Ssl Hc) as E3.
  pose proof (getitem_complete d Ping Hc) as E4.
  pose proof (getitem_complete d Geoip Hc) as E5.
  pose proof (Hall Dns) as F1. pose proof (Hall Http) as F2.
  pose proof (Hall Ssl) as F3. pose proof (Hall Ping) as F4.
  pose proof (Hall Geoip) as F5.
  unfold fails in *. cbn [key] in *.
  rewrite E1, E2, E3, E4, E5. cbn [mbind result_bind].
  rewrite !failed_get_or, F1, F2, F3, F4, F5.
  destruct ai; reflexivity.
Qed.

(** C7. For every outcome set in which all five categories have ok=true,
    the analyzer returns an empty Issues list, risk low and an empty
    recommendations list; its summary says that the target appears
    healthy; the fix-suggestions list built from it is empty, and the
    summary of the result is the analyzer's; without insights the
    fix-suggestions list is empty too and the summary says that all
    diagnostics passed and the target appears to be healthy. *)
Theorem all_passing_is_healthy (d : results) (target : string) :
  complete d →
  numeric_metrics d = true →
  (∀ c, fails d c = false) →
  ∃ i, _generate_fallback_insights d target = Ok i
    ∧ root_cause_analysis i = []
    ∧ risk_assessment i = "low"
    ∧ intelligent_recommendations i = []
    ∧ ai_summary i
      = "ðŸ¤– AI Analysis: " +:+ target
        +:+ " appears healthy with a performance score of 100/100. No critical issues detected."
    ∧ _generate_summary_and_fixes d target (Some i) = Ok (ai_summary i, [])
    ∧ _generate_summary_and_fixes d target None
      = Ok ("✅ All diagnostics passed for " +:+ target
            +:+ ". The target appears to be healthy and reachable.", []).
Proof.
  intros Hc Hnum Hall.
  destruct (run_checks_effect d checks initial_insights Hnum)
    as (i0 & Hrun & Hrca & Hrec & Hrisk & Hsc).
  assert (Hfb : _generate_fallback_insights d target
                = Ok (generate_summary target i0)).
  { rewrite fallback_insights_run_checks, Hrun. reflexivity. }
  clear Hrun.
  unfold issues_of in Hrca. unfold recommendations_of in Hrec.
  rewrite (filter_fails_none d checks Hall) in Hrca, Hrec.
  rewrite final_risk_fold in Hrisk. unfold final_risk in Hrisk.
  rewrite !Hall in Hrisk. rewrite (score_of_all_passing d Hall) in Hsc.
  cbn in Hrca, Hrec, Hrisk, Hsc.
  destruct i0 as [rca recs risk score preds summ]; cbn in *. subst.
  exists (generate_summary target (mkInsights [] [] "low" 100 preds "")).
  split; [exact Hfb|].
  rewrite !(summary_and_fixes_all_passing d target _ Hc Hall).
  repeat split; reflexivity.
Qed.

Lemma all_passing_is_healthy_witness :
  ∃ i, _generate_fallback_insights all_up "example.com" = Ok i
    ∧ root_cause_analysis i = []
    ∧ risk_assessment i = "low"
    ∧ intelligent_recommendations i = []
    ∧ ai_summary i
      = "ðŸ¤– AI Analysis: example.com appears healthy with a performance score of 100/100. No critical issues detected."
    ∧ _generate_summary_and_fixes all_up "example.com" (Some i)
      = Ok (ai_summary i, [])
    ∧ _generate_summary_and_fixes all_up "example.com" None
      = Ok ("✅ All diagnostics passed for example.com. The target appears to be healthy and reachable.", []).
Proof.
  apply (all_passing_is_healthy all_up "example.com").
  - apply complete_outcome_set.
  - vm_compute. reflexivity.
  - intros []; vm_compute; reflexivity.
Defined.

End Engine.

(* ===================================================================== *)
(** * Properties of the float arithmetic and of the clock *)
(* ===================================================================== *)

Section Floats.

Lemma pow2_pos (k : Z) : (0 < pow2 k)%Q.
Proof. apply Qpower_0_lt. reflexivity. Qed.

Lemma pow2_add (a b : Z) : (pow2 (a + b) == pow2 a * pow2 b)%Q.
Proof. apply Qpower_plus. discriminate. Qed.

Lemma pow2_le (a b : Z) : a <= b → (pow2 a <= pow2 b)%Q.
Proof. intros H. apply Qpower_le_compat_l; [exact H | discriminate]. Qed.

Lemma pow2_le_inv (a b : Z) : (pow2 a <= pow2 b)%Q → a <= b.
Proof. intros H. apply (Qpower_le_compat_l_inv 2); [exact H | reflexivity]. Qed.

Lemma pow2_Z (k : Z) : 0 <= k → (pow2 k == inject_Z (2 ^ k))%Q.
Proof. intros H. unfold pow2. rewrite Zpower_Qpower by exact H. reflexivity. Qed.

(** The three cases of rounding to the nearest integer. *)
Lemma round_half_even_spec (x : Q) :
  let f := Qfloor x in
  let r := (x - inject_Z f)%Q in
  ((r < 1 # 2)%Q ∧ round_half_even x = f)
  ∨ ((1 # 2 < r)%Q ∧ round_half_even x = f + 1)
  ∨ ((r == 1 # 2)%Q
      ∧ round_half_even x = if Z.even f then f else f + 1).
Proof.
  intros f r. unfold round_half_even. fold f. fold r. unfold Qltb.
  destruct (Qle_bool (1 # 2) r) eqn:E1; cbn [negb].
  - apply Qle_bool_iff in E1.
    destruct (Qle_bool r (1 # 2)) eqn:E2; cbn [negb].
    + apply Qle_bool_iff in E2. right. right. split; [lra | reflexivity].
    + right. left. split; [|reflexivity].
      apply Qnot_le_lt. intros Hle. apply Qle_bool_iff in Hle. congruence.
  - left. split; [|reflexivity].
    apply Qnot_le_lt. intros Hle. apply Qle_bool_iff in Hle. congruence.
Qed.

Lemma floor_bounds (x : Q) :
  (inject_Z (Qfloor x) <= x ∧ x < inject_Z (Qfloor x) + 1)%Q.
Proof.
  split; [apply Qfloor_le|].
  pose proof (Qlt_floor x) as H. rewrite inject_Z_plus in H. exact H.
Qed.

(** Rounding to the nearest integer moves a number by at most a half. *)
Lemma round_half_even_error (x : Q) :
  (- (1 # 2) <= inject_Z (round_half_even x) - x
   ∧ inject_Z (round_half_even x) - x <= 1 # 2)%Q.
Proof.
  pose proof (floor_bounds x) as [Hlo Hhi].
  destruct (round_half_even_spec x) as [[Hr ->] | [[Hr ->] | [Hr ->]]].
  - split; lra.
  - rewrite inject_Z_plus. change (inject_Z 1) with 1%Q. split; lra.
  - destruct (Z.even (Qfloor x)).
    + split; lra.
    + rewrite inject_Z_plus. change (inject_Z 1) with 1%Q. split; lra.
Qed.

Lemma round_half_even_Z (n : Z) : round_half_even (inject_Z n) = n.
Proof.
  destruct (round_half_even_spec (inject_Z n)) as [[Hr ->] | [[Hr H] | [Hr H]]];
    rewrite Qfloor_Z in *; [reflexivity | lra | lra].
Qed.

Lemma round_half_even_mono (x y : Q) :
  (x <= y)%Q → round_half_even x <= round_half_even y.
Proof.
  intros Hxy.
  pose proof (Qfloor_resp_le x y Hxy) as Hf.
  pose proof (floor_bounds x) as [Hxl Hxh].
  pose proof (floor_bounds y) as [Hyl Hyh].
  destruct (Z.eq_dec (Qfloor x) (Qfloor y)) as [E|N].
  - destruct (round_half_even_spec x) as [[Hx ->] | [[Hx ->] | [Hx ->]]];
      destruct (round_half_even_spec y) as [[Hy ->] | [[Hy ->] | [Hy ->]]];
      rewrite <- ?E in *; try lia; try lra;
      destruct (Z.even (Qfloor x)); try lia; lra.
  - assert (Hlt : Qfloor x + 1 <= Qfloor y) by lia.
    assert (Hx : round_half_even x <= Qfloor x + 1).
    { destruct (round_half_even_spec x) as [[_ ->] | [[_ ->] | [_ ->]]];
        [lia | lia | destruct (Z.even _); lia]. }
    assert (Hy : Qfloor y <= round_half_even y).
    { destruct (round_half_even_spec y) as [[_ ->] | [[_ ->] | [_ ->]]];
        [lia | lia | destruct (Z.even _); lia]. }
    lia.
Qed.

Lemma Qabs_make (x : Q) : Qabs x = Qmake (Z.abs (Qnum x)) (Qden x).
Proof. destruct x. reflexivity. Qed.

(** [ilog2 x] is a lower bound of the binary logarithm of [|x|]. *)
Lemma ilog2_le (x : Q) : ¬ (x == 0)%Q → (pow2 (ilog2 x) <= Qabs x)%Q.
Proof.
  intros Hx. unfold ilog2.
  set (p := Z.abs (Qnum x)). set (q := Zpos (Qden x)).
  destruct (Qle_bool (pow2 (Z.log2 p - Z.log2 q)) (Qabs x)) eqn:E.
  - apply Qle_bool_iff in E. exact E.
  - assert (Hp : 0 < p).
    { unfold p. destruct x as [n d]. unfold Qeq in Hx. cbn in *. lia. }
    assert (Hq : 0 < q) by (unfold q; lia).
    destruct (Z.log2_spec p Hp) as [Hp1 _].
    destruct (Z.log2_spec q Hq) as [_ Hq2].
    pose proof (Z.log2_nonneg p) as Ha. pose proof (Z.log2_nonneg q) as Hb.
    replace (Z.log2 p - Z.log2 q - 1) with (Z.log2 p - Z.succ (Z.log2 q)) by lia.
    unfold pow2. rewrite Qpower_minus by discriminate.
    change (2 ^ Z.log2 p)%Q with (pow2 (Z.log2 p)).
    change (2 ^ Z.succ (Z.log2 q))%Q with (pow2 (Z.succ (Z.log2 q))).
    rewrite !pow2_Z by lia.
    set (A := 2 ^ Z.log2 p) in *. set (B := 2 ^ Z.succ (Z.log2 q)) in *.
    apply Qle_shift_div_r.
    + change 0%Q with (inject_Z 0). rewrite <- Zlt_Qlt. lia.
    + rewrite Qabs_make. fold p. unfold Qle. cbn. fold q. nia.
Qed.

Lemma ilog2_bound (x : Q) (k : Z) :
  ¬ (x == 0)%Q → (Qabs x <= pow2 k)%Q → ilog2 x <= k.
Proof.
  intros Hx Hk. apply pow2_le_inv.
  apply Qle_trans with (Qabs x); [apply ilog2_le; exact Hx | exact Hk].
Qed.

Lemma round_nearest_even_eq (x : Q) :
  (round_nearest_even x
   == inject_Z (round_half_even (x / pow2 (ulp_exponent x)))
      * pow2 (ulp_exponent x))%Q.
Proof. unfold round_nearest_even. apply Qred_correct. Qed.

(** Rounding keeps the sign. *)
Lemma round_nearest_even_nonneg (x : Q) :
  (0 <= x)%Q → (0 <= round_nearest_even x)%Q.
Proof.
  intros Hx. rewrite round_nearest_even_eq.
  pose proof (pow2_pos (ulp_exponent x)) as He.
  assert (Hm : 0 <= round_half_even (x / pow2 (ulp_exponent x))).
  { rewrite <- (round_half_even_Z 0) at 1. apply round_half_even_mono.
    apply Qle_shift_div_l; [exact He|]. change (inject_Z 0) with 0%Q. lra. }
  rewrite Zle_Qle in Hm. change (inject_Z 0) with 0%Q in Hm.
  apply Qmult_le_0_compat; lra.
Qed.

Lemma round_nearest_even_zero (x : Q) :
  (x == 0)%Q → (round_nearest_even x == 0)%Q.
Proof.
  intros Hx. rewrite round_nearest_even_eq.
  pose proof (pow2_pos (ulp_exponent x)) as He.
  assert (Hm : round_half_even (x / pow2 (ulp_exponent x)) = 0).
  { apply Z.le_antisymm.
    - rewrite <- (round_half_even_Z 0) at 1. apply round_half_even_mono.
      apply Qle_shift_div_r; [exact He|]. change (inject_Z 0) with 0%Q. lra.
    - rewrite <- (round_half_even_Z 0) at 1. apply round_half_even_mono.
      apply Qle_shift_div_l; [exact He|]. change (inject_Z 0) with 0%Q. lra. }
  rewrite Hm. ring.
Qed.

(** Rounding does not cross a power of two. *)
Lemma round_nearest_even_bound (x : Q) (k : Z) :
  -1074 <= k → (Qabs x <= pow2 k)%Q →
  (Qabs (round_nearest_even x) <= pow2 k)%Q.
Proof.
  intros Hk Hx.
  destruct (Qeq_dec x 0) as [H0|H0].
  - rewrite (round_nearest_even_zero x H0). pose proof (pow2_pos k).
    change (Qabs 0) with 0%Q. lra.
  - rewrite round_nearest_even_eq.
    set (e := ulp_exponent x).
    assert (He : e <= k).
    { unfold e, ulp_exponent. pose proof (ilog2_bound x k H0 Hx). lia. }
    pose proof (pow2_pos e) as Hpe.
    assert (Hsplit : (pow2 k == inject_Z (2 ^ (k - e)) * pow2 e)%Q).
    { rewrite <- pow2_Z by lia. rewrite <- pow2_add.
      replace (k - e + e) with k by lia. reflexivity. }
    apply Qabs_Qle_condition in Hx as [Hx1 Hx2].
    assert (Hm : - 2 ^ (k - e) <= round_half_even (x / pow2 e) <= 2 ^ (k - e)).
    { split.
      - rewrite <- (round_half_even_Z (- 2 ^ (k - e))).
        apply round_half_even_mono. apply Qle_shift_div_l; [exact Hpe|].
        rewrite inject_Z_opp. lra.
      - rewrite <- (round_half_even_Z (2 ^ (k - e))).
        apply round_half_even_mono. apply Qle_shift_div_r; [exact Hpe|]. lra. }
    destruct Hm as [Hm1 Hm2].
    rewrite Zle_Qle in Hm1, Hm2. rewrite inject_Z_opp in Hm1.
    apply Qabs_Qle_condition. rewrite Hsplit.
    set (m := inject_Z (round_half_even (x / pow2 e))) in *.
    set (N := inject_Z (2 ^ (k - e))) in *.
    split.
    + assert (Hn : (- (N * pow2 e) == (- N) * pow2 e)%Q) by ring.
      rewrite Hn. apply Qmult_le_compat_r; lra.
    + apply Qmult_le_compat_r; lra.
Qed.

(** Below 2^1024 the nearest float is finite. *)
Lemma nearest_finite (x : Q) (k : Z) :
  -1074 <= k <= 1023 → (Qabs x <= pow2 k)%Q →
  nearest x = Finite (round_nearest_even x).
Proof.
  intros Hk Hx. unfold nearest.
  pose proof (round_nearest_even_bound x k ltac:(lia) Hx) as Hy.
  destruct (Qle_bool (pow2 1024) (Qabs (round_nearest_even x))) eqn:E;
    [|reflexivity].
  apply Qle_bool_iff in E.
  assert (H : (pow2 1024 <= pow2 k)%Q) by lra.
  apply pow2_le_inv in H. lia.
Qed.

(** The error of rounding: half a unit in the last place. *)
Lemma round_nearest_even_error (x : Q) :
  (Qabs (round_nearest_even x - x)
   <= Qabs x * pow2 (-53) + pow2 (-1075))%Q.
Proof.
  destruct (Qeq_dec x 0) as [H0|H0].
  - rewrite (round_nearest_even_zero x H0), H0.
    pose proof (pow2_pos (-1075)). change (Qabs (0 - 0)) with 0%Q.
    change (Qabs 0) with 0%Q. lra.
  - rewrite round_nearest_even_eq.
    set (e := ulp_exponent x). pose proof (pow2_pos e) as Hpe.
    destruct (round_half_even_error (x / pow2 e)) as [H1 H2].
    set (m := inject_Z (round_half_even (x / pow2 e))) in *.
    assert (Hx : (x == x / pow2 e * pow2 e)%Q) by (field; lra).
    assert (Herr : (Qabs (m * pow2 e - x) <= pow2 e * (1 # 2))%Q).
    { apply Qabs_Qle_condition.
      assert (Hd : (m * pow2 e - x == (m - x / pow2 e) * pow2 e)%Q)
        by (field; lra).
      rewrite Hd. split.
      - assert (Hn : (- (pow2 e * (1 # 2)) == (- (1 # 2)) * pow2 e)%Q)
          by ring.
        rewrite Hn. apply Qmult_le_compat_r; lra.
      - assert (Hn : (pow2 e * (1 # 2) == (1 # 2) * pow2 e)%Q) by ring.
        rewrite Hn. apply Qmult_le_compat_r; lra. }
    assert (Hulp : (pow2 e * (1 # 2)
                    <= Qabs x * pow2 (-53) + pow2 (-1075))%Q).
    { pose proof (ilog2_le x H0) as Hl.
      pose proof (Qabs_nonneg x) as Hn.
      pose proof (pow2_pos (-53)) as H53. pose proof (pow2_pos (-1075)) as Hs.
      assert (Hhalf : ((1 # 2) == pow2 (-1))%Q) by reflexivity.
      rewrite Hhalf, <- pow2_add.
      unfold e, ulp_exponent.
      destruct (Z.max_spec (ilog2 x - 52) (-1074)) as [[_ ->] | [_ ->]].
      - change (-1074 + -1) with (-1075).
        assert (0 <= Qabs x * pow2 (-53))%Q by (apply Qmult_le_0_compat; lra).
        lra.
      - replace (ilog2 x - 52 + -1) with (ilog2 x + -53) by lia.
        rewrite pow2_add.
        assert (pow2 (ilog2 x) * pow2 (-53) <= Qabs x * pow2 (-53))%Q
          by (apply Qmult_le_compat_r; lra).
        lra. }
    lra.
Qed.

(** [ilog2 x] is the integer part of the binary logarithm of [|x|]. *)
Lemma ilog2_lt (x : Q) : ¬ (x == 0)%Q → (Qabs x < pow2 (ilog2 x + 1))%Q.
Proof.
  intros Hx. unfold ilog2.
  set (p := Z.abs (Qnum x)). set (q := Zpos (Qden x)).
  destruct (Qle_bool (pow2 (Z.log2 p - Z.log2 q)) (Qabs x)) eqn:E.
  - assert (Hp : 0 < p).
    { unfold p. destruct x as [n d]. unfold Qeq in Hx. cbn in *. lia. }
    assert (Hq : 0 < q) by (unfold q; lia).
    destruct (Z.log2_spec p Hp) as [_ Hp2].
    destruct (Z.log2_spec q Hq) as [Hq1 _].
    pose proof (Z.log2_nonneg p) as Ha. pose proof (Z.log2_nonneg q) as Hb.
    replace (Z.log2 p - Z.log2 q + 1) with (Z.succ (Z.log2 p) - Z.log2 q)
      by lia.
    unfold pow2. rewrite Qpower_minus by discriminate.
    change (2 ^ Z.succ (Z.log2 p))%Q with (pow2 (Z.succ (Z.log2 p))).
    change (2 ^ Z.log2 q)%Q with (pow2 (Z.log2 q)).
    rewrite !pow2_Z by lia.
    set (A := 2 ^ Z.succ (Z.log2 p)) in *. set (B := 2 ^ Z.log2 q) in *.
    apply Qlt_shift_div_l.
    + change 0%Q with (inject_Z 0). rewrite <- Zlt_Qlt. lia.
    + rewrite Qabs_make. fold p. unfold Qlt. cbn. fold q. nia.
  - replace (Z.log2 p - Z.log2 q - 1 + 1) with (Z.log2 p - Z.log2 q) by lia.
    apply Qnot_le_lt. intros Hle. apply Qle_bool_iff in Hle. congruence.
Qed.

(** What [round_nearest_even] returns is a binary64 number: an integer of
    at most 53 bits times a power of two that is not below 2^-1074. *)
Lemma round_nearest_even_format (x : Q) :
  ∃ m e, (round_nearest_even x == inject_Z m * pow2 e)%Q
    ∧ - 2 ^ 53 <= m <= 2 ^ 53
    ∧ -1074 <= e.
Proof.
  exists (round_half_even (x / pow2 (ulp_exponent x))), (ulp_exponent x).
  split; [apply round_nearest_even_eq|].
  split; [|unfold ulp_exponent; lia].
  set (e := ulp_exponent x). pose proof (pow2_pos e) as Hpe.
  assert (Hx : (Qabs x <= inject_Z (2 ^ 53) * pow2 e)%Q).
  { destruct (Qeq_dec x 0) as [H0|H0].
    - rewrite H0. change (Qabs 0) with 0%Q.
      apply Qmult_le_0_compat; [discriminate | lra].
    - rewrite <- pow2_Z by lia. rewrite <- pow2_add.
      apply Qle_trans with (pow2 (ilog2 x + 1));
        [apply Qlt_le_weak, ilog2_lt, H0|].
      apply pow2_le. unfold e, ulp_exponent. lia. }
  apply Qabs_Qle_condition in Hx as [Hx1 Hx2].
  split.
  - rewrite <- (round_half_even_Z (- 2 ^ 53)).
    apply round_half_even_mono. apply Qle_shift_div_l; [exact Hpe|].
    rewrite inject_Z_opp. lra.
  - rewrite <- (round_half_even_Z (2 ^ 53)).
    apply round_half_even_mono. apply Qle_shift_div_r; [exact Hpe | lra].
Qed.

(** Some roundings of CPython: [round(2.675, 2)] is 2.67 and
    [round(0.125, 2)] is 0.12, [0.1 * 3] is not [0.3], and the largest
    float times 1000 is an infinity. *)
Example known_roundings :
  round2 (nearest (2675 # 1000)) = nearest (267 # 100)
  ∧ round2 (Finite (1 # 8)) = nearest (12 # 100)
  ∧ mul_int (nearest (1 # 10)) 3
    = Finite (Qred (inject_Z 5404319552844596 * pow2 (-54)))
  ∧ nearest (3 # 10) = Finite (Qred (inject_Z 5404319552844595 * pow2 (-54)))
  ∧ mul_int (Finite (inject_Z (2 ^ 53 - 1) * pow2 971)) 1000 = Infinity false.
Proof. repeat split; vm_compute; reflexivity. Qed.

Lemma int64_range (z : Z) : - 2 ^ 63 <= int64 z < 2 ^ 63.
Proof.
  unfold int64.
  pose proof (Z.mod_pos_bound (z + 2 ^ 63) (2 ^ 64) ltac:(lia)). lia.
Qed.

Lemma Qabs_inject_Z_le (z n : Z) :
  - n <= z <= n → (Qabs (inject_Z z) <= inject_Z n)%Q.
Proof.
  intros [H1 H2]. apply Qabs_Qle_condition. rewrite <- inject_Z_opp.
  rewrite <- !Zle_Qle. lia.
Qed.

(** A reading of the clock is below 2^34 seconds. *)
Lemma as_seconds_double_bound (t : Z) :
  - 2 ^ 63 <= t < 2 ^ 63 → (Qabs (as_seconds_double t) <= pow2 34)%Q.
Proof.
  intros Ht. unfold as_seconds_double.
  destruct (Z.rem t (10 ^ 9) =? 0) eqn:E.
  - apply Z.eqb_eq in E.
    pose proof (Z.quot_rem' t (10 ^ 9)) as Hq. rewrite E in Hq.
    rewrite (pow2_Z 34) by lia. apply Qabs_inject_Z_le. lia.
  - apply round_nearest_even_bound; [lia|].
    assert (Hd : (Qabs (round_nearest_even (inject_Z t)) <= pow2 63)%Q).
    { apply round_nearest_even_bound; [lia|].
      rewrite (pow2_Z 63) by lia. apply Qabs_inject_Z_le. lia. }
    apply Qabs_Qle_condition in Hd as [Hd1 Hd2].
    rewrite (pow2_Z 63) in Hd1, Hd2 by lia. rewrite (pow2_Z 34) by lia.
    assert (Hc : (0 < inject_Z (10 ^ 9))%Q) by reflexivity.
    apply Qabs_Qle_condition. split.
    + apply Qle_shift_div_l; [exact Hc|].
      rewrite <- inject_Z_opp, <- inject_Z_mult.
      eapply Qle_trans; [|exact Hd1].
      rewrite <- inject_Z_opp, <- Zle_Qle. lia.
    + apply Qle_shift_div_r; [exact Hc|].
      rewrite <- inject_Z_mult.
      eapply Qle_trans; [exact Hd2|]. rewrite <- Zle_Qle. lia.
Qed.

Lemma perf_counter_bound (w : world) (h : list event) :
  (Qabs (perf_counter w h) <= pow2 34)%Q.
Proof. apply as_seconds_double_bound, int64_range. Qed.

(** [int] on a float that is not negative is the floor. *)
Lemma py_int_floor (x : Q) :
  (0 <= x)%Q → py_int (Finite x) = Ok (Qfloor x).
Proof.
  intros H. unfold py_int. destruct x as [n d]. cbn.
  unfold Qle in H. cbn in H. rewrite Z.mul_1_r in H.
  f_equal. apply Z.quot_div_nonneg; lia.
Qed.

(** The elapsed milliseconds between two readings of the clock. *)
Lemma elapsed_is_finite (start stop : Q) :
  (Qabs start <= pow2 34)%Q → (Qabs stop <= pow2 34)%Q →
  mul_int (sub stop start) 1000
  = Finite (round_nearest_even
              (round_nearest_even (stop - start) * 1000))
  ∧ (Qabs (round_nearest_even (stop - start)) <= pow2 35)%Q.
Proof.
  intros Ha Hb.
  assert (Hd : (Qabs (stop - start) <= pow2 35)%Q).
  { apply Qabs_Qle_condition in Ha as [Ha1 Ha2].
    apply Qabs_Qle_condition in Hb as [Hb1 Hb2].
    rewrite (pow2_Z 34) in * by lia. rewrite (pow2_Z 35) by lia.
    apply Qabs_Qle_condition.
    change (inject_Z (2 ^ 35)) with (inject_Z (2 ^ 34) + inject_Z (2 ^ 34))%Q.
    split; lra. }
  pose proof (round_nearest_even_bound _ 35 ltac:(lia) Hd) as Hr.
  unfold sub. rewrite (nearest_finite _ 35 ltac:(lia) Hd).
  split; [|exact Hr]. cbn [mul_int].
  apply (nearest_finite _ 45); [lia|].
  rewrite Qabs_Qmult.
  assert (H45 : (pow2 45 == pow2 35 * inject_Z 1024)%Q) by reflexivity.
  rewrite H45.
  apply Qmult_le_compat_nonneg.
  - split; [apply Qabs_nonneg | exact Hr].
  - split; [apply Qabs_nonneg | discriminate].
Qed.

(** Between two readings of the clock the conversion [int] never raises. *)
Lemma elapsed_ms_returns (w : world) (h h' : list event) :
  ∃ ms, py_int (mul_int (sub (perf_counter w h') (perf_counter w h)) 1000)
        = Ok ms.
Proof.
  destruct (elapsed_is_finite (perf_counter w h) (perf_counter w h')
              (perf_counter_bound w h) (perf_counter_bound w h')) as [-> _].
  eexists. reflexivity.
Qed.


(** The error of rounding a number of magnitude at most [b]. *)
Lemma round_nearest_even_close (x b : Q) :
  (Qabs x <= b)%Q →
  (Qabs (round_nearest_even x - x) <= (b + 1) * (1 # 9007199254740992))%Q.
Proof.
  intros Hb. pose proof (round_nearest_even_error x) as He.
  assert (Hu : (pow2 (-53) == 1 # 9007199254740992)%Q) by reflexivity.
  assert (Hs : (pow2 (-1075) <= pow2 (-53))%Q) by (apply pow2_le; lia).
  rewrite Hu in He, Hs.
  assert (Hm : (Qabs x * (1 # 9007199254740992)
                <= b * (1 # 9007199254740992))%Q)
    by (apply Qmult_le_compat_r; [exact Hb | discriminate]).
  lra.
Qed.

(** The milliseconds between two readings of the clock, the second not
    before the first: an integer that is not negative, and within one
    millisecond (and the rounding of the two float operations, less than
    1/64) of the exact difference. *)
Lemma elapsed_ms_close (start stop : Q) :
  (Qabs start <= pow2 34)%Q → (Qabs stop <= pow2 34)%Q →
  (start <= stop)%Q →
  ∃ ms, py_int (mul_int (sub stop start) 1000) = Ok ms
    ∧ 0 <= ms
    ∧ (inject_Z ms <= (stop - start) * 1000 + (1 # 64))%Q
    ∧ ((stop - start) * 1000 < inject_Z ms + 1 + (1 # 64))%Q.
Proof.
  intros Ha Hb Hle.
  destruct (elapsed_is_finite start stop Ha Hb) as [-> Hd].
  set (t := (stop - start)%Q) in *.
  set (d := round_nearest_even t) in *.
  set (p := round_nearest_even (d * 1000)).
  assert (Ht0 : (0 <= t)%Q) by (unfold t; lra).
  assert (Hd0 : (0 <= d)%Q) by (apply round_nearest_even_nonneg, Ht0).
  assert (Hp0 : (0 <= p)%Q)
    by (apply round_nearest_even_nonneg; lra).
  assert (H35 : (pow2 35 == 34359738368 # 1)%Q) by reflexivity.
  assert (H34 : (pow2 34 == 17179869184 # 1)%Q) by reflexivity.
  rewrite H35 in Hd. rewrite H34 in Ha, Hb.
  apply Qabs_Qle_condition in Ha as [Ha1 Ha2].
  apply Qabs_Qle_condition in Hb as [Hb1 Hb2].
  apply Qabs_Qle_condition in Hd as [Hd1 Hd2].
  assert (Ht : (Qabs t <= 34359738368 # 1)%Q)
    by (apply Qabs_Qle_condition; unfold t; split; lra).
  pose proof (round_nearest_even_close t _ Ht) as Et. fold d in Et.
  assert (Hd' : (Qabs (d * 1000) <= 34359738368000 # 1)%Q)
    by (apply Qabs_Qle_condition; split; lra).
  pose proof (round_nearest_even_close (d * 1000) _ Hd') as Ep. fold p in Ep.
  apply Qabs_Qle_condition in Et as [Et1 Et2].
  apply Qabs_Qle_condition in Ep as [Ep1 Ep2].
  rewrite (py_int_floor p Hp0). exists (Qfloor p).
  destruct (floor_bounds p) as [Hf1 Hf2].
  split; [reflexivity|]. split; [|split].
  - apply Qfloor_resp_le in Hp0. exact Hp0.
  - lra.
  - lra.
Qed.




Lemma to_pyval_number (x : float) : is_number (to_pyval x) = true.
Proof. destruct x; reflexivity. Qed.

End Floats.

(* ===================================================================== *)
(** * Properties of the probes *)
(* ===================================================================== *)

Section ProbeContract.

Import Probes.

Lemma startswith_app (s p : string) :
  startswith s p = true → s = p +:+ drop_chars (String.length p) s.
Proof.
  revert s. induction p as [|a p IH]; intros s H; [reflexivity|].
  destruct s as [|b s]; [discriminate|].
  cbn in H. apply andb_true_iff in H as [Hab Hs].
  apply Ascii.eqb_eq in Hab as ->.
  change (String b s = String b (p +:+ drop_chars (String.length p) s)).
  f_equal. apply IH, Hs.
Qed.

Lemma startswith_self_app (p r : string) : startswith (p +:+ r) p = true.
Proof.
  induction p as [|a p IH]; [reflexivity|].
  change (Ascii.eqb a a && startswith (p +:+ r) p = true).
  rewrite Ascii.eqb_refl. exact IH.
Qed.

Lemma partition_unfold (sep s : string) :
  partition sep s =
    if startswith s sep then Some (EmptyString, drop_chars (String.length sep) s)
    else match s with
         | EmptyString => None
         | String a s' =>
             match partition sep s' with
             | Some (before, after) => Some (String a before, after)
             | None => None
             end
         end.
Proof. destruct s; reflexivity. Qed.

(** A string in which the separator occurs is split in two. *)
Lemma partition_occurs (sep a r : string) :
  ∃ x y, partition sep (a +:+ sep +:+ r) = Some (x, y).
Proof.
  induction a as [|c a IH].
  - change ("" +:+ sep +:+ r) with (sep +:+ r).
    rewrite partition_unfold, startswith_self_app. eauto.
  - change (String c a +:+ sep +:+ r) with (String c (a +:+ sep +:+ r)).
    rewrite partition_unfold.
    destruct (startswith (String c (a +:+ sep +:+ r)) sep); [eauto|].
    destruct IH as (x & y & ->). eauto.
Qed.

Lemma split1_occurs (sep a r : string) :
  ∃ x y, split1 (a +:+ sep +:+ r) sep = [x; y].
Proof.
  unfold split1. destruct (partition_occurs sep a r) as (x & y & ->). eauto.
Qed.

Lemma split1_head (s sep : string) : ∃ x, index (split1 s sep) 0 = Ok x.
Proof.
  unfold split1. destruct (partition sep s) as [[x y]|]; cbn; eauto.
Qed.

(** [normalize_target] never raises: after a scheme the text contains
    ["//"], so the split has a second element. *)
Lemma normalize_target_returns (target : string) :
  ∃ host, normalize_target target = Ok host.
Proof.
  unfold normalize_target.
  assert (H : ∃ t, (if startswith target "http://" || startswith target "https://"
                    then index (split1 target "//") 1 else Ok target) = Ok t).
  { destruct (startswith target "http://") eqn:E1.
    - apply startswith_app in E1. cbn [orb].
      destruct (split1_occurs "//" "http:" (drop_chars 7 target)) as (x & y & Hs).
      assert (Hs' : split1 target "//" = [x; y]) by (rewrite E1; exact Hs).
      rewrite Hs'. exists y. reflexivity.
    - destruct (startswith target "https://") eqn:E2; cbn [orb]; [|eauto].
      apply startswith_app in E2.
      destruct (split1_occurs "//" "https:" (drop_chars 8 target)) as (x & y & Hs).
      assert (Hs' : split1 target "//" = [x; y]) by (rewrite E2; exact Hs).
      rewrite Hs'. exists y. reflexivity. }
  destruct H as [t ->]. cbn [mbind result_bind]. apply split1_head.
Qed.

Lemma dns_resolution_returns (w : world) (target host : string)
  (h : list event) :
  normalize_target target = Ok host →
  ∃ o, dns_resolution w target h = (Ok o, h ++ [Net (Gethostbyname host)])
    ∧ match gethostbyname w h host with
      | Raise e => reports_failure o (exn_msg e)
      | Ok ip => o !! "ok" = Some (PBool true)
      end.
Proof.
  intros Hhost. unfold dns_resolution, try_except, ask, lift.
  cbv beta iota delta [mbind io_bind mret io_ret]. rewrite Hhost.
  destruct (gethostbyname w h host) as [ip|e];
    eexists; (split; [reflexivity|]); try split; reflexivity.
Qed.

Lemma http_check_returns (w : world) (target : string) (h : list event) :
  ∃ o t, http_check w target h = (Ok o, h ++ t)
    ∧ (t = [Net PerfCounter; Net (HttpGet (_prepare_url target))]
       ∨ t = [Net PerfCounter; Net (HttpGet (_prepare_url target));
              Net PerfCounter])
    ∧ match http_get w (h ++ [Net PerfCounter]) (_prepare_url target) with
      | Raise e => reports_failure o (exn_msg e)
      | Ok r => o !! "ok" = Some (PBool (status_code r <? 400))
      end.
Proof.
  unfold http_check, try_except, ask, lift.
  cbv beta iota zeta delta [mbind io_bind mret io_ret].
  destruct (http_get w (h ++ [Net PerfCounter]) (_prepare_url target))
    as [r|e].
  - match goal with
    | |- context [py_int (mul_int (sub (perf_counter w ?h2)
                                     (perf_counter w ?h1)) 1000)] =>
        destruct (elapsed_ms_returns w h1 h2) as [ms ->]
    end.
    eexists. exists [Net PerfCounter; Net (HttpGet (_prepare_url target));
                     Net PerfCounter].
    rewrite <- !app_assoc.
    split; [reflexivity|]. split; [auto|]. reflexivity.
  - eexists. exists [Net PerfCounter; Net (HttpGet (_prepare_url target))].
    rewrite <- !app_assoc.
    split; [reflexivity|]. split; [auto|]. split; reflexivity.
Qed.

Lemma ping_host_returns (w : world) (target host : string) (h : list event) :
  normalize_target target = Ok host →
  ∃ o, ping_host w target h = (Ok o, h ++ [Net (Ping3 host 2)])
    ∧ match ping w h host 2 with
      | Raise e => reports_failure o (exn_msg e)
      | Ok NoReply => reports_failure o "timeout"
      | Ok (Delay _) | Ok PingError => o !! "ok" = Some (PBool true)
      end.
Proof.
  intros Hhost. unfold ping_host, try_except, ask, lift.
  cbv beta iota delta [mbind io_bind mret io_ret]. rewrite Hhost.
  destruct (ping w h host 2) as [[rtt| |]|e];
    eexists; (split; [reflexivity|]); try split; reflexivity.
Qed.

(** For every target string and whatever the outside world answers, each
    of [dns_resolution], [http_check] and [ping_host] returns an outcome
    record and does not raise.  When the underlying call raises the record
    has ok=False and the exception's text as error; when the ping gets no
    echo reply the record has ok=False and the error "timeout".  The reply
    [False] of the ping is the exception: the record has ok=True. *)
Lemma probes_return_outcomes
  (w : world) (target : string) (h : list event) :
  ∃ host, normalize_target target = Ok host
  ∧ (∃ o, dns_resolution w target h = (Ok o, h ++ [Net (Gethostbyname host)])
       ∧ match gethostbyname w h host with
         | Raise e => reports_failure o (exn_msg e)
         | Ok ip => o !! "ok" = Some (PBool true)
         end)
  ∧ (∃ o h', http_check w target h = (Ok o, h')
       ∧ match http_get w (h ++ [Net PerfCounter]) (_prepare_url target) with
         | Raise e => reports_failure o (exn_msg e)
         | Ok r => o !! "ok" = Some (PBool (status_code r <? 400))
         end)
  ∧ (∃ o, ping_host w target h = (Ok o, h ++ [Net (Ping3 host 2)])
       ∧ match ping w h host 2 with
         | Raise e => reports_failure o (exn_msg e)
         | Ok NoReply => reports_failure o "timeout"
         | Ok (Delay _) | Ok PingError => o !! "ok" = Some (PBool true)
         end).
Proof.
  destruct (normalize_target_returns target) as [host Hhost].
  exists host. split; [exact Hhost|]. split; [|split].
  - apply dns_resolution_returns, Hhost.
  - destruct (http_check_returns w target h) as (o & t & Ho & _ & Hm).
    exists o, (h ++ t). split; [exact Ho | exact Hm].
  - apply ping_host_returns, Hhost.
Qed.

(** C2. The claim fails for the ping probe: when the ping itself fails
    (the host name cannot be resolved, the destination is unreachable),
    [ping3.ping] answers [False], and [ping_host], which tests the answer
    for [None] only, returns a record with ok=True, a latency of 0 and no
    error, where the claim has ok=False and a descriptive error. *)
Theorem ping_error_is_reported_as_success
  (w : world) (target host : string) (h : list event) :
  normalize_target target = Ok host →
  ping w h host 2 = Ok PingError →
  ∃ o, ping_host w target h = (Ok o, h ++ [Net (Ping3 host 2)])
    ∧ o !! "ok" = Some (PBool true)
    ∧ o !! "latency_ms" = Some (PInt 0)
    ∧ o !! "error" = None
    ∧ failed o = false.
Proof.
  intros Hhost Hping. unfold ping_host, try_except, ask, lift.
  cbv beta iota delta [mbind io_bind mret io_ret]. rewrite Hhost, Hping.
  eexists. split; [reflexivity|]. repeat split; reflexivity.
Qed.

Lemma ping_error_is_reported_as_success_witness :
  ∃ o, ping_host unknown_host_world "no-such-host.invalid" []
       = (Ok o, [Net (Ping3 "no-such-host.invalid" 2)])
    ∧ o !! "ok" = Some (PBool true)
    ∧ o !! "latency_ms" = Some (PInt 0)
    ∧ o !! "error" = None
    ∧ failed o = false.
Proof.
  apply (ping_error_is_reported_as_success unknown_host_world
           "no-such-host.invalid" "no-such-host.invalid" []); reflexivity.
Defined.

End ProbeContract.

(* ===================================================================== *)
(** * Properties of the orchestration *)
(* ===================================================================== *)

Section Orchestration.

Import Portia Probes Agent.

Lemma probe_ask {A} (c : check) (rq : call)
  (answer : list event → result A) (h : list event) :
  probe c (ask rq answer) h
  = (answer (h ++ [Enter c]), h ++ [Enter c; Net rq; Leave c]).
Proof. unfold probe, ask. rewrite <- !app_assoc. reflexivity. Qed.

Lemma probe_dns_resolution (w : world) (domain host : string)
  (h : list event) :
  normalize_target domain = Ok host →
  ∃ o, probe Dns (dns_resolution w domain) h
       = (Ok o, h ++ [Enter Dns; Net (Gethostbyname host); Leave Dns]).
Proof.
  intros Hhost. unfold probe.
  destruct (dns_resolution_returns w domain host (h ++ [Enter Dns]) Hhost)
    as (o & -> & _).
  exists o. rewrite <- !app_assoc. reflexivity.
Qed.

Lemma probe_ping_host (w : world) (domain host : string) (h : list event) :
  normalize_target domain = Ok host →
  ∃ o, probe Ping (ping_host w domain) h
       = (Ok o, h ++ [Enter Ping; Net (Ping3 host 2); Leave Ping]).
Proof.
  intros Hhost. unfold probe.
  destruct (ping_host_returns w domain host (h ++ [Enter Ping]) Hhost)
    as (o & -> & _).
  exists o. rewrite <- !app_assoc. reflexivity.
Qed.

Lemma probe_http_check (w : world) (domain : string) (h : list event) :
  ∃ o t, probe Http (http_check w domain) h
         = (Ok o, h ++ Enter Http :: t ++ [Leave Http])
    ∧ (t = [Net PerfCounter; Net (HttpGet (_prepare_url domain))]
       ∨ t = [Net PerfCounter; Net (HttpGet (_prepare_url domain));
              Net PerfCounter]).
Proof.
  unfold probe.
  destruct (http_check_returns w domain (h ++ [Enter Http]))
    as (o & t & -> & Ht & _).
  exists o, t. split; [|exact Ht].
  rewrite <- !app_assoc. reflexivity.
Qed.

(** The analysis makes no call to the world: the history of a run is the
    history of its probe phase. *)
Lemma run_diagnostics_collect (w : world) (portia_client : PortiaAIClient)
  (domain mode : string) (h : list event) :
  run_diagnostics w portia_client domain mode h
  = let '(rr, h') := collect_raw_results w domain h in
    (raw_results ← rr; assess portia_client raw_results domain mode, h').
Proof.
  unfold run_diagnostics, lift. cbv beta iota delta [mbind io_bind].
  destruct (collect_raw_results w domain h) as [[raw_results|e] h'];
    reflexivity.
Qed.

Ltac history_facts :=
  repeat match goal with
         | |- _ ∧ _ => split
         | |- sequential_run _ _ = _ => reflexivity
         | |- (max_in_flight _ ≤ 1)%nat => vm_compute; lia
         | |- _ `prefix_of` checks => eexists; reflexivity
         | |- world_calls _ ⊆ requests _ _ =>
             unfold requests; cbn [world_calls omap list_omap app];
             intros ? Hin;
             repeat (apply elem_of_cons in Hin as [->|Hin];
                     [solve [repeat constructor]|]);
             inversion Hin
         | |- complete _ => intros []; vm_compute; eauto
         | |- _ = checks => reflexivity
         | |- True => exact I
         end.

(** The probe phase of a run that starts with an empty history. *)
Lemma collect_raw_results_history (w : world) (domain host : string) :
  normalize_target domain = Ok host →
  ∃ rr h cs, collect_raw_results w domain [] = (rr, h)
    ∧ sequential_run None h = Some cs
    ∧ (max_in_flight h ≤ 1)%nat
    ∧ cs `prefix_of` checks
    ∧ world_calls h ⊆ requests domain host
    ∧ match rr with
      | Ok raw_results => cs = checks ∧ complete raw_results
      | Raise _ => True
      end.
Proof.
  intros Hhost. unfold collect_raw_results.
  cbv beta iota delta [mbind io_bind mret io_ret].
  destruct (probe_dns_resolution w domain host [] Hhost) as (dns & ->).
  rewrite probe_ask.
  destruct (ssl_certificate_check w _ domain) as [ssl|e].
  2: { do 3 eexists. split; [reflexivity|]. history_facts. }
  match goal with
  | |- context [probe Http (http_check w domain) ?h] =>
      destruct (probe_http_check w domain h) as (http & t & -> & Ht)
  end.
  match goal with
  | |- context [probe Ping (ping_host w domain) ?h] =>
      destruct (probe_ping_host w domain host h Hhost) as (ping & ->)
  end.
  rewrite probe_ask.
  destruct (geoip_lookup w _ domain) as [geoip|e];
    destruct Ht as [-> | ->];
    (do 3 eexists; split; [reflexivity|]; history_facts).
Qed.

(** C10 (amended). When [run_diagnostics] processes a single target the
    five probes run one after another in the order DNS, TLS, HTTP, Ping,
    GeoLocation: each probe is left before the next is entered, so at
    most one is in flight at any time.  Every request to the world is
    built from the target alone (no probe's outcome is an input to
    another), the outcomes are collected into one outcome set with all
    five entries, and scoring and analysis are computed from that set. *)
Theorem probes_run_one_after_another
  (w : world) (portia_client : PortiaAIClient) (domain mode : string) :
  ∃ host rr h cs,
    normalize_target domain = Ok host
    ∧ collect_raw_results w domain [] = (rr, h)
    ∧ run_diagnostics w portia_client domain mode []
      = (raw_results ← rr; assess portia_client raw_results domain mode, h)
    ∧ sequential_run None h = Some cs
    ∧ (max_in_flight h ≤ 1)%nat
    ∧ cs `prefix_of` checks
    ∧ world_calls h ⊆ requests domain host
    ∧ match rr with
      | Ok raw_results => cs = checks ∧ complete raw_results
      | Raise _ => True
      end.
Proof.
  destruct (normalize_target_returns domain) as [host Hhost].
  destruct (collect_raw_results_history w domain host Hhost)
    as (rr & h & cs & Hc & Hrest).
  exists host, rr, h, cs. split; [exact Hhost|]. split; [exact Hc|].
  split; [|exact Hrest].
  rewrite run_diagnostics_collect, Hc. reflexivity.
Qed.

(** In a world where every call succeeds the run on "example.com" is the
    five probe calls in a row; no two probes are ever in flight
    together. *)
Lemma probes_are_not_concurrent :
  let run := run_diagnostics calm_world (new_client None) "example.com"
               "beginner" [] in
  is_ok run.1 = true
  ∧ run.2 = [Enter Dns; Net (Gethostbyname "example.com"); Leave Dns;
             Enter Ssl; Net (SslCertificateCheck "example.com"); Leave Ssl;
             Enter Http; Net PerfCounter;
             Net (HttpGet "https://example.com"); Net PerfCounter; Leave Http;
             Enter Ping; Net (Ping3 "example.com" 2); Leave Ping;
             Enter Geoip; Net (GeoipLookup "example.com"); Leave Geoip]
  ∧ max_in_flight run.2 = 1%nat
  ∧ ¬ executes_concurrently run.2.
Proof.
  assert (E : (run_diagnostics calm_world (new_client None) "example.com"
                 "beginner" []).2
              = [Enter Dns; Net (Gethostbyname "example.com"); Leave Dns;
                 Enter Ssl; Net (SslCertificateCheck "example.com"); Leave Ssl;
                 Enter Http; Net PerfCounter;
                 Net (HttpGet "https://example.com"); Net PerfCounter;
                 Leave Http;
                 Enter Ping; Net (Ping3 "example.com" 2); Leave Ping;
                 Enter Geoip; Net (GeoipLookup "example.com"); Leave Geoip])
    by (vm_compute; reflexivity).
  cbv zeta. rewrite E.
  split; [vm_compute; reflexivity|]. split; [reflexivity|].
  split; [reflexivity|].
  unfold executes_concurrently. vm_compute. lia.
Qed.

End Orchestration.

(* ===================================================================== *)
(** * Targets: [normalize_target] and [_prepare_url] *)
(* ===================================================================== *)

Section Targets.

Import Probes.

(** Splitting at a one-character separator, one character at a time. *)
Lemma partition_char (c : Ascii.ascii) (s : string) :
  partition (String c "") s =
    match s with
    | EmptyString => None
    | String a s' =>
        if Ascii.eqb c a then Some (EmptyString, s')
        else match partition (String c "") s' with
             | Some (before, after) => Some (String a before, after)
             | None => None
             end
    end.
Proof.
  rewrite partition_unfold. destruct s as [|a s']; [reflexivity|].
  cbn [startswith String.length drop_chars].
  rewrite andb_true_r. reflexivity.
Qed.

(** The text before the first occurrence of the separator does not
    contain it, and a text without the separator is not split. *)
Lemma partition_char_before (c : Ascii.ascii) (s : string) :
  match partition (String c "") s with
  | Some (before, after) =>
      occurs c before = false ∧ s = before +:+ String c after
  | None => occurs c s = false
  end.
Proof.
  induction s as [|a s IH]; rewrite partition_char; [reflexivity|].
  cbn [occurs]. destruct (Ascii.eqb c a) eqn:E.
  - apply Ascii.eqb_eq in E as ->. split; reflexivity.
  - destruct (partition (String c "") s) as [[before after]|].
    + destruct IH as [Hb Hs]. cbn [occurs]. rewrite E, Hb.
      split; [reflexivity|]. rewrite Hs at 1. reflexivity.
    + exact IH.
Qed.

Lemma partition_char_absent (c : Ascii.ascii) (s : string) :
  occurs c s = false → partition (String c "") s = None.
Proof.
  induction s as [|a s IH]; intros H; rewrite partition_char; [reflexivity|].
  cbn [occurs] in H. apply orb_false_iff in H as [-> H].
  rewrite (IH H). reflexivity.
Qed.

Lemma partition_char_first (c : Ascii.ascii) (x y : string) :
  occurs c x = false →
  partition (String c "") (x +:+ String c y) = Some (x, y).
Proof.
  induction x as [|a x IH]; intros H.
  - change ("" +:+ String c y) with (String c y).
    rewrite partition_char, Ascii.eqb_refl. reflexivity.
  - change (String a x +:+ String c y) with (String a (x +:+ String c y)).
    cbn [occurs] in H. apply orb_false_iff in H as [E H].
    rewrite partition_char, E, (IH H). reflexivity.
Qed.

Lemma occurs_app (c : Ascii.ascii) (x y : string) :
  occurs c (x +:+ y) = occurs c x || occurs c y.
Proof.
  induction x as [|a x IH]; [reflexivity|].
  change (String a x +:+ y) with (String a (x +:+ y)).
  cbn [occurs]. rewrite IH, orb_assoc. reflexivity.
Qed.

(** A text that starts with a scheme contains ["/"]. *)
Lemma startswith_occurs (c : Ascii.ascii) (s p : string) :
  startswith s p = true → occurs c p = true → occurs c s = true.
Proof.
  intros Hs Hp. apply startswith_app in Hs. rewrite Hs, occurs_app, Hp.
  reflexivity.
Qed.

Lemma bare_host_no_scheme (host : string) :
  bare_host host = true →
  startswith host "http://" || startswith host "https://" = false.
Proof.
  unfold bare_host. intros H. apply negb_true_iff in H.
  destruct (startswith host "http://") eqn:E1.
  { rewrite (startswith_occurs "/"%char host "http://" E1) in H by reflexivity.
    discriminate. }
  destruct (startswith host "https://") eqn:E2; [|reflexivity].
  rewrite (startswith_occurs "/"%char host "https://" E2) in H by reflexivity.
  discriminate.
Qed.

(** What [normalize_target] keeps of a text without scheme: the part
    before the first ["/"]. *)
Lemma first_segment_bare (s : string) :
  ∃ host, index (split1 s "/") 0 = Ok host ∧ bare_host host = true.
Proof.
  unfold split1, bare_host.
  pose proof (partition_char_before "/"%char s) as H.
  destruct (partition "/" s) as [[before after]|].
  - exists before. destruct H as [-> _]. split; reflexivity.
  - exists s. rewrite H. split; reflexivity.
Qed.

Lemma first_segment_of_bare (host : string) :
  bare_host host = true → index (split1 host "/") 0 = Ok host.
Proof.
  unfold bare_host, split1. intros H. apply negb_true_iff in H.
  rewrite (partition_char_absent "/"%char host H). reflexivity.
Qed.

Lemma first_segment_of_path (host path : string) :
  bare_host host = true →
  index (split1 (host +:+ "/" +:+ path) "/") 0 = Ok host.
Proof.
  unfold bare_host, split1. intros H. apply negb_true_iff in H.
  change ("/" +:+ path) with (String "/"%char path).
  rewrite (partition_char_first "/"%char host path H). reflexivity.
Qed.

(** After a scheme, the split at ["//"] gives back the rest. *)
Lemma after_scheme (rest : string) :
  index (split1 ("http://" +:+ rest) "//") 1 = Ok rest
  ∧ index (split1 ("https://" +:+ rest) "//") 1 = Ok rest.
Proof.
  unfold split1.
  assert (H1 : partition "//" ("http://" +:+ rest) = Some ("http:", rest)).
  { change ("http://" +:+ rest) with
      (String "h" (String "t" (String "t" (String "p" (String ":"
         ("//" +:+ rest)))))).
    do 5 (rewrite partition_unfold; cbn [startswith Ascii.eqb Bool.eqb andb]).
    rewrite partition_unfold, startswith_self_app. reflexivity. }
  assert (H2 : partition "//" ("https://" +:+ rest) = Some ("https:", rest)).
  { change ("https://" +:+ rest) with
      (String "h" (String "t" (String "t" (String "p" (String "s" (String ":"
         ("//" +:+ rest))))))).
    do 6 (rewrite partition_unfold; cbn [startswith Ascii.eqb Bool.eqb andb]).
    rewrite partition_unfold, startswith_self_app. reflexivity. }
  rewrite H1, H2. split; reflexivity.
Qed.

Lemma normalize_target_bare (host : string) :
  bare_host host = true → normalize_target host = Ok host.
Proof.
  intros H. unfold normalize_target.
  rewrite (bare_host_no_scheme host H). cbn [mbind result_bind].
  apply first_segment_of_bare, H.
Qed.

(** X1. [normalize_target] never raises (the index [1] after a scheme is
    always in range), its result contains no ["/"], and normalising the
    result again changes nothing. *)
Theorem normalize_target_gives_bare_host (target : string) :
  ∃ host, normalize_target target = Ok host
    ∧ bare_host host = true
    ∧ normalize_target host = Ok host.
Proof.
  assert (H : ∃ host, normalize_target target = Ok host
                      ∧ bare_host host = true).
  { unfold normalize_target.
    destruct (normalize_target_returns target) as [h0 Hh0].
    unfold normalize_target in Hh0.
    destruct (if startswith target "http://" || startswith target "https://"
              then index (split1 target "//") 1 else Ok target) as [t|e];
      [|discriminate].
    cbn [mbind result_bind]. apply first_segment_bare. }
  destruct H as (host & Hn & Hb).
  exists host. split; [exact Hn|]. split; [exact Hb|].
  apply normalize_target_bare, Hb.
Qed.

(** A text [host/path] with a bare host starts with a scheme only when the
    host is the scheme name itself. *)
Lemma host_path_scheme (host path : string) :
  bare_host host = true →
  (startswith (host +:+ "/" +:+ path) "http://" = true → host = "http:")
  ∧ (startswith (host +:+ "/" +:+ path) "https://" = true → host = "https:").
Proof.
  unfold bare_host. intros H. apply negb_true_iff in H.
  pose proof (partition_char_first "/"%char host path H) as Hp.
  split; intros Hs; apply startswith_app in Hs;
    change ("/" +:+ path) with (String "/"%char path) in Hs;
    rewrite Hs in Hp.
  - change ("http://" +:+ ?r) with ("http:" +:+ String "/"%char ("/" +:+ r))
      in Hp.
    rewrite partition_char_first in Hp by reflexivity. congruence.
  - change ("https://" +:+ ?r) with ("https:" +:+ String "/"%char ("/" +:+ r))
      in Hp.
    rewrite partition_char_first in Hp by reflexivity. congruence.
Qed.

(** X2. For a host without ["/"] other than the bare scheme names
    ["http:"] and ["https:"], the target may be the host itself, the host
    followed by a path, or either of them behind [http://] or [https://]:
    [normalize_target] returns the host in all six cases. *)
Theorem normalize_target_strips_scheme_and_path (host path : string) :
  bare_host host = true →
  host ≠ "http:" →
  host ≠ "https:" →
  normalize_target host = Ok host
  ∧ normalize_target (host +:+ "/" +:+ path) = Ok host
  ∧ normalize_target ("http://" +:+ host) = Ok host
  ∧ normalize_target ("https://" +:+ host) = Ok host
  ∧ normalize_target ("http://" +:+ host +:+ "/" +:+ path) = Ok host
  ∧ normalize_target ("https://" +:+ host +:+ "/" +:+ path) = Ok host.
Proof.
  intros H Hn1 Hn2.
  assert (Hpath : startswith (host +:+ "/" +:+ path) "http://"
                  || startswith (host +:+ "/" +:+ path) "https://" = false).
  { destruct (host_path_scheme host path H) as [H1 H2].
    apply orb_false_iff. split.
    - destruct (startswith (host +:+ "/" +:+ path) "http://");
        [destruct (Hn1 (H1 eq_refl)) | reflexivity].
    - destruct (startswith (host +:+ "/" +:+ path) "https://");
        [destruct (Hn2 (H2 eq_refl)) | reflexivity]. }
  destruct (after_scheme host) as [A1 A2].
  destruct (after_scheme (host +:+ "/" +:+ path)) as [B1 B2].
  unfold normalize_target. repeat split.
  - apply normalize_target_bare, H.
  - rewrite Hpath. cbn [mbind result_bind].
    apply first_segment_of_path, H.
  - rewrite startswith_self_app, A1. cbn [orb mbind result_bind].
    apply first_segment_of_bare, H.
  - rewrite (startswith_self_app "https://"), orb_true_r, A2.
    cbn [mbind result_bind]. apply first_segment_of_bare, H.
  - rewrite startswith_self_app, B1. cbn [orb mbind result_bind].
    apply first_segment_of_path, H.
  - rewrite (startswith_self_app "https://"), orb_true_r, B2.
    cbn [mbind result_bind]. apply first_segment_of_path, H.
Qed.

Lemma normalize_target_strips_scheme_and_path_witness :
  normalize_target "example.com:8080" = Ok "example.com:8080"
  ∧ normalize_target "example.com:8080/a/b?q=1" = Ok "example.com:8080"
  ∧ normalize_target "http://example.com:8080" = Ok "example.com:8080"
  ∧ normalize_target "https://example.com:8080" = Ok "example.com:8080"
  ∧ normalize_target "http://example.com:8080/a/b?q=1" = Ok "example.com:8080"
  ∧ normalize_target "https://example.com:8080/a/b?q=1"
    = Ok "example.com:8080".
Proof.
  apply (normalize_target_strips_scheme_and_path "example.com:8080" "a/b?q=1");
    [reflexivity | discriminate | discriminate].
Defined.

(** X3. [_prepare_url] returns a URL that starts with [http://] or
    [https://], applying it twice is applying it once, and
    [normalize_target] returns for the prepared URL what it returns for
    the target itself. *)
Theorem prepare_url_keeps_the_host (target : string) :
  startswith (_prepare_url target) "http://"
  || startswith (_prepare_url target) "https://" = true
  ∧ _prepare_url (_prepare_url target) = _prepare_url target
  ∧ normalize_target (_prepare_url target) = normalize_target target.
Proof.
  unfold _prepare_url.
  destruct (startswith target "http://" || startswith target "https://")
    eqn:E.
  - rewrite E. repeat split; reflexivity.
  - assert (Hs : startswith ("https://" +:+ target) "http://"
                 || startswith ("https://" +:+ target) "https://" = true).
    { rewrite (startswith_self_app "https://"). apply orb_true_r. }
    rewrite Hs. repeat split.
    unfold normalize_target. rewrite Hs, E.
    destruct (after_scheme target) as [_ ->]. reflexivity.
Qed.

Lemma append_assoc (x y z : string) : (x +:+ y) +:+ z = x +:+ y +:+ z.
Proof.
  induction x as [|a x IH]; [reflexivity|].
  change ((String a x +:+ y) +:+ z) with (String a ((x +:+ y) +:+ z)).
  rewrite IH. reflexivity.
Qed.

(** X4. Only the lower-case prefixes [http://] and [https://] count as a
    scheme.  For a target [scheme://rest] that starts with neither, the
    host [normalize_target] returns is the scheme name followed by a
    colon, not the host in [rest]. *)
Theorem normalize_target_other_scheme (scheme rest : string) :
  bare_host scheme = true →
  startswith (scheme +:+ "://" +:+ rest) "http://" = false →
  startswith (scheme +:+ "://" +:+ rest) "https://" = false →
  normalize_target (scheme +:+ "://" +:+ rest) = Ok (scheme +:+ ":").
Proof.
  intros Hb H1 H2. unfold normalize_target. rewrite H1, H2.
  cbn [orb mbind result_bind].
  assert (E : scheme +:+ "://" +:+ rest
              = (scheme +:+ ":") +:+ "/" +:+ ("/" +:+ rest)).
  { rewrite append_assoc. reflexivity. }
  rewrite E. apply first_segment_of_path.
  unfold bare_host in *. rewrite occurs_app.
  apply negb_true_iff in Hb. rewrite Hb. reflexivity.
Qed.

Lemma normalize_target_other_scheme_witness :
  normalize_target "HTTPS://example.com/index.html" = Ok "HTTPS:"
  ∧ normalize_target "ftp://example.com" = Ok "ftp:".
Proof.
  split.
  - apply (normalize_target_other_scheme "HTTPS" "example.com/index.html");
      reflexivity.
  - apply (normalize_target_other_scheme "ftp" "example.com"); reflexivity.
Defined.

End Targets.

(* ===================================================================== *)
(** * Scores, missing entries and the two issue counts *)
(* ===================================================================== *)

Section Scores.

Import Portia Agent.

Lemma failing_cases (d : results) :
  failing d =
    (if fails d Dns then [Dns] else []) ++ (if fails d Ssl then [Ssl] else [])
    ++ (if fails d Http then [Http] else [])
    ++ (if fails d Ping then [Ping] else [])
    ++ (if fails d Geoip then [Geoip] else []).
Proof.
  unfold failing, checks. cbn [filter list_filter].
  repeat case_decide;
    destruct (fails d Dns), (fails d Ssl), (fails d Http), (fails d Ping),
      (fails d Geoip); try discriminate; try contradiction; reflexivity.
Qed.

(** X5. On an outcome set with all five entries the health score is
    between 0 and 100, the clamp at 0 never changes it, it is 100 exactly
    when no category fails and 0 exactly when all five fail. *)
Theorem health_score_range (d : results) :
  complete d →
  ∃ score, _calculate_health_score d = Ok score
    ∧ score = 100 - total_penalty (failing d)
    ∧ 0 ≤ score ≤ 100
    ∧ (score = 100 ↔ failing d = [])
    ∧ (score = 0 ↔ failing d = checks).
Proof.
  intros H. eexists. split; [apply (score_by_cases d H)|].
  rewrite total_penalty_failing, failing_cases. unfold checks.
  destruct (fails d Dns), (fails d Ssl), (fails d Http), (fails d Ping),
    (fails d Geoip); cbn; repeat split; try lia; try discriminate; auto.
Qed.

Lemma health_score_range_witness :
  ∃ score, _calculate_health_score dns_http_down = Ok score
    ∧ score = 100 - total_penalty (failing dns_http_down)
    ∧ 0 ≤ score ≤ 100
    ∧ (score = 100 ↔ failing dns_http_down = [])
    ∧ (score = 0 ↔ failing dns_http_down = checks).
Proof.
  apply (health_score_range dns_http_down). apply complete_outcome_set.
Defined.

Lemma first_missing_cases (d : results) (k : string) :
  first_missing d = Some k →
  (k = "dns" ∧ d !! "dns" = None)
  ∨ (k = "http" ∧ is_Some (d !! "dns") ∧ d !! "http" = None)
  ∨ (k = "ssl" ∧ is_Some (d !! "dns") ∧ is_Some (d !! "http")
     ∧ d !! "ssl" = None)
  ∨ (k = "ping" ∧ is_Some (d !! "dns") ∧ is_Some (d !! "http")
     ∧ is_Some (d !! "ssl") ∧ d !! "ping" = None)
  ∨ (k = "geoip" ∧ is_Some (d !! "dns") ∧ is_Some (d !! "http")
     ∧ is_Some (d !! "ssl") ∧ is_Some (d !! "ping") ∧ d !! "geoip" = None).
Proof.
  unfold first_missing. cbn [list_find].
  repeat case_decide; cbn; intros [= <-];
    repeat match goal with
           | H : ?x ≠ None |- _ =>
               apply not_eq_None_Some in H
           end; tauto.
Qed.

(** X6. When an entry is absent from [raw_results], both
    [_calculate_health_score] and [_generate_summary_and_fixes] raise
    [KeyError] for the first absent key in the order dns, http, ssl, ping,
    geoip; nothing is scored or summarised. *)
Theorem missing_entry_raises_key_error
  (d : results) (k domain : string) (ai : option Insights) :
  first_missing d = Some k →
  _calculate_health_score d = Raise (KeyError k)
  ∧ _generate_summary_and_fixes d domain ai = Raise (KeyError k).
Proof.
  intros H. apply first_missing_cases in H.
  unfold _calculate_health_score, _generate_summary_and_fixes, getitem.
  destruct H as [(-> & H1) | [(-> & [? H1] & H2) | [(-> & [? H1] & [? H2] & H3)
    | [(-> & [? H1] & [? H2] & [? H3] & H4)
    | (-> & [? H1] & [? H2] & [? H3] & [? H4] & H5)]]]];
    rewrite ?H1, ?H2, ?H3, ?H4, ?H5; cbn [mbind result_bind];
    repeat match goal with
           | |- context [if ?b then _ else _] => destruct b
           end; split; reflexivity.
Qed.

Lemma missing_entry_raises_key_error_witness :
  _calculate_health_score (without Http (without Ping all_up))
  = Raise (KeyError "http")
  ∧ _generate_summary_and_fixes (without Http (without Ping all_up))
      "example.com" None
    = Raise (KeyError "http").
Proof.
  apply (missing_entry_raises_key_error (without Http (without Ping all_up))).
  vm_compute. reflexivity.
Defined.

(** X7. The analyzer does not raise on an absent entry: it reads it as an
    empty record, so the category counts as failed and (for DNS, TLS, HTTP
    and Ping) its issue is reported with the default technical details. *)
Theorem analyzer_reports_missing_entry
  (d : results) (target : string) (c : check) (rc : root_cause) :
  d !! key c = None →
  issue_for c ∅ = Some rc →
  numeric_metrics d = true →
  fails d c = true
  ∧ ∃ i, _generate_fallback_insights d target = Ok i
         ∧ rc ∈ root_cause_analysis i.
Proof.
  intros Hnone Hrc Hnum.
  assert (Hout : get_outcome d (key c) = ∅).
  { unfold get_outcome. rewrite Hnone. reflexivity. }
  assert (Hf : fails d c = true).
  { unfold fails. rewrite Hout. reflexivity. }
  split; [exact Hf|].
  destruct (fallback_insights_effect d target Hnum) as (i & Hi & Hrca & _).
  exists i. split; [exact Hi|]. rewrite Hrca. unfold issues_of.
  apply list_elem_of_omap. exists c. split.
  - apply list_elem_of_filter. split; [exact Hf|]. destruct c; set_solver.
  - rewrite Hout. exact Hrc.
Qed.

Lemma analyzer_reports_missing_entry_witness :
  fails (without Http all_up) Http = true
  ∧ ∃ i, _generate_fallback_insights (without Http all_up) "example.com" = Ok i
         ∧ RootCause "HTTP" "high" "HTTP connectivity failure"
             "Website inaccessible to users" (PStr "HTTP connection failed")
           ∈ root_cause_analysis i.
Proof.
  apply (analyzer_reports_missing_entry (without Http all_up) "example.com"
           Http); [reflexivity | reflexivity | vm_compute; reflexivity].
Defined.

(** X8. The analyzer's performance score and the scorer's health score
    are computed from the same failures with different weights: the
    performance score is the health score minus 5 when TLS fails plus 5
    when GeoIP fails, and it lies between 0 and 100. *)
Theorem performance_score_and_health_score (d : results) (target : string) :
  complete d →
  numeric_metrics d = true →
  ∃ i score, _generate_fallback_insights d target = Ok i
    ∧ _calculate_health_score d = Ok score
    ∧ performance_score i = score - 5 * down d Ssl + 5 * down d Geoip
    ∧ 0 ≤ performance_score i ≤ 100.
Proof.
  intros Hc Hnum.
  destruct (fallback_insights_effect d target Hnum)
    as (i & Hi & _ & _ & _ & Hsc).
  exists i. eexists. split; [exact Hi|].
  split; [apply (score_by_cases d Hc)|].
  rewrite Hsc. unfold score_of, checks, down. cbn [foldr contribution].
  destruct (fails d Dns), (fails d Ssl), (fails d Http), (fails d Ping),
    (fails d Geoip); cbn; lia.
Qed.

Lemma performance_score_and_health_score_witness :
  ∃ i score, _generate_fallback_insights geoip_down "example.com" = Ok i
    ∧ _calculate_health_score geoip_down = Ok score
    ∧ performance_score i = score - 5 * down geoip_down Ssl
                            + 5 * down geoip_down Geoip
    ∧ 0 ≤ performance_score i ≤ 100.
Proof.
  apply (performance_score_and_health_score geoip_down "example.com").
  - apply complete_outcome_set.
  - vm_compute. reflexivity.
Defined.

(** The analyzer's summary is never the empty string. *)
Lemma ai_summary_not_empty (d : results) (target : string) (i : Insights) :
  _generate_fallback_insights d target = Ok i →
  String.eqb (ai_summary i) "" = false.
Proof.
  rewrite fallback_insights_run_checks.
  destruct (run_checks checks d initial_insights) as [i0|]; [|discriminate].
  cbn [mbind result_bind]. intros [= <-].
  unfold generate_summary. destruct (root_cause_analysis i0); reflexivity.
Qed.

(** The local issue and fix lists, by their lengths. *)
Lemma summary_and_fixes_effect (d : results) (domain : string) :
  complete d →
  ∃ issues fixes,
    Z.of_nat (length issues)
    = down d Dns + down d Http + down d Ssl + down d Ping + down d Geoip
    ∧ Z.of_nat (length fixes)
      = 2 * (down d Dns + down d Http + down d Ssl + down d Ping)
        + down d Geoip
    ∧ ∀ ai, _generate_summary_and_fixes d domain ai =
        match ai with
        | Some ai =>
            let fixes :=
              fixes ++ map ai_fix (intelligent_recommendations ai) in
            if negb (String.eqb (ai_summary ai) "")
            then Ok (ai_summary ai, fixes)
            else Ok (local_summary issues domain, fixes)
        | None => Ok (local_summary issues domain, fixes)
        end.
Proof.
  intros Hc. unfold _generate_summary_and_fixes.
  pose proof (getitem_complete d Dns Hc) as E1.
  pose proof (getitem_complete d Http Hc) as E2.
  pose proof (getitem_complete d Ssl Hc) as E3.
  pose proof (getitem_complete d Ping Hc) as E4.
  pose proof (getitem_complete d Geoip Hc) as E5.
  cbn [key] in *. rewrite E1, E2, E3, E4, E5. cbn [mbind result_bind].
  rewrite !failed_get_or. unfold down, fails. cbn [key].
  destruct (failed (get_outcome d "dns")), (failed (get_outcome d "http")),
    (failed (get_outcome d "ssl")), (failed (get_outcome d "ping")),
    (failed (get_outcome d "geoip"));
    (eexists; eexists; split; [|split; [|intros [ai|]; reflexivity]];
     reflexivity).
Qed.

Lemma length_issues_of (d : results) :
  Z.of_nat (length (issues_of d checks))
  = down d Dns + down d Ssl + down d Http + down d Ping
  ∧ Z.of_nat (length (recommendations_of d checks))
    = down d Dns + down d Ssl + down d Http + down d Ping.
Proof.
  unfold checks. rewrite !issues_of_cons, !recommendations_of_cons.
  unfold down, issues_of, recommendations_of.
  destruct (fails d Dns), (fails d Ssl), (fails d Http), (fails d Ping),
    (fails d Geoip); split; reflexivity.
Qed.

Lemma explain_results_is_ok (raw_results : results) (mode : string) :
  complete raw_results →
  is_ok (explain_results raw_results mode) = explainable raw_results mode.
Proof.
  intros Hc. unfold explain_results, explainable.
  pose proof (getitem_complete raw_results Dns Hc) as E1.
  pose proof (getitem_complete raw_results Http Hc) as E2.
  pose proof (getitem_complete raw_results Ssl Hc) as E3.
  pose proof (getitem_complete raw_results Ping Hc) as E4.
  pose proof (getitem_complete raw_results Geoip Hc) as E5.
  cbn [key] in *. rewrite E1, E2, E3, E4, E5. cbn [mbind result_bind].
  unfold Explain.explain_ssl, Explain.explain_http.
  destruct (String.eqb mode "beginner"); cbn [orb].
  - destruct (truthy (get (get_outcome raw_results "ssl") "ok"));
      [destruct (get (get_outcome raw_results "ssl") "days_left")|];
      cbn [mbind result_bind];
      destruct (truthy (get (get_outcome raw_results "http") "ok"));
      reflexivity.
  - destruct (method_get _ "organizationName" _); cbn [mbind result_bind is_ok andb];
      [|reflexivity].
    destruct (py_len _); reflexivity.
Qed.

Lemma assess_is_ok
  (portia_client : PortiaAIClient) (raw_results : results)
  (domain mode : string) :
  complete raw_results →
  is_ok (assess portia_client raw_results domain mode)
  = explainable raw_results mode && numeric_metrics raw_results.
Proof.
  intros Hc. unfold assess.
  pose proof (explain_results_is_ok raw_results mode Hc) as He.
  destruct (explain_results raw_results mode) as [ex|]; cbn [is_ok] in He;
    rewrite <- He; [|reflexivity].
  cbn [andb mbind result_bind].
  rewrite (score_by_cases raw_results Hc). cbn [mbind result_bind].
  rewrite get_ai_insights_is_the_fallback_analyzer_any.
  pose proof (fallback_insights_returns_iff raw_results domain) as Hn.
  destruct (_generate_fallback_insights raw_results domain) as [i|];
    cbn [is_ok] in Hn; rewrite <- Hn; [|reflexivity].
  cbn [mbind result_bind].
  destruct (summary_and_fixes_effect raw_results domain Hc)
    as (issues & fixes & _ & _ & ->).
  cbv zeta. destruct (negb (String.eqb (ai_summary i) "")); reflexivity.
Qed.

(** X9. The analysis of a complete outcome set returns a diagnosis
    exactly when the metrics the analyzer compares are numbers and the
    records can be explained in the given mode; otherwise it raises
    ([TypeError] or [AttributeError]) and there is no diagnosis. *)
Theorem assess_returns_iff
  (portia_client : PortiaAIClient) (raw_results : results)
  (domain mode : string) :
  complete raw_results →
  (∃ dg, assess portia_client raw_results domain mode = Ok dg)
  ↔ explainable raw_results mode = true ∧ numeric_metrics raw_results = true.
Proof.
  intros Hc.
  pose proof (assess_is_ok portia_client raw_results domain mode Hc) as H.
  rewrite <- andb_true_iff, <- H.
  destruct (assess portia_client raw_results domain mode) as [dg|e]; cbn.
  - split; [reflexivity | intros _; eauto].
  - split; [intros [dg [=]] | discriminate].
Qed.

Lemma assess_returns_iff_witness :
  ((∃ dg, assess (new_client None) odd_issuer "example.com" "beginner" = Ok dg)
   ↔ explainable odd_issuer "beginner" = true
     ∧ numeric_metrics odd_issuer = true)
  ∧ explainable odd_issuer "beginner" = true
  ∧ explainable odd_issuer "expert" = false.
Proof.
  split; [|split; reflexivity].
  apply (assess_returns_iff (new_client None) odd_issuer "example.com"
           "beginner").
  apply complete_outcome_set.
Defined.

(** X10. When the analysis returns, the diagnosis holds the outcome set it
    was given and the health score of that set; its summary is always the
    analyzer's summary (the locally generated summaries are not used), and
    its fix suggestions are three lines for each failing category among
    DNS, TLS, HTTP and Ping and one line for a failing GeoIP lookup. *)
Theorem diagnosis_fields
  (portia_client : PortiaAIClient) (raw_results : results)
  (domain mode : string) :
  complete raw_results →
  numeric_metrics raw_results = true →
  explainable raw_results mode = true →
  ∃ dg, assess portia_client raw_results domain mode = Ok dg
    ∧ raw dg = raw_results
    ∧ health_score dg = 100 - total_penalty (failing raw_results)
    ∧ _generate_fallback_insights raw_results domain = Ok (ai_insights dg)
    ∧ summary dg = ai_summary (ai_insights dg)
    ∧ Z.of_nat (length (fix_suggestions dg))
      = 3 * (down raw_results Dns + down raw_results Ssl
             + down raw_results Http + down raw_results Ping)
        + down raw_results Geoip.
Proof.
  intros Hc Hnum Hex. unfold assess.
  pose proof (explain_results_is_ok raw_results mode Hc) as He.
  rewrite Hex in He.
  destruct (explain_results raw_results mode) as [ex|]; [|discriminate].
  cbn [mbind result_bind].
  rewrite (score_by_cases raw_results Hc). cbn [mbind result_bind].
  rewrite get_ai_insights_is_the_fallback_analyzer_any.
  destruct (fallback_insights_effect raw_results domain Hnum)
    as (i & Hi & Hrca & Hrec & _).
  rewrite Hi. cbn [mbind result_bind].
  destruct (summary_and_fixes_effect raw_results domain Hc)
    as (issues & fixes & _ & Hfix & ->).
  cbv zeta. rewrite (ai_summary_not_empty raw_results domain i Hi).
  cbn [negb mbind result_bind]. eexists. split; [reflexivity|].
  cbn [raw health_score ai_insights summary fix_suggestions].
  split; [reflexivity|]. split.
  { rewrite total_penalty_failing.
    destruct (fails raw_results Dns), (fails raw_results Http),
      (fails raw_results Ssl), (fails raw_results Ping),
      (fails raw_results Geoip); reflexivity. }
  split; [reflexivity|]. split; [reflexivity|].
  rewrite length_app, length_map, Hrec, Nat2Z.inj_add, Hfix.
  destruct (length_issues_of raw_results) as [_ ->]. lia.
Qed.

Lemma diagnosis_fields_witness :
  ∃ dg, assess (new_client None) ssl_http_down "example.com" "expert" = Ok dg
    ∧ raw dg = ssl_http_down
    ∧ health_score dg = 55
    ∧ _generate_fallback_insights ssl_http_down "example.com"
      = Ok (ai_insights dg)
    ∧ summary dg = ai_summary (ai_insights dg)
    ∧ Z.of_nat (length (fix_suggestions dg)) = 6.
Proof.
  apply (diagnosis_fields (new_client None) ssl_http_down "example.com"
           "expert").
  - apply complete_outcome_set.
  - vm_compute. reflexivity.
  - vm_compute. reflexivity.
Defined.

End Scores.

(* ===================================================================== *)
(** * The records the probes build, and whole runs *)
(* ===================================================================== *)

Section Runs.

Import Portia Probes Agent.

(** X11. When the request returns and the second reading of the clock is
    not before the first, the [response_time_ms] that [http_check] records
    is an integer that is not negative, within one millisecond (and the
    rounding of the float subtraction and multiplication, less than 1/64)
    of the difference of the two readings. *)
Theorem http_check_response_time
  (w : world) (target : string) (h : list event) (r : response) :
  let url := _prepare_url target in
  let start := perf_counter w h in
  let stop := perf_counter w (h ++ [Net PerfCounter] ++ [Net (HttpGet url)]) in
  http_get w (h ++ [Net PerfCounter]) url = Ok r →
  (start <= stop)%Q →
  ∃ o h' ms, http_check w target h = (Ok o, h')
    ∧ o !! "response_time_ms" = Some (PInt ms)
    ∧ o !! "error" = None
    ∧ 0 ≤ ms
    ∧ (inject_Z ms <= (stop - start) * 1000 + (1 # 64))%Q
    ∧ ((stop - start) * 1000 < inject_Z ms + 1 + (1 # 64))%Q.
Proof.
  intros url start stop Hr Hclock.
  destruct (elapsed_ms_close start stop (perf_counter_bound _ _)
              (perf_counter_bound _ _) Hclock)
    as (ms & Hms & Hpos & Hlo & Hhi).
  unfold http_check, try_except, ask, lift.
  cbv beta iota zeta delta [mbind io_bind mret io_ret].
  fold url. rewrite Hr. rewrite <- !app_assoc. fold start. fold stop.
  rewrite Hms.
  eexists. eexists. exists ms.
  split; [reflexivity|]. split; [reflexivity|]. split; [reflexivity|].
  split; [exact Hpos|]. split; [exact Hlo | exact Hhi].
Qed.

Lemma http_check_response_time_witness :
  ∃ o h' ms, http_check calm_world "example.com" [] = (Ok o, h')
    ∧ o !! "response_time_ms" = Some (PInt ms)
    ∧ 0 ≤ ms.
Proof.
  destruct (http_check_response_time calm_world "example.com" []
              (Response 200 "https://example.com" []))
    as (o & h' & ms & Ho & Hms & _ & Hpos & _).
  - reflexivity.
  - vm_compute. discriminate.
  - exists o, h', ms. auto.
Defined.

(** The readings 0.0 and 0.009 of the clock give 9 milliseconds: the
    float product is 9.0, where the exact product of the two floats by
    1000 is below 9. *)
Example http_check_nine_milliseconds :
  (match http_check nine_ms_world "example.com" [] with
   | (Ok o, _) => o !! "response_time_ms"
   | (Raise _, _) => None
   end = Some (PInt 9))
  ∧ Qltb ((perf_counter nine_ms_world [Net PerfCounter]
           - perf_counter nine_ms_world []) * 1000) 9 = true.
Proof. split; vm_compute; reflexivity. Qed.



(** A delay of 0.000125 s gives a latency of 0.12: the float product is
    0.125, a tie that goes to the even digit, where the exact product of
    the float by 1000 is above 0.125. *)
Example ping_host_latency_tie :
  (match ping_host tie_world "example.com" [] with
   | (Ok o, _) => o !! "latency_ms"
   | (Raise _, _) => None
   end = Some (PFloat (round_nearest_even (12 # 100))))
  ∧ Qltb (1 # 8) (round_nearest_even (1 # 8000) * 1000) = true.
Proof. split; vm_compute; reflexivity. Qed.



(** The record [http_check] builds can always be analysed and explained:
    the response time, when present, is an integer and the redirect chain,
    when present, is a list. *)
Lemma http_check_record (w : world) (target : string) (h : list event) :
  ∃ o t, http_check w target h = (Ok o, h ++ t)
    ∧ (t = [Net PerfCounter; Net (HttpGet (_prepare_url target))]
       ∨ t = [Net PerfCounter; Net (HttpGet (_prepare_url target));
              Net PerfCounter])
    ∧ is_number (get_or o "response_time_ms" (PInt 0)) = true
    ∧ is_ok (py_len (get_or o "redirect_chain" (PList []))) = true.
Proof.
  unfold http_check, try_except, ask, lift.
  cbv beta iota zeta delta [mbind io_bind mret io_ret].
  destruct (http_get w (h ++ [Net PerfCounter]) (_prepare_url target))
    as [r|e].
  - match goal with
    | |- context [py_int (mul_int (sub (perf_counter w ?h2)
                                     (perf_counter w ?h1)) 1000)] =>
        destruct (elapsed_ms_returns w h1 h2) as [ms ->]
    end.
    eexists. exists [Net PerfCounter; Net (HttpGet (_prepare_url target));
                     Net PerfCounter].
    rewrite <- !app_assoc. split; [reflexivity|]. split; [auto|].
    split; vm_compute; reflexivity.
  - eexists. exists [Net PerfCounter; Net (HttpGet (_prepare_url target))].
    rewrite <- !app_assoc. split; [reflexivity|]. split; [auto|].
    split; vm_compute; reflexivity.
Qed.

Lemma probe_http_check_record (w : world) (domain : string) (h : list event) :
  ∃ o t, probe Http (http_check w domain) h
         = (Ok o, h ++ Enter Http :: t ++ [Leave Http])
    ∧ (t = [Net PerfCounter; Net (HttpGet (_prepare_url domain))]
       ∨ t = [Net PerfCounter; Net (HttpGet (_prepare_url domain));
              Net PerfCounter])
    ∧ is_number (get_or o "response_time_ms" (PInt 0)) = true
    ∧ is_ok (py_len (get_or o "redirect_chain" (PList []))) = true.
Proof.
  unfold probe.
  destruct (http_check_record w domain (h ++ [Enter Http]))
    as (o & t & -> & Ht & Hrt & Hchain).
  exists o, t. split; [|auto].
  rewrite <- !app_assoc. reflexivity.
Qed.

(** The record [ping_host] builds can always be analysed: a successful
    one holds a number as latency. *)
Lemma probe_ping_host_record (w : world) (domain host : string)
  (h : list event) :
  normalize_target domain = Ok host →
  ∃ o, probe Ping (ping_host w domain) h
       = (Ok o, h ++ [Enter Ping; Net (Ping3 host 2); Leave Ping])
    ∧ failed o || is_number (get_or o "latency_ms" (PInt 0)) = true.
Proof.
  intros Hhost. unfold probe, ping_host, try_except, ask, lift.
  cbv beta iota delta [mbind io_bind mret io_ret]. rewrite Hhost.
  destruct (ping w _ host 2) as [[rtt| |]|e];
    eexists; rewrite <- !app_assoc; (split; [reflexivity|]).
  - generalize (round2 (mul_int (Finite rtt) 1000)).
    intros [q|negative]; vm_compute; reflexivity.
  - vm_compute. reflexivity.
  - vm_compute. reflexivity.
  - vm_compute. reflexivity.
Qed.

(** X14. A run returns a diagnosis whenever the TLS probe and the GeoIP
    probe return and the TLS record is usable in the given mode (numeric
    days left; outside the beginner mode, an issuer that is a dictionary):
    nothing that the DNS, HTTP and ping probes can report makes the
    analysis raise.  All five probes are then called, in order. *)
Theorem run_diagnostics_returns
  (w : world) (portia_client : PortiaAIClient) (domain mode : string) :
  (∀ h, ∃ ssl, ssl_certificate_check w h domain = Ok ssl
               ∧ usable_tls_record ssl mode = true) →
  (∀ h, ∃ geoip, geoip_lookup w h domain = Ok geoip) →
  ∃ dg h, run_diagnostics w portia_client domain mode [] = (Ok dg, h)
    ∧ complete (raw dg)
    ∧ sequential_run None h = Some checks.
Proof.
  intros Hssl Hgeo.
  destruct (normalize_target_returns domain) as [host Hhost].
  rewrite run_diagnostics_collect. unfold collect_raw_results.
  cbv beta iota delta [mbind io_bind mret io_ret].
  destruct (probe_dns_resolution w domain host [] Hhost) as (dns & ->).
  rewrite probe_ask.
  match goal with
  | |- context [ssl_certificate_check w ?h domain] =>
      destruct (Hssl h) as (ssl & -> & Husable)
  end.
  match goal with
  | |- context [probe Http (http_check w domain) ?h] =>
      destruct (probe_http_check_record w domain h)
        as (http & t & -> & Ht & Hrt & Hchain)
  end.
  match goal with
  | |- context [probe Ping (ping_host w domain) ?h] =>
      destruct (probe_ping_host_record w domain host h Hhost)
        as (ping & -> & Hlat)
  end.
  rewrite probe_ask.
  match goal with
  | |- context [geoip_lookup w ?h domain] =>
      destruct (Hgeo h) as (geoip & ->)
  end.
  cbn [mbind result_bind].
  set (raw_results := <["dns":=dns]> (<["ssl":=ssl]> (<["http":=http]>
                        (<["ping":=ping]> {["geoip" := geoip]})))).
  assert (Hc : complete raw_results) by (intros []; vm_compute; eauto).
  pose proof (assess_is_ok portia_client raw_results domain mode Hc) as Hok.
  assert (Hgood : explainable raw_results mode && numeric_metrics raw_results
                  = true).
  { unfold explainable, numeric_metrics.
    change (get_outcome raw_results "ssl") with ssl.
    change (get_outcome raw_results "http") with http.
    change (get_outcome raw_results "ping") with ping.
    unfold usable_tls_record in Husable.
    apply andb_true_iff in Husable as [-> Hissuer].
    rewrite Hrt, Hchain, Hlat, orb_true_r, andb_true_r. cbn [andb].
    rewrite andb_true_r. exact Hissuer. }
  rewrite Hgood in Hok.
  destruct (assess portia_client raw_results domain mode) as [dg|e] eqn:Ha;
    [|discriminate].
  exists dg. eexists. split; [reflexivity|]. split.
  - unfold assess in Ha.
    destruct (explain_results raw_results mode); [|discriminate].
    cbn [mbind result_bind] in Ha.
    destruct (_calculate_health_score raw_results); [|discriminate].
    cbn [mbind result_bind] in Ha.
    destruct (get_ai_insights portia_client raw_results domain);
      [|discriminate].
    cbn [mbind result_bind] in Ha.
    destruct (_generate_summary_and_fixes raw_results domain _) as [[? ?]|];
      [|discriminate].
    injection Ha as <-. exact Hc.
  - destruct Ht as [-> | ->]; reflexivity.
Qed.

Lemma run_diagnostics_returns_witness :
  ∃ dg h, run_diagnostics calm_world (new_client None) "example.com" "expert" []
          = (Ok dg, h)
    ∧ complete (raw dg)
    ∧ sequential_run None h = Some checks.
Proof.
  apply (run_diagnostics_returns calm_world (new_client None) "example.com"
           "expert").
  - intros h. eexists. split; reflexivity.
  - intros h. eexists. reflexivity.
Defined.

(** X15. [run_diagnostics] has no handler of its own: when the TLS probe
    raises, the run raises the same exception, and the HTTP, ping and
    GeoIP probes are never called. *)
Theorem tls_probe_fault_aborts_the_run
  (w : world) (portia_client : PortiaAIClient) (domain mode host : string)
  (e : exn) :
  normalize_target domain = Ok host →
  ssl_certificate_check w
    [Enter Dns; Net (Gethostbyname host); Leave Dns; Enter Ssl] domain
  = Raise e →
  run_diagnostics w portia_client domain mode []
  = (Raise e,
     [Enter Dns; Net (Gethostbyname host); Leave Dns;
      Enter Ssl; Net (SslCertificateCheck domain); Leave Ssl]).
Proof.
  intros Hhost Hssl.
  rewrite run_diagnostics_collect. unfold collect_raw_results.
  cbv beta iota delta [mbind io_bind mret io_ret].
  destruct (probe_dns_resolution w domain host [] Hhost) as (dns & ->).
  rewrite probe_ask. cbn [app]. rewrite Hssl. reflexivity.
Qed.

Lemma tls_probe_fault_aborts_the_run_witness :
  run_diagnostics tls_fault_world (new_client None) "example.com" "beginner" []
  = (Raise (Exn "SSLError" "handshake failure"),
     [Enter Dns; Net (Gethostbyname "example.com"); Leave Dns;
      Enter Ssl; Net (SslCertificateCheck "example.com"); Leave Ssl]).
Proof.
  apply (tls_probe_fault_aborts_the_run tls_fault_world (new_client None)
           "example.com" "beginner" "example.com"); reflexivity.
Defined.

End Runs.

(* ===================================================================== *)
(** * The client's key and the explanations *)
(* ===================================================================== *)

Section KeyAndExplanations.

Import Portia Probes Explain.

Lemma drop_chars_app (p r : string) :
  drop_chars (String.length p) (p +:+ r) = r.
Proof. induction p as [|a p IH]; [reflexivity | exact IH]. Qed.

Lemma length_append (p r : string) :
  String.length (p +:+ r) = (String.length p + String.length r)%nat.
Proof.
  induction p as [|a p IH]; [reflexivity|].
  change (S (String.length (p +:+ r))
          = S (String.length p + String.length r)).
  rewrite IH. reflexivity.
Qed.

Ltac each_whitespace H :=
  apply list_elem_of_In in H; vm_compute in H;
  repeat (destruct H as [<- | H]); [.. | destruct H].

(** A whitespace character is not empty. *)
Lemma whitespace_length (c : string) :
  c ∈ whitespace → (1 ≤ String.length c)%nat.
Proof. intros H. each_whitespace H; vm_compute; lia. Qed.

(** [lstrip] removes a whitespace character at the start: no whitespace
    character is the start of another. *)
Lemma lstrip_whitespace (c s : string) :
  c ∈ whitespace → lstrip (c +:+ s) = lstrip s.
Proof. intros H. each_whitespace H; reflexivity. Qed.

Lemma isspace_whitespace (c : string) : isspace c = true → c ∈ whitespace.
Proof.
  unfold isspace. intros H. apply existsb_exists in H as (x & Hx & E).
  apply String.eqb_eq in E as ->. apply list_elem_of_In, Hx.
Qed.

(** One step of [lstrip]: it stops, or it removes a whitespace character. *)
Lemma lstrip_step (s : string) :
  lstrip s = s
  ∨ ∃ c s', c ∈ whitespace ∧ s = c +:+ s' ∧ lstrip s = lstrip s'.
Proof.
  destruct s as [|a s1]; [left; reflexivity|]. cbn [lstrip].
  destruct (isspace (String a "")) eqn:E1.
  { right. exists (String a ""), s1.
    split; [apply isspace_whitespace, E1 | split; reflexivity]. }
  destruct s1 as [|b s2]; [left; reflexivity|].
  destruct (isspace (String a (String b ""))) eqn:E2.
  { right. exists (String a (String b "")), s2.
    split; [apply isspace_whitespace, E2 | split; reflexivity]. }
  destruct s2 as [|c s3]; [left; reflexivity|].
  destruct (isspace (String a (String b (String c "")))) eqn:E3.
  { right. exists (String a (String b (String c ""))), s3.
    split; [apply isspace_whitespace, E3 | split; reflexivity]. }
  left. reflexivity.
Qed.

Lemma by_length (P : string → Prop) :
  (∀ s, (∀ t, (String.length t < String.length s)%nat → P t) → P s) →
  ∀ s, P s.
Proof.
  intros H s. remember (String.length s) as n eqn:E.
  revert s E. induction (lt_wf n) as [n _ IH]. intros s ->.
  apply H. intros t Ht. apply (IH _ Ht t eq_refl).
Qed.

Lemma lstrip_idempotent (s : string) : lstrip (lstrip s) = lstrip s.
Proof.
  induction s as [s IH] using by_length.
  destruct (lstrip_step s) as [E | (c & s' & Hc & -> & E)].
  - rewrite !E. reflexivity.
  - rewrite E. apply IH. rewrite length_append.
    pose proof (whitespace_length c Hc). lia.
Qed.

(** [lstrip] leaves nothing exactly of the texts made of whitespace. *)
Lemma lstrip_whitespace_only (s : string) :
  lstrip s = "" ↔ whitespace_only s.
Proof.
  split.
  - induction s as [s IH] using by_length. intros H.
    destruct (lstrip_step s) as [E | (c & s' & Hc & -> & E)].
    + rewrite E in H. subst s. constructor.
    + constructor; [exact Hc|]. apply IH; [|congruence].
      rewrite length_append. pose proof (whitespace_length c Hc). lia.
  - induction 1 as [|c s Hc _ IH]; [reflexivity|].
    rewrite lstrip_whitespace by exact Hc. exact IH.
Qed.

Lemma blank_within_whitespace_only (n : nat) (s : string) :
  blank_within n s = true → whitespace_only s.
Proof.
  revert s. induction n as [|n IH]; intros s H.
  - destruct s; [constructor | discriminate].
  - destruct s as [|a s]; [constructor|].
    cbn [blank_within] in H. apply existsb_exists in H as (c & Hc & H).
    destruct (startswith (String a s) c) eqn:Hs; [|discriminate].
    rewrite (startswith_app _ _ Hs).
    constructor; [apply list_elem_of_In, Hc | apply IH, H].
Qed.

Lemma whitespace_only_blank_within (s : string) :
  whitespace_only s →
  ∀ n, (String.length s ≤ n)%nat → blank_within n s = true.
Proof.
  induction 1 as [|c s Hc _ IH]; intros n Hn.
  - destruct n; reflexivity.
  - pose proof (whitespace_length c Hc) as Hl.
    rewrite length_append in Hn.
    destruct n as [|n]; [lia|].
    destruct (c +:+ s) as [|a t] eqn:E; [reflexivity|].
    cbn [blank_within]. rewrite <- E. apply existsb_exists.
    exists c. split; [apply list_elem_of_In, Hc|].
    rewrite startswith_self_app, drop_chars_app. apply IH. lia.
Qed.

(** [blank] decides [whitespace_only]. *)
Lemma blank_iff (s : string) : blank s = true ↔ whitespace_only s.
Proof.
  split.
  - apply blank_within_whitespace_only.
  - intros H. apply (whitespace_only_blank_within s H). lia.
Qed.

Lemma lstrip_empty_iff (s : string) : lstrip s = "" ↔ blank s = true.
Proof. rewrite lstrip_whitespace_only, blank_iff. reflexivity. Qed.

Lemma rstrip_empty_iff (s : string) : rstrip s = "" ↔ lstrip s = "".
Proof.
  destruct s as [|a s]; [reflexivity|]. cbn [rstrip].
  destruct (String.eqb (lstrip (String a s)) "") eqn:E.
  - apply String.eqb_eq in E. tauto.
  - apply String.eqb_neq in E. split; [discriminate | contradiction].
Qed.

Lemma strip_empty_iff (s : string) : strip s = "" ↔ blank s = true.
Proof.
  unfold strip.
  rewrite rstrip_empty_iff, lstrip_idempotent. apply lstrip_empty_iff.
Qed.

(** X16. The client counts as available exactly when a key is configured
    and the key is not made of whitespace only: no key, the empty key and
    a key of whitespace characters (those of [str.isspace], the no-break
    space among them) all mean "not available". *)
Theorem is_available_iff (self : PortiaAIClient) :
  is_available self = true
  ↔ ∃ k, api_key self = Some k ∧ blank k = false.
Proof.
  unfold is_available. destruct (api_key self) as [k|].
  - pose proof (strip_empty_iff k) as H.
    destruct (String.eqb (strip k) "") eqn:E; cbn [negb].
    + apply String.eqb_eq in E. apply H in E. split; [discriminate|].
      intros (k' & [= <-] & Hb). congruence.
    + split; [|reflexivity]. intros _. exists k. split; [reflexivity|].
      destruct (blank k); [|reflexivity].
      rewrite (proj2 H eq_refl) in E. discriminate.
  - split; [discriminate|]. intros (k & [=] & _).
Qed.

(** A key made of a no-break space and an ideographic space is no key,
    and such characters are removed around a key as spaces are. *)
Example no_break_space_key :
  is_available (new_client (Some (utf8 0xA0 +:+ utf8 0x3000))) = false
  ∧ strip (utf8 0xA0 +:+ " prt-123" +:+ utf8 0x2028) = "prt-123"
  ∧ is_available (new_client (Some (utf8 0x200B))) = true.
Proof. repeat split; vm_compute; reflexivity. Qed.

(** X17. Every mode other than ["beginner"] is the expert mode: the five
    explanations of a record are the same for any two such modes.  In the
    beginner mode the explanations of the TLS and the HTTP record never
    raise, whatever the record holds. *)
Theorem explanations_by_mode (result : outcome) (mode mode' : string) :
  mode ≠ "beginner" →
  mode' ≠ "beginner" →
  explain_dns result mode = explain_dns result mode'
  ∧ explain_ssl result mode = explain_ssl result mode'
  ∧ explain_http result mode = explain_http result mode'
  ∧ explain_ping result mode = explain_ping result mode'
  ∧ explain_geoip result mode = explain_geoip result mode'
  ∧ is_ok (explain_ssl result "beginner") = true
  ∧ is_ok (explain_http result "beginner") = true.
Proof.
  intros H H'.
  apply String.eqb_neq in H. apply String.eqb_neq in H'.
  unfold explain_dns, explain_ssl, explain_http, explain_ping, explain_geoip.
  rewrite H, H'. cbn [String.eqb Ascii.eqb Bool.eqb].
  repeat split;
    destruct (truthy (get result "ok")); try reflexivity.
  destruct (get result "days_left"); reflexivity.
Qed.

Lemma explanations_by_mode_witness :
  explain_dns ok_record "expert" = explain_dns ok_record "Beginner"
  ∧ explain_ping ok_record "expert" = explain_ping ok_record "".
Proof.
  destruct (explanations_by_mode ok_record "expert" "Beginner")
    as (H1 & _); [discriminate | discriminate |].
  destruct (explanations_by_mode ok_record "expert" "")
    as (_ & _ & _ & H4 & _); [discriminate | discriminate |].
  split; [exact H1 | exact H4].
Defined.

End KeyAndExplanations.

(* ===================================================================== *)
(** * Properties of the request handlers *)
(* ===================================================================== *)

Section Handlers.

Import Portia Probes Agent App.

(** X18. The three handlers never raise: whatever the request holds and
    whatever the probes, the analysis or the world do, each handler
    returns a response. *)
Theorem handlers_never_raise
  (w : world) (portia_client : PortiaAIClient) (f : fields)
  (h : list event) :
  is_ok (diagnose w portia_client f h).1 = true
  ∧ is_ok (api_diagnose w portia_client f h).1 = true
  ∧ is_ok (api_ai_insights w portia_client f h).1 = true.
Proof.
  unfold diagnose, api_diagnose, api_ai_insights, try_except, lift.
  cbv beta iota zeta delta [mbind io_bind mret io_ret].
  split; [|split].
  - destruct (String.eqb _ ""); [reflexivity|].
    destruct (run_diagnostics w portia_client _ _ h) as [[dg|e] h'];
      reflexivity.
  - destruct (String.eqb _ ""); [reflexivity|].
    destruct (run_diagnostics w portia_client _ _ h) as [[dg|e] h'];
      reflexivity.
  - destruct (String.eqb _ ""); [reflexivity|].
    destruct (collect_raw_results w _ h) as [[raw_results|e] h'];
      [|reflexivity].
    destruct (get_ai_insights portia_client raw_results _); reflexivity.
Qed.






Lemma assess_insights
  (portia_client : PortiaAIClient) (raw_results : results)
  (domain mode : string) (dg : diagnosis) :
  assess portia_client raw_results domain mode = Ok dg →
  get_ai_insights portia_client raw_results domain = Ok (ai_insights dg).
Proof.
  unfold assess.
  destruct (explain_results raw_results mode); [|discriminate].
  cbn [mbind result_bind].
  destruct (_calculate_health_score raw_results); [|discriminate].
  cbn [mbind result_bind].
  destruct (get_ai_insights portia_client raw_results domain) as [i|];
    [|discriminate].
  cbn [mbind result_bind].
  destruct (_generate_summary_and_fixes raw_results domain _) as [[? ?]|];
    [|discriminate].
  intros [= <-]. reflexivity.
Qed.

(** X21. The two API handlers agree: whenever [api_diagnose] answers a
    request with a diagnosis, [api_ai_insights] answers the same request
    (in the same world) with the insights of that diagnosis, after the
    same calls to the world. *)
Theorem api_handlers_agree
  (w : world) (portia_client : PortiaAIClient) (f : fields)
  (h h' : list event) (dg : diagnosis) :
  api_diagnose w portia_client f h = (Ok (Diagnosed dg), h') →
  api_ai_insights w portia_client f h
  = (Ok (Insight (ai_insights dg) (is_available portia_client)), h').
Proof.
  unfold api_diagnose, api_ai_insights, try_except, lift.
  cbv beta iota zeta delta [mbind io_bind mret io_ret].
  destruct (String.eqb _ ""); [discriminate|].
  rewrite run_diagnostics_collect.
  destruct (collect_raw_results w _ h) as [[raw_results|e] h1];
    cbn [mbind result_bind]; [|discriminate].
  destruct (assess portia_client raw_results _ _) as [dg'|e] eqn:Ha;
    [|discriminate].
  intros [= <- <-]. rewrite (assess_insights _ _ _ _ _ Ha). reflexivity.
Qed.

Lemma api_handlers_agree_witness :
  ∃ dg h',
    api_diagnose calm_world (new_client None) padded_request []
    = (Ok (Diagnosed dg), h')
    ∧ api_ai_insights calm_world (new_client None) padded_request []
      = (Ok (Insight (ai_insights dg) false), h').
Proof.
  destruct (api_diagnose calm_world (new_client None) padded_request [])
    as [[[err|dg|i b]|e] h'] eqn:H;
    try (vm_compute in H; discriminate).
  exists dg, h'. split; [reflexivity|].
  apply (api_handlers_agree calm_world (new_client None) padded_request []
           h' dg H).
Defined.

End Handlers.

(* ===================================================================== *)
(** * Metrics, predicted issues and what they do not change *)
(* ===================================================================== *)

Section Metrics.

Import Portia Agent.

Lemma issue_categories_cons (d : results) (c : check) (order : list check) :
  map category (issues_of d (c :: order))
  = (if fails d c
     then match c with
          | Dns => ["DNS"] | Ssl => ["SSL"] | Http => ["HTTP"]
          | Ping => ["Network"] | Geoip => []
          end
     else []) ++ map category (issues_of d order).
Proof.
  rewrite issues_of_cons, map_app.
  destruct (fails d c); [|reflexivity]. destruct c; reflexivity.
Qed.

(** X22. The risk level, the categories of the issues, the
    recommendations, the performance score and the health score depend
    only on which categories fail: two outcome sets with the same failing
    categories get the same of each, whatever their metrics, error texts
    and other fields are. *)
Theorem assessment_depends_on_failures_only
  (d d' : results) (target : string) :
  complete d → complete d' →
  numeric_metrics d = true → numeric_metrics d' = true →
  (∀ c, fails d c = fails d' c) →
  ∃ i i' score,
    _generate_fallback_insights d target = Ok i
    ∧ _generate_fallback_insights d' target = Ok i'
    ∧ risk_assessment i = risk_assessment i'
    ∧ map category (root_cause_analysis i)
      = map category (root_cause_analysis i')
    ∧ intelligent_recommendations i = intelligent_recommendations i'
    ∧ performance_score i = performance_score i'
    ∧ _calculate_health_score d = Ok score
    ∧ _calculate_health_score d' = Ok score.
Proof.
  intros Hc Hc' Hn Hn' Hsame.
  destruct (fallback_insights_effect d target Hn)
    as (i & Hi & Hrca & Hrec & Hrisk & Hsc).
  destruct (fallback_insights_effect d' target Hn')
    as (i' & Hi' & Hrca' & Hrec' & Hrisk' & Hsc').
  exists i, i'. eexists. split; [exact Hi|]. split; [exact Hi'|].
  rewrite Hrisk, Hrisk', !final_risk_fold, Hrca, Hrca', Hrec, Hrec', Hsc, Hsc'.
  rewrite (score_by_cases d Hc), (score_by_cases d' Hc').
  unfold checks, final_risk, score_of.
  rewrite !issue_categories_cons, !recommendations_of_cons. cbn [foldr].
  rewrite !Hsame. repeat split; reflexivity.
Qed.

Lemma assessment_depends_on_failures_only_witness :
  ∃ i i' score,
    _generate_fallback_insights all_up "example.com" = Ok i
    ∧ _generate_fallback_insights (timings_with 9000 (900 # 1)) "example.com"
      = Ok i'
    ∧ risk_assessment i = risk_assessment i'
    ∧ map category (root_cause_analysis i)
      = map category (root_cause_analysis i')
    ∧ intelligent_recommendations i = intelligent_recommendations i'
    ∧ performance_score i = performance_score i'
    ∧ _calculate_health_score all_up = Ok score
    ∧ _calculate_health_score (timings_with 9000 (900 # 1)) = Ok score.
Proof.
  apply (assessment_depends_on_failures_only all_up
           (timings_with 9000 (900 # 1)) "example.com").
  - unfold all_up. apply complete_outcome_set.
  - unfold timings_with. apply complete_outcome_set.
  - vm_compute. reflexivity.
  - vm_compute. reflexivity.
  - intros []; vm_compute; reflexivity.
Defined.

(** X23. With every category succeeding, a response time above 3000 ms
    adds one predicted issue of type "performance" and a latency above
    200 ms one of type "latency" (3000 and 200 themselves add nothing);
    the risk stays low and no issue is reported. *)
Theorem slow_answers_are_predicted_issues
  (response_time_ms : Z) (latency_ms : Q) (target : string) :
  ∃ i, _generate_fallback_insights
         (timings_with response_time_ms latency_ms) target = Ok i
    ∧ map type (predicted_issues i)
      = (if 3000 <? response_time_ms then ["performance"] else [])
        ++ (if Qltb (inject_Z 200) latency_ms then ["latency"] else [])
    ∧ risk_assessment i = "low"
    ∧ root_cause_analysis i = [].
Proof.
  set (d := timings_with response_time_ms latency_ms).
  set (slow := PredictedIssue "performance"
                 [Lit "Slow response time: "; Val (PInt response_time_ms);
                  Lit "ms"]
                 "Optimize server performance or consider CDN"
                 "ongoing monitoring recommended").
  set (late := PredictedIssue "latency"
                 [Lit "High latency: "; Val (PFloat latency_ms); Lit "ms"]
                 "Investigate network path or consider closer servers"
                 "ongoing monitoring recommended").
  assert (Hssl : ∀ i, analyze_ssl d i = Ok (add_score 25 i)).
  { intros [rca recs risk score preds summ]. vm_compute. reflexivity. }
  assert (Hhttp : ∀ i, analyze_http d i =
                       if 3000 <? response_time_ms
                       then Ok (append_predicted slow (add_score 25 i))
                       else Ok (add_score 25 i)).
  { intros [rca recs risk score preds summ]. vm_compute.
    destruct response_time_ms as [|p|p]; reflexivity. }
  assert (Hping : ∀ i, analyze_ping d i =
                       if Qltb (inject_Z 200) latency_ms
                       then Ok (append_predicted late (add_score 15 i))
                       else Ok (add_score 15 i)).
  { intros [rca recs risk score preds summ].
    unfold analyze_ping.
    replace (get_outcome d "ping")
      with (<["ok" := PBool true]> {[ "latency_ms" := PFloat latency_ms ]}
            : outcome) by (vm_compute; reflexivity).
    replace (get (<["ok" := PBool true]>
                    {[ "latency_ms" := PFloat latency_ms ]}) "ok")
      with (PBool true) by (vm_compute; reflexivity).
    replace (get_or (<["ok" := PBool true]>
                       {[ "latency_ms" := PFloat latency_ms ]})
               "latency_ms" (PInt 0))
      with (PFloat latency_ms) by (vm_compute; reflexivity).
    cbn [truthy negb py_gt mbind result_bind].
    destruct (Qltb (inject_Z 200) latency_ms); reflexivity. }
  assert (Hdns : analyze_dns d initial_insights
                 = add_score 25 initial_insights)
    by (vm_compute; reflexivity).
  assert (Hgeo : ∀ i, analyze_geoip d i = add_score 10 i).
  { intros [rca recs risk score preds summ]. vm_compute. reflexivity. }
  unfold _generate_fallback_insights. cbv zeta.
  rewrite Hdns, Hssl. cbn [mbind result_bind]. rewrite Hhttp.
  destruct (3000 <? response_time_ms); cbn [mbind result_bind];
    rewrite Hping;
    destruct (Qltb (inject_Z 200) latency_ms); cbn [mbind result_bind];
    rewrite Hgeo; eexists; (split; [reflexivity|]);
    repeat split; reflexivity.
Qed.

End Metrics.
